(** * DCAT-BR catalogue conversion: a shallow embedding of the Python scripts

    The development follows the sources under [scripts/]:
    - [utils/date_utils.py]    : [normalize_date]
    - [utils/vocabularies.py]  : [_parse_csv], [load_vocab], [convert_to_iri]
    - [api_to_rdf.py]          : [_get_extra_value], [api_to_rdf]
    - [validate_rdf.py]        : [_detect_rdf_format], [validate_rdf]

    Python strings are sequences of Unicode code points, so a [pystr] is a
    list of code points.  Exceptions are explicit: a computation returns
    [Ok v] or [Raise e].  Python's [None] is the value [PNone], or the
    [None] of an [option] where the function returns [Optional[str]]. *)

From Stdlib Require Import ZArith NArith List String Ascii Bool Lia.
From Stdlib Require Import Floats.SpecFloat.
From stdpp Require Import base decidable option list gmap.

Local Open Scope Z_scope.

(** ** Python strings *)

Definition pystr := list N.

(** String literals of this file are written in UTF-8; [u] decodes them to
    code points. *)
Fixpoint utf8_decode (bs : list N) : pystr :=
  match bs with
  | [] => []
  | b :: r =>
      if (b <? 128)%N then b :: utf8_decode r
      else if (b <? 224)%N then
        match r with
        | b1 :: r' => ((b - 192) * 64 + (b1 - 128))%N :: utf8_decode r'
        | _ => []
        end
      else if (b <? 240)%N then
        match r with
        | b1 :: b2 :: r' =>
            ((b - 224) * 4096 + (b1 - 128) * 64 + (b2 - 128))%N :: utf8_decode r'
        | _ => []
        end
      else
        match r with
        | b1 :: b2 :: b3 :: r' =>
            ((b - 240) * 262144 + (b1 - 128) * 4096 + (b2 - 128) * 64 + (b3 - 128))%N
              :: utf8_decode r'
        | _ => []
        end
  end.

Definition u (s : string) : pystr :=
  utf8_decode (map N_of_ascii (list_ascii_of_string s)).

Definition str_eqb (a b : pystr) : bool := bool_decide (a = b).

(** [str.isspace] on one character: the code points CPython's
    [Py_UNICODE_ISSPACE] accepts.  [str.strip()] and the regular expression
    class [\s] both use it. *)
Definition is_space (c : N) : bool :=
  ((9 <=? c) && (c <=? 13) || (28 <=? c) && (c <=? 32) || (c =? 133) || (c =? 160)
   || (c =? 5760) || (8192 <=? c) && (c <=? 8202) || (c =? 8232) || (c =? 8233)
   || (c =? 8239) || (c =? 8287) || (c =? 12288))%N.

Fixpoint lstrip (s : pystr) : pystr :=
  match s with
  | c :: r => if is_space c then lstrip r else s
  | [] => []
  end.

Definition rstrip (s : pystr) : pystr := rev (lstrip (rev s)).

(** [s.strip()] *)
Definition strip (s : pystr) : pystr := rstrip (lstrip s).

(** [s.startswith(p)] *)
Fixpoint startswith (p s : pystr) : bool :=
  match p, s with
  | [], _ => true
  | a :: p', b :: s' => (a =? b)%N && startswith p' s'
  | _ :: _, [] => false
  end.

(** [s.endswith(p)] *)
Definition endswith (p s : pystr) : bool := startswith (rev p) (rev s).

(** [p in s] *)
Fixpoint contains (p s : pystr) : bool :=
  startswith p s || match s with [] => false | _ :: s' => contains p s' end.

(** [s.replace(a, b)] for one-character [a] and [b] *)
Definition replace_char (a b : N) (s : pystr) : pystr :=
  map (fun c => if (c =? a)%N then b else c) s.

(** [s.split(sep)] for a one-character separator *)
Fixpoint split_char (sep : N) (s : pystr) : list pystr :=
  match s with
  | [] => [[]]
  | c :: r =>
      if (c =? sep)%N then [] :: split_char sep r
      else match split_char sep r with
           | f :: fs => (c :: f) :: fs
           | [] => [[c]]
           end
  end.

(** [s.split(sep, 1)] for a one-character separator *)
Fixpoint split_once (sep : N) (s : pystr) : list pystr :=
  match s with
  | [] => [[]]
  | c :: r =>
      if (c =? sep)%N then [[]; r]
      else match split_once sep r with
           | f :: fs => (c :: f) :: fs
           | [] => [[c]]
           end
  end.

(** [str(n)] of an integer *)
Fixpoint dec_digits (fuel : nat) (n : N) (acc : pystr) : pystr :=
  match fuel with
  | O => acc
  | S fuel' =>
      let acc' := (48 + n mod 10)%N :: acc in
      if (n / 10 =? 0)%N then acc' else dec_digits fuel' (n / 10)%N acc'
  end.

Definition str_of_nat (n : N) : pystr := dec_digits (S (N.to_nat (N.log2 n))) n [].

Definition str_of_int (z : Z) : pystr :=
  if z <? 0 then 45%N :: str_of_nat (Z.to_N (- z)) else str_of_nat (Z.to_N z).

(** ** Exceptions *)

Inductive exn_kind :=
  ValueError | TypeError | AttributeError | OverflowError | UnicodeDecodeError | OtherError.

Global Instance exn_kind_eq_dec : EqDecision exn_kind.
Proof. solve_decision. Defined.

(** An exception: its class and [str(e)]. *)
Record exn := Exn { exn_class : exn_kind; exn_msg : pystr }.

Inductive res (A : Type) :=
| Ok (a : A)
| Raise (e : exn).
Arguments Ok {A} a.
Arguments Raise {A} e.

Definition rbind {A B} (m : res A) (k : A -> res B) : res B :=
  match m with
  | Ok a => k a
  | Raise e => Raise e
  end.

(** [try: body; except (classes): handler] *)
Definition try_except {A} (body : res A) (classes : list exn_kind) (handler : exn -> res A)
  : res A :=
  match body with
  | Ok a => Ok a
  | Raise e => if bool_decide (exn_class e ∈ classes) then handler e else Raise e
  end.

(** [try: body; except Exception: handler] (and the bare [except:]) *)
Definition try_except_all {A} (body : res A) (handler : exn -> res A) : res A :=
  match body with
  | Ok a => Ok a
  | Raise e => handler e
  end.

Definition raise {A} (k : exn_kind) : res A := Raise (Exn k []).

(** ** Python values, as [json.load] and [csv.DictReader] produce them *)

#[warnings="-register-all"]
Inductive pyval :=
| PNone
| PBool (b : bool)
| PInt (z : Z)
| PFloat (f : spec_float)
| PStr (s : pystr)
| PList (l : list pyval)
| PDict (d : list (pystr * pyval)).

(** A [datetime], as far as [normalize_date] looks at it. *)
Record datetime := Datetime { dt_year : Z; dt_month : Z; dt_day : Z }.

(** ** The Python runtime the scripts call into

    The Unicode character database and the library routines that the
    scripts use as given are parameters of the model. *)
Record PyRuntime := {
  (** [str.lower], [str.upper] *)
  lower : pystr -> pystr;
  upper : pystr -> pystr;
  (** [unicodedata.normalize('NFD', s)] *)
  nfd : pystr -> pystr;
  (** [unicodedata.category(c) == 'Mn'] *)
  is_Mn : N -> bool;
  (** the value of a character of category Nd (what [\d] matches and
      [int] reads), [None] for any other character *)
  digit_val : N -> option Z;
  (** [float(s)] on a string: [ValueError] when it is no number *)
  float_of_str : pystr -> res spec_float;
  (** [float(n)] on an integer: [OverflowError] when it is too large *)
  float_of_int : Z -> res spec_float;
  (** [str(v)] on a float, a list or a dict *)
  str_other : pyval -> pystr;
  (** [datetime.strptime(s, fmt)] *)
  strptime : pystr -> pystr -> res datetime;
  (** [dt.strftime(fmt)] *)
  strftime : datetime -> pystr -> res pystr;
  (** [next(csv.reader(StringIO(line)))] *)
  csv_first_row : pystr -> res (list pystr);
}.

(** Truth value of a Python value ([if v], [a or b], [not v]). *)
Definition float_is_zero (f : spec_float) : bool :=
  match f with S754_zero _ => true | _ => false end.

Definition truthy (v : pyval) : bool :=
  match v with
  | PNone => false
  | PBool b => b
  | PInt z => negb (z =? 0)
  | PFloat f => negb (float_is_zero f)
  | PStr s => negb (str_eqb s [])
  | PList l => match l with [] => false | _ => true end
  | PDict d => match d with [] => false | _ => true end
  end.

(** [0.0 < f] *)
Definition float_pos (f : spec_float) : bool := SFltb (S754_zero false) f.

Module DateUtils.
Section WithRuntime.
Context (rt : PyRuntime).

Definition invalid_patterns : list pystr :=
  [ u "indisponível"; u "não encontrado"; u "inválido"; u "null"; u "none";
    u "n/a"; u "na" ].

Definition is_digit (c : N) : bool :=
  match digit_val rt c with Some _ => true | None => false end.

(** [int(s)] on a string of decimal digits; [ValueError] otherwise.  The
    strings read here are regular expression groups, without sign,
    blanks or underscores. *)
Fixpoint int_digits (acc : Z) (s : pystr) : res Z :=
  match s with
  | [] => Ok acc
  | c :: r =>
      match digit_val rt c with
      | Some d => int_digits (10 * acc + d) r
      | None => raise ValueError
      end
  end.

Definition py_int (s : pystr) : res Z :=
  match s with
  | [] => raise ValueError
  | _ => int_digits 0 s
  end.

(** [\d{n}] at the head of [s]: the group and the rest. *)
Fixpoint take_digits (n : nat) (s : pystr) : option (pystr * pystr) :=
  match n with
  | O => Some ([], s)
  | S n' =>
      match s with
      | c :: r =>
          if is_digit c then
            match take_digits n' r with
            | Some (g, rest) => Some (c :: g, rest)
            | None => None
            end
          else None
      | [] => None
      end
  end.

Definition take_char (c : N) (s : pystr) : option pystr :=
  match s with
  | c' :: r => if (c' =? c)%N then Some r else None
  | [] => None
  end.

(** [$]: the end of the string, or just before a final newline. *)
Definition at_end (s : pystr) : bool := str_eqb s [] || str_eqb s [10%N].

(** [(\d{2}):(\d{2}):(\d{2})$] *)
Definition time_then_end (s : pystr) : bool :=
  match take_digits 2 s with
  | Some (_, s1) =>
      match take_char 58 s1 with
      | Some s2 =>
          match take_digits 2 s2 with
          | Some (_, s3) =>
              match take_char 58 s3 with
              | Some s4 =>
                  match take_digits 2 s4 with
                  | Some (_, s5) => at_end s5
                  | None => false
                  end
              | None => false
              end
          | None => false
          end
      | None => false
      end
  | None => false
  end.

(** [\s+(\d{2}):(\d{2}):(\d{2})$], with the backtracking of [\s+] *)
Fixpoint spaces_time_then_end (s : pystr) : bool :=
  match s with
  | c :: r => is_space c && (spaces_time_then_end r || time_then_end r)
  | [] => false
  end.

(** [re.match(br_date_pattern, s)]: the groups (day, month, year) *)
Definition match_br (s : pystr) : option (pystr * pystr * pystr) :=
  match take_digits 2 s with
  | Some (day, s1) =>
      match take_char 47 s1 with
      | Some s2 =>
          match take_digits 2 s2 with
          | Some (month, s3) =>
              match take_char 47 s3 with
              | Some s4 =>
                  match take_digits 4 s4 with
                  | Some (year, s5) =>
                      if at_end s5 || spaces_time_then_end s5
                      then Some (day, month, year) else None
                  | None => None
                  end
              | None => None
              end
          | None => None
          end
      | None => None
      end
  | None => None
  end.

(** [re.match(iso_pattern, s)]: the groups (year, month, day).  The
    pattern has no [$], and its time group is optional: whatever
    follows the date is accepted. *)
Definition match_iso (s : pystr) : option (pystr * pystr * pystr) :=
  match take_digits 4 s with
  | Some (year, s1) =>
      match take_char 45 s1 with
      | Some s2 =>
          match take_digits 2 s2 with
          | Some (month, s3) =>
              match take_char 45 s3 with
              | Some s4 =>
                  match take_digits 2 s4 with
                  | Some (day, _) => Some (year, month, day)
                  | None => None
                  end
              | None => None
              end
          | None => None
          end
      | None => None
      end
  | None => None
  end.

Definition is_leap (y : Z) : bool :=
  (y mod 4 =? 0) && (negb (y mod 100 =? 0) || (y mod 400 =? 0)).

Definition days_in_month (y m : Z) : Z :=
  if m =? 2 then (if is_leap y then 29 else 28)
  else if (m =? 4) || (m =? 6) || (m =? 9) || (m =? 11) then 30
  else 31.

(** [datetime(year, month, day)]: [ValueError] unless it is a date of
    the proleptic Gregorian calendar in the years 1 to 9999. *)
Definition datetime_new (y m d : Z) : res datetime :=
  if (1 <=? y) && (y <=? 9999) && (1 <=? m) && (m <=? 12)
     && (1 <=? d) && (d <=? days_in_month y m)
  then Ok (Datetime y m d)
  else raise ValueError.

(** The [try] block shared by the two regular expression branches. *)
Definition validated (year month day : pystr) : res (option pystr) :=
  try_except
    (rbind (py_int year) (fun y =>
     rbind (py_int month) (fun m =>
     rbind (py_int day) (fun d =>
     rbind (datetime_new y m d) (fun _ =>
     Ok (Some (year ++ u "-" ++ month ++ u "-" ++ day)))))))
    [ValueError; TypeError]
    (fun _ => Ok None).

Definition other_formats : list pystr :=
  [ u "%Y-%m-%d"; u "%Y-%m-%d %H:%M:%S"; u "%Y-%m-%dT%H:%M:%S"; u "%d/%m/%Y";
    u "%d/%m/%Y %H:%M:%S"; u "%d-%m-%Y"; u "%Y/%m/%d" ].

(** The [for fmt in [...]] loop: the first format that parses returns;
    a [ValueError] goes on to the next one.  [Ok None] stands for the
    loop running to its end. *)
Fixpoint try_formats (s : pystr) (fmts : list pystr) : res (option pystr) :=
  match fmts with
  | [] => Ok None
  | fmt :: rest =>
      try_except
        (rbind (strptime rt s fmt) (fun dt =>
         rbind (strftime rt dt (u "%Y-%m-%d")) (fun out => Ok (Some out))))
        [ValueError]
        (fun _ => try_formats s rest)
  end.

Definition normalize_date (date_str : pyval) : res (option pystr) :=
  match date_str with
  | PStr s =>
      if negb (truthy (PStr s)) then Ok None
      else
        let date_str := strip s in
        let date_lower := lower rt date_str in
        if existsb (fun pattern => contains pattern date_lower) invalid_patterns
        then Ok None
        else
          match match_br date_str with
          | Some (day, month, year) => validated year month day
          | None =>
              match match_iso date_str with
              | Some (year, month, day) => validated year month day
              | None =>
                  rbind
                    (try_except_all (try_formats date_str other_formats)
                                    (fun _ => Ok None))
                    (fun r => match r with
                              | Some out => Ok (Some out)
                              | None => Ok None
                              end)
              end
          end
  | _ => Ok None
  end.

End WithRuntime.
End DateUtils.

(** ** utils/vocabularies.py *)

Module Vocabularies.

(** A loaded vocabulary: term key to IRI. *)
Abbreviation vocab := (gmap pystr pystr).

(** What the file system holds at a path. *)
Inductive file_state :=
| Missing
| Unreadable (e : exn)
| Readable (content : pystr).

(** The outside world of one call: files, the network, the environment. *)
Record World := {
  fs : pystr -> file_state;
  http : pystr -> res pystr;
  getenv_api_url : option pystr;
}.

Inductive io_event :=
| EvExists (path : pystr)
| EvOpen (path : pystr)
| EvFetch (url : pystr).

(** The module-level [_vocab_cache], and the trace of the input and
    output done so far. *)
Record vstate := VState {
  vocab_cache : gmap pystr (gmap pystr pystr);
  io_log : list io_event;
}.

Definition log (ev : io_event) (st : vstate) : vstate :=
  VState (vocab_cache st) (io_log st ++ [ev]).

Section WithRuntime.
Context (rt : PyRuntime).

(** The table [vocab_paths], relative to [base_path]. *)
Definition vocab_paths : list (pystr * pystr) :=
  [ (u "freq", u "VCR-FR/freq.csv");
    (u "sei", u "SEI/sei.csv");
    (u "formato", u "formato/formatos.csv");
    (u "tipo-recurso", u "tipo-recurso/tipo-recurso.csv");
    (u "themes", u "themes/themes.csv");
    (u "vcr-ce", u "VCR-CE/cobertura-espacial.csv");
    (u "vcr-lu", u "VCR-LU/licensa-uso.csv") ].

Fixpoint assoc {A} (k : pystr) (l : list (pystr * A)) : option A :=
  match l with
  | [] => None
  | (k', v) :: r => if str_eqb k' k then Some v else assoc k r
  end.

Definition _get_vocab_path (vocab_name : pystr) : option pystr :=
  assoc (lower rt vocab_name) vocab_paths.

Definition urls : list (pystr * pystr) :=
  [ (u "freq", u "https://dcat-br.github.io/dcat-br/docs/vocabularies/VCR-FR/freq.csv");
    (u "sei", u "https://dcat-br.github.io/dcat-br/docs/vocabularies/SEI/sei.csv");
    (u "formato", u "https://dcat-br.github.io/dcat-br/docs/vocabularies/formato/formatos.csv");
    (u "tipo-recurso",
     u "https://dcat-br.github.io/dcat-br/docs/vocabularies/tipo-recurso/tipo-recurso.csv");
    (u "themes", u "https://dcat-br.github.io/dcat-br/docs/vocabularies/themes/themes.csv");
    (u "vcr-ce",
     u "https://dcat-br.github.io/dcat-br/docs/vocabularies/VCR-CE/cobertura-espacial.csv");
    (u "vcr-lu", u "https://dcat-br.github.io/dcat-br/docs/vocabularies/VCR-LU/licensa-uso.csv") ].

(** The body of the [for line in lines] loop. *)
Definition parse_line (vocab_map : vocab) (line : pystr) : vocab :=
  let line := strip line in
  if negb (truthy (PStr line)) || startswith (u "#") line then vocab_map
  else
    let parts :=
      match try_except_all (csv_first_row rt line) (fun _ => Ok (split_once 44 line)) with
      | Ok parts => parts
      | Raise _ => []
      end in
    match parts with
    | p0 :: p1 :: _ =>
        let uri := strip p0 in
        let notation_or_label := strip p1 in
        let m1 := <[upper rt notation_or_label := uri]> vocab_map in
        let m2 := <[notation_or_label := uri]> m1 in
        let normalized :=
          replace_char 95 45 (replace_char 32 45 (lower rt notation_or_label)) in
        if negb (str_eqb normalized (lower rt notation_or_label))
        then <[upper rt normalized := uri]> (<[normalized := uri]> m2)
        else m2
    | _ => vocab_map
    end.

Definition _parse_csv (content : pystr) : vocab :=
  fold_left parse_line (split_char 10 (strip content)) ∅.

Definition dict_truthy (m : vocab) : bool := negb (bool_decide (m = ∅)).

(** [urlopen] and [read] raise into the [except] clause, which returns
    the empty table. *)
Definition _load_vocab_from_url (w : World) (url : pystr) (st : vstate)
  : vocab * vstate :=
  let st := log (EvFetch url) st in
  match try_except_all (rbind (http w url) (fun content => Ok (_parse_csv content)))
                       (fun _ => Ok ∅) with
  | Ok m => (m, st)
  | Raise _ => (∅, st)
  end.

Definition load_vocab (w : World) (vocab_name : pystr) (force_reload : bool)
           (st : vstate) : vocab * vstate :=
  let cache_key := lower rt vocab_name in
  match (if negb force_reload then vocab_cache st !! cache_key else None) with
  | Some cached => (cached, st)
  | None =>
      (* local file first *)
      let '(vocab_map, st) :=
        match _get_vocab_path cache_key with
        | Some local_path =>
            let st := log (EvExists local_path) st in
            match fs w local_path with
            | Missing => (∅, st)
            | Unreadable _ => (∅, log (EvOpen local_path) st)
            | Readable content => (_parse_csv content, log (EvOpen local_path) st)
            end
        | None => (∅, st)
        end in
      (* then the published copy *)
      let '(vocab_map, st) :=
        if negb (dict_truthy vocab_map) then
          match assoc cache_key urls with
          | Some url => _load_vocab_from_url w url st
          | None => (vocab_map, st)
          end
        else (vocab_map, st) in
      (* cache *)
      let st :=
        if dict_truthy vocab_map
        then VState (<[cache_key := vocab_map]> (vocab_cache st)) (io_log st)
        else st in
      (vocab_map, st)
  end.

Definition themes_base : pystr :=
  u "https://dcat-br.github.io/dcat-br/docs/vocabularies/themes/".

(** The slug of a theme name: accents removed, blanks and underscores
    turned into hyphens. *)
Definition name_normalized (value_stripped : pystr) : pystr :=
  let name_no_accents :=
    filter (fun c => negb (is_Mn rt c)) (nfd rt (lower rt value_stripped)) in
  replace_char 95 45 (replace_char 32 45 name_no_accents).

(** [convert_to_iri] after [load_vocab]: the look-ups in the table. *)
Definition lookup_iri (vocab : vocab) (value vocab_name : pystr) : option pystr :=
  let value_upper := upper rt (strip value) in
  match vocab !! value_upper with
  | Some iri => Some iri
  | None =>
      let value_stripped := strip value in
      match vocab !! value_stripped with
      | Some iri => Some iri
      | None =>
          let from_license :=
            if str_eqb vocab_name (u "vcr-lu") then
              let normalized :=
                replace_char 32 45 (replace_char 95 45 (lower rt value_stripped)) in
              match vocab !! normalized with
              | Some iri => Some iri
              | None =>
                  let normalized_underscore :=
                    replace_char 32 95 (replace_char 45 95 (lower rt value_stripped)) in
                  vocab !! normalized_underscore
              end
            else None in
          match from_license with
          | Some iri => Some iri
          | None =>
              if str_eqb vocab_name (u "themes") && dict_truthy vocab then
                match vocab !! name_normalized value_stripped with
                | Some iri => Some iri
                | None => Some (themes_base ++ name_normalized value_stripped)
                end
              else None
          end
      end
  end.

(** [convert_to_iri(value, vocab_name)].  The callers pass whatever the
    record holds: a value that is no string has no [strip] method. *)
Definition convert_to_iri (w : World) (value : pyval) (vocab_name : pystr)
           (st : vstate) : res (option pystr) * vstate :=
  if negb (truthy value) then (Ok None, st)
  else
    let '(vocab, st) := load_vocab w vocab_name false st in
    match value with
    | PStr s => (Ok (lookup_iri vocab s vocab_name), st)
    | _ => (raise AttributeError, st)
    end.

Definition freq_to_iri w value := convert_to_iri w value (u "freq").
Definition sei_to_iri w value := convert_to_iri w value (u "sei").
Definition formato_to_iri w value := convert_to_iri w value (u "formato").
Definition tipo_recurso_to_iri w value := convert_to_iri w value (u "tipo-recurso").
Definition theme_to_iri w value := convert_to_iri w value (u "themes").
Definition licenca_to_iri w value := convert_to_iri w value (u "vcr-lu").

End WithRuntime.
End Vocabularies.

(** ** api_to_rdf.py *)

Module ApiToRdf.
Import Vocabularies.

(** An rdflib term.  A [Literal] records the arguments of the
    constructor call: the Python value, [datatype=] and [lang=]. *)
Inductive term :=
| URIRef (iri : pystr)
| BNode (id : nat)
| Literal (value : pyval) (datatype : option pystr) (lang : option pystr).

Definition triple : Type := term * term * term.

Definition subject_of (t : triple) : term := t.1.1.
Definition predicate_of (t : triple) : term := t.1.2.
Definition object_of (t : triple) : term := t.2.

(** The state of one conversion: the graph [g] under construction (a set
    of triples, kept as the list of the [g.add] calls and read through
    membership), the supply of blank nodes, and the vocabulary module's
    state. *)
Record build := Build {
  graph : list triple;
  next_bnode : nat;
  vst : vstate;
}.

Definition B (A : Type) : Type := build -> res A * build.

#[global] Instance B_ret : MRet B := fun A a s => (Ok a, s).
#[global] Instance B_bind : MBind B := fun A C k m s =>
  match m s with
  | (Ok a, s') => k a s'
  | (Raise e, s') => (Raise e, s')
  end.

(** [g.add(t)] *)
Definition add (t : triple) : B unit :=
  fun s => (Ok tt, Build (graph s ++ [t]) (next_bnode s) (vst s)).

(** [BNode()] *)
Definition fresh_bnode : B term :=
  fun s => (Ok (BNode (next_bnode s)), Build (graph s) (S (next_bnode s)) (vst s)).

(** A call into [utils.vocabularies]. *)
Definition liftV {A} (f : vstate -> res A * vstate) : B A :=
  fun s => let '(r, v) := f (vst s) in (r, Build (graph s) (next_bnode s) v).

(** A computation without effect on the graph. *)
Definition liftR {A} (r : res A) : B A := fun s => (r, s).

Definition when (c : bool) (m : B unit) : B unit := if c then m else mret tt.

(** [try: body; except (classes): handler], around statements that add
    to the graph: what [body] added before it raised stays. *)
Definition try_except_B {A} (body : B A) (classes : list exn_kind) (handler : exn -> B A)
  : B A :=
  fun s =>
    match body s with
    | (Raise e, s') =>
        if bool_decide (exn_class e ∈ classes) then handler e s' else (Raise e, s')
    | r => r
    end.

(** [for x in l: body(x)] *)
Fixpoint for_each {A} (l : list A) (body : A -> B unit) : B unit :=
  match l with
  | [] => mret tt
  | x :: r => body x ;; for_each r body
  end.

(** Namespaces *)
Definition RDF (n : string) : term :=
  URIRef (u "http://www.w3.org/1999/02/22-rdf-syntax-ns#" ++ u n).
Definition DCAT (n : string) : term := URIRef (u "http://www.w3.org/ns/dcat#" ++ u n).
Definition DCTERMS (n : string) : term := URIRef (u "http://purl.org/dc/terms/" ++ u n).
Definition FOAF (n : string) : term := URIRef (u "http://xmlns.com/foaf/0.1/" ++ u n).
Definition SKOS (n : string) : term :=
  URIRef (u "http://www.w3.org/2004/02/skos/core#" ++ u n).
Definition XSD (n : string) : pystr := u "http://www.w3.org/2001/XMLSchema#" ++ u n.
Definition DCATBR (n : string) : term := URIRef (u "http://purl.org/dcat-br/" ++ u n).
Definition VCARD (n : string) : term :=
  URIRef (u "http://www.w3.org/2006/vcard/ns#" ++ u n).
Definition DCAT_VERSION : term := URIRef (u "http://www.w3.org/ns/dcat#version").

(** [Literal(v)], [Literal(v, lang="pt-BR")], [Literal(v, datatype=d)] *)
Definition plain (v : pyval) : term := Literal v None None.
Definition pt_BR (v : pyval) : term := Literal v None (Some (u "pt-BR")).
Definition typed (v : pyval) (d : pystr) : term := Literal v (Some d) None.

(** Truth value of an [Optional[str]] result. *)
Definition opt_truthy (o : option pystr) : bool :=
  match o with
  | Some s => negb (str_eqb s [])
  | None => false
  end.

(** [d.get(k)] and [d.get(k, default)] on a dict *)
Definition get_default (d : list (pystr * pyval)) (k : pystr) (dflt : pyval) : pyval :=
  match assoc k d with
  | Some v => v
  | None => dflt
  end.

Definition get (d : list (pystr * pyval)) (k : string) : pyval :=
  get_default d (u k) PNone.

(** [v.get(k)] on any value: only a dict has the method. *)
Definition py_get (v : pyval) (k : pystr) : res pyval :=
  match v with
  | PDict d => Ok (get_default d k PNone)
  | _ => raise AttributeError
  end.

(** [a or b] *)
Definition por (a b : pyval) : pyval := if truthy a then a else b.

(** [a or b], where evaluating an operand can raise *)
Definition por_r (a b : res pyval) : res pyval :=
  rbind a (fun v => if truthy v then Ok v else b).

(** [v == s] for a string [s] *)
Definition eq_str (v : pyval) (s : pystr) : bool :=
  match v with
  | PStr s' => str_eqb s' s
  | _ => false
  end.

(** [for x in v]: the items the loop visits *)
Definition py_iter (v : pyval) : res (list pyval) :=
  match v with
  | PList l => Ok l
  | PStr s => Ok (map (fun c => PStr [c]) s)
  | PDict d => Ok (map (fun kv => PStr kv.1) d)
  | _ => raise TypeError
  end.

Section WithRuntime.
Context (rt : PyRuntime) (w : World).

(** [str(v)], as an f-string formats a value *)
Definition py_str (v : pyval) : pystr :=
  match v with
  | PStr s => s
  | PNone => u "None"
  | PBool true => u "True"
  | PBool false => u "False"
  | PInt z => str_of_int z
  | _ => str_other rt v
  end.

(** [float(v)] *)
Definition py_float (v : pyval) : res spec_float :=
  match v with
  | PStr s => float_of_str rt s
  | PInt z => float_of_int rt z
  | PFloat f => Ok f
  | PBool b => Ok (binary_normalize 53 1024 (if b then 1 else 0) 0 false)
  | _ => raise TypeError
  end.

(** [URIRef(v)]: rdflib scans [v] for characters that no IRI has, which
    fails on a number, and takes [str(v)] of a list or dict. *)
Definition uriref_of (v : pyval) : res term :=
  match v with
  | PStr s => Ok (URIRef s)
  | PList _ | PDict _ => Ok (URIRef (py_str v))
  | _ => raise TypeError
  end.

Definition _get_extra_value (data : list (pystr * pyval)) (key : pystr) : res pyval :=
  match assoc key data with
  | Some v => Ok v
  | None =>
      let extras := get_default data (u "extras") (PList []) in
      if negb (truthy extras) then Ok PNone
      else
        rbind (py_iter extras) (fun items =>
          (fix loop (items : list pyval) : res pyval :=
             match items with
             | [] => Ok PNone
             | extra :: rest =>
                 rbind (py_get extra (u "key")) (fun k =>
                   if eq_str k key then py_get extra (u "value")
                   else loop rest)
             end) items)
  end.

(** [data.get(key) or self._get_extra_value(data, key)] *)
Definition get_or_extra (data : list (pystr * pyval)) (key : string) : res pyval :=
  por_r (Ok (get data key)) (_get_extra_value data (u key)).

Definition mailto (email : pyval) : term := URIRef (u "mailto:" ++ py_str email).

(** The statements about a vocabulary term that the shapes check. *)
Definition add_concept (iri : term) (types : list term) (scheme : string) : B unit :=
  for_each types (fun ty => add (iri, RDF "type", ty)) ;;
  add (iri, SKOS "inScheme", URIRef (u scheme)).

(** *** The dataset, statement by statement *)

Definition is_none (v : pyval) : bool :=
  match v with PNone => true | _ => false end.

Definition emit_identifier data ds : B unit :=
  when (truthy (get data "id")) (add (ds, DCTERMS "identifier", plain (get data "id"))).

Definition emit_title data ds : B unit :=
  let titulo := por (get data "titulo") (get data "title") in
  when (truthy titulo) (add (ds, DCTERMS "title", pt_BR titulo)).

Definition emit_description data ds : B unit :=
  let descricao := por (get data "descricao") (get data "notes") in
  when (truthy descricao) (add (ds, DCTERMS "description", pt_BR descricao)).

Definition emit_periodicity data ds : B unit :=
  periodicidade ← liftR (get_or_extra data "periodicidade");
  when (truthy periodicidade) (
    freq_iri ← liftV (freq_to_iri rt w periodicidade);
    if opt_truthy freq_iri then
      let freq_uri := URIRef (default [] freq_iri) in
      add (ds, DCTERMS "accrualPeriodicity", freq_uri) ;;
      add_concept freq_uri [DCTERMS "Frequency"; SKOS "Concept"]
                  "https://dcat-br.github.io/dcat-br/docs/vocabularies/VCR-FR"
    else
      add (ds, DCTERMS "accrualPeriodicity", plain periodicidade)).

Definition emit_spatial data ds : B unit :=
  cobertura_espacial ← liftR (get_or_extra data "coberturaEspacial");
  when (truthy cobertura_espacial && negb (eq_str cobertura_espacial (u "-"))
        && negb (is_none cobertura_espacial))
       (add (ds, DCTERMS "spatial", plain cobertura_espacial)).

Definition emit_access_rights data ds : B unit :=
  observancia_legal ← liftR (get_or_extra data "observanciaLegal");
  when (truthy observancia_legal) (
    sei_iri ← liftV (sei_to_iri rt w observancia_legal);
    when (opt_truthy sei_iri) (
      let sei_uri := URIRef (default [] sei_iri) in
      add (ds, DCTERMS "accessRights", sei_uri) ;;
      add_concept sei_uri [DCTERMS "RightsStatement"; SKOS "Concept"]
                  "https://dcat-br.github.io/dcat-br/docs/vocabularies/SEI/esquema")).

(** [normalize_date], then a typed literal when it gave a date *)
Definition add_date (subj pred : term) (value : pyval) : B unit :=
  when (truthy value) (
    normalized_date ← liftR (DateUtils.normalize_date rt value);
    when (opt_truthy normalized_date)
         (add (subj, pred, typed (PStr (default [] normalized_date)) (XSD "date")))).

Definition emit_issued data ds : B unit :=
  add_date ds (DCTERMS "issued") (por (get data "dataCatalogacao") (get data "metadata_created")).

Definition emit_modified data ds : B unit :=
  add_date ds (DCTERMS "modified")
           (por (get data "dataUltimaAtualizacaoMetadados") (get data "metadata_modified")).

(** [license_id.startswith(...)]: only a string has the method. *)
Definition is_http (v : pyval) : res bool :=
  match v with
  | PStr s => Ok (startswith (u "http://") s || startswith (u "https://") s)
  | _ => raise AttributeError
  end.

Definition emit_license data ds : B unit :=
  let license_id := por (get data "licenca") (get data "license_id") in
  when (truthy license_id) (
    http ← liftR (is_http license_id);
    if (http : bool) then
      add (ds, DCTERMS "license", URIRef (py_str license_id))
    else
      licenca_iri ← liftV (licenca_to_iri rt w license_id);
      when (opt_truthy licenca_iri)
           (add (ds, DCTERMS "license", URIRef (default [] licenca_iri)))).

Definition emit_contact_and_publisher data ds : B unit :=
  let maintainer_email := por (get data "emailResponsavel") (get data "maintainer_email") in
  when (truthy maintainer_email) (
    contact_node ← fresh_bnode;
    add (ds, DCAT "contactPoint", contact_node) ;;
    add (contact_node, RDF "type", VCARD "Kind") ;;
    add (contact_node, VCARD "hasEmail", mailto maintainer_email)) ;;
  let maintainer := por (get data "responsavel") (get data "maintainer") in
  when (truthy maintainer) (
    publisher_node ← fresh_bnode;
    add (ds, DCTERMS "publisher", publisher_node) ;;
    add (publisher_node, RDF "type", FOAF "Agent") ;;
    add (publisher_node, RDF "type", FOAF "Organization") ;;
    add (publisher_node, FOAF "name", plain maintainer) ;;
    when (truthy maintainer_email)
         (add (publisher_node, FOAF "mbox", mailto maintainer_email))).

(** [o.get("title") or o.get("display_name") or o.get("name")] *)
Definition org_name_of (o : pyval) : res pyval :=
  por_r (py_get o (u "title"))
        (por_r (py_get o (u "display_name")) (py_get o (u "name"))).

Definition emit_creator data ds : B unit :=
  let organizacao := get data "organizacao" in
  org_name ← liftR (
    if truthy organizacao then
      match organizacao with
      | PStr _ => Ok organizacao
      | _ => org_name_of organizacao
      end
    else org_name_of (get_default data (u "organization") (PDict [])));
  when (truthy org_name) (
    creator_node ← fresh_bnode;
    add (ds, DCTERMS "creator", creator_node) ;;
    add (creator_node, RDF "type", FOAF "Agent") ;;
    add (creator_node, RDF "type", FOAF "Organization") ;;
    add (creator_node, FOAF "name", plain org_name)).

Definition emit_version data ds : B unit :=
  let versao := por (get data "versao") (get data "version") in
  when (truthy versao) (add (ds, DCAT_VERSION, plain versao)).

(** The two flags [dadosRacaEtnia] and [dadosGenero] run the same code. *)
Definition flag_is_true (v : pyval) : bool :=
  match v with
  | PBool b => b
  | _ => str_eqb (lower rt (py_str v)) (u "true")
  end.

Definition emit_flag (key : string) data ds : B unit :=
  let flag := get data key in
  flag ← (if is_none flag then liftR (_get_extra_value data (u key)) else mret flag);
  when (negb (is_none flag))
       (add (ds, DCATBR key, typed (PBool (flag_is_true flag)) (XSD "boolean"))).

Definition emit_granularity data ds : B unit :=
  granularidade_espacial ← liftR (get_or_extra data "granularidadeEspacial");
  when (truthy granularidade_espacial)
       (add (ds, DCAT "spatialResolutionInMeters", plain granularidade_espacial)).

Definition emit_keywords data ds : B unit :=
  tags ← liftR (py_iter (get_default data (u "tags") (PList [])));
  for_each tags (fun tag =>
    name ← liftR (py_get tag (u "name"));
    when (truthy name) (add (ds, DCAT "keyword", plain name))).

Definition emit_start_date data ds : B unit :=
  cobertura_temporal_inicio ← liftR (get_or_extra data "coberturaTemporalInicio");
  add_date ds (DCAT "startDate") cobertura_temporal_inicio.

Definition emit_end_date data ds : B unit :=
  cobertura_temporal_fim ← liftR (get_or_extra data "coberturaTemporalFim");
  add_date ds (DCAT "endDate") cobertura_temporal_fim.

(** [temas = data.get("temas", []) or data.get("groups", [])], as the
    loop goes through it *)
Definition temas_of (data : list (pystr * pyval)) : res (list pyval) :=
  py_iter (por (get_default data (u "temas") (PList []))
               (get_default data (u "groups") (PList []))).

(** [theme_value = tema.get("name") or tema.get("title")] *)
Definition theme_value_of (tema : pyval) : res pyval :=
  por_r (py_get tema (u "name")) (py_get tema (u "title")).

Definition emit_theme ds (tema : pyval) : B unit :=
  theme_value ← liftR (theme_value_of tema);
  when (truthy theme_value) (
    theme_iri ← liftV (theme_to_iri rt w theme_value);
    when (opt_truthy theme_iri) (
      let theme_uri := URIRef (default [] theme_iri) in
      add (ds, DCAT "theme", theme_uri) ;;
      add_concept theme_uri [SKOS "Concept"]
                  "https://dcat-br.github.io/dcat-br/docs/vocabularies/themes/")).

Definition emit_themes data ds : B unit :=
  temas ← liftR (temas_of data);
  for_each temas (emit_theme ds).

(** *** The distributions *)

(** [resource.get(c, {}).get(k)] *)
Definition nested (resource : list (pystr * pyval)) (c k : string) : res pyval :=
  py_get (get_default resource (u c) (PDict [])) (u k).

(** [resource.get(k1) or resource.get(k2) or
     resource.get("recursoApiView", {}).get(k3) or
     resource.get("recursoForm", {}).get(k3)] *)
Definition field (resource : list (pystr * pyval)) (k1 k2 k3 : string) : res pyval :=
  por_r (Ok (get resource k1))
    (por_r (Ok (get resource k2))
       (por_r (nested resource "recursoApiView" k3) (nested resource "recursoForm" k3))).

(** the same without a second key of the resource's own *)
Definition field_tipo (resource : list (pystr * pyval)) : res pyval :=
  por_r (Ok (get resource "tipo"))
    (por_r (nested resource "recursoApiView" "tipo") (nested resource "recursoForm" "tipo")).

Definition emit_resource_title resource dist : B unit :=
  resource_title ← liftR (field resource "name" "titulo" "titulo");
  when (truthy resource_title) (add (dist, DCTERMS "title", pt_BR resource_title)).

Definition emit_resource_description resource dist : B unit :=
  resource_description ← liftR (field resource "description" "descricao" "descricao");
  when (truthy resource_description)
       (add (dist, DCTERMS "description", pt_BR resource_description)).

Definition MediaTypeOrExtent : term := URIRef (u "http://purl.org/dc/terms/MediaTypeOrExtent").

Definition emit_resource_format resource dist : B unit :=
  resource_format ← liftR (field resource "format" "formato" "formato");
  when (truthy resource_format) (
    formato_iri ← liftV (formato_to_iri rt w resource_format);
    if opt_truthy formato_iri then
      let formato_uri := URIRef (default [] formato_iri) in
      add (dist, DCTERMS "format", formato_uri) ;;
      add (dist, DCAT "mediaType", formato_uri) ;;
      add_concept formato_uri [DCTERMS "MediaType"; MediaTypeOrExtent; SKOS "Concept"]
                  "https://dcat-br.github.io/dcat-br/docs/vocabularies/formato/esquema"
    else
      add (dist, DCTERMS "format", plain resource_format) ;;
      add (dist, DCAT "mediaType", plain resource_format)).

Definition emit_resource_url resource dist : B unit :=
  resource_url ← liftR (field resource "url" "link" "link");
  when (truthy resource_url) (
    url ← liftR (uriref_of resource_url);
    add (dist, DCAT "accessURL", url) ;;
    add (dist, DCAT "downloadURL", url)).

Definition emit_resource_issued resource dist : B unit :=
  resource_created ← liftR (field resource "created" "dataCatalogacao" "dataCatalogacao");
  add_date dist (DCTERMS "issued") resource_created.

Definition emit_resource_type resource dist : B unit :=
  resource_type ← liftR (field_tipo resource);
  when (truthy resource_type) (
    tipo_iri ← liftV (tipo_recurso_to_iri rt w resource_type);
    if opt_truthy tipo_iri then
      let tipo_uri := URIRef (default [] tipo_iri) in
      add (dist, DCTERMS "type", tipo_uri) ;;
      add_concept tipo_uri [SKOS "Concept"]
                  "https://dcat-br.github.io/dcat-br/docs/vocabularies/tipo-recurso/"
    else
      add (dist, DCTERMS "type", plain resource_type)).

(** The literal of the source, as the file holds it. *)
Definition unavailable_prefix : pystr := u "IndisponÃ­vel".

Definition emit_resource_modified resource dist : B unit :=
  resource_modified ← liftR (field resource "last_modified" "dataUltimaAtualizacaoArquivo"
                                   "dataUltimaAtualizacaoArquivo");
  when (truthy resource_modified) (
    unavailable ← liftR (match resource_modified with
                         | PStr s => Ok (startswith unavailable_prefix s)
                         | _ => raise AttributeError
                         end);
    when (negb unavailable) (add_date dist (DCTERMS "modified") resource_modified)).

Definition emit_resource_size resource dist : B unit :=
  resource_size ← liftR (field resource "size" "tamanho" "tamanho");
  when (negb (is_none resource_size)) (
    try_except_B
      (tamanho ← liftR (py_float resource_size);
       when (float_pos tamanho)
            (add (dist, DCAT "byteSize", typed (PFloat tamanho) (XSD "decimal"))))
      [ValueError; TypeError]
      (fun _ =>
         when (truthy resource_size
               && negb (str_eqb (strip (py_str resource_size)) (u "0")))
              (add (dist, DCAT "byteSize", plain resource_size)))).

Definition resource_uri (base_uri : pystr) (resource_id : pyval) : term :=
  URIRef (base_uri ++ u "/resource/" ++ py_str resource_id).

Definition resource_blocks resource dist : list (B unit) :=
  [ emit_resource_title resource dist;
    emit_resource_description resource dist;
    emit_resource_format resource dist;
    emit_resource_url resource dist;
    emit_resource_issued resource dist;
    emit_resource_type resource dist;
    emit_resource_modified resource dist;
    emit_resource_size resource dist ].

(** The body of [for resource in recursos]. *)
(** [URIRef(f"{base_uri}/resource/{resource_id}")] *)
Definition distribution_uri_of (base_uri : pystr) (resource : list (pystr * pyval)) : term :=
  resource_uri base_uri (get_default resource (u "id") (PStr (u "unknown"))).

Definition emit_resource (base_uri : pystr) ds (resource : pyval) : B unit :=
  match resource with
  | PDict resource =>
      let distribution_uri := distribution_uri_of base_uri resource in
      add (ds, DCAT "distribution", distribution_uri) ;;
      add (distribution_uri, RDF "type", DCAT "Distribution") ;;
      for_each (resource_blocks resource distribution_uri) id
  | _ => liftR (raise AttributeError)
  end.

(** [recursos = data.get("recursos", []) or data.get("resources", [])],
    as the loop goes through it *)
Definition recursos_of (data : list (pystr * pyval)) : res (list pyval) :=
  py_iter (por (get_default data (u "recursos") (PList []))
               (get_default data (u "resources") (PList []))).

Definition emit_distributions (base_uri : pystr) data ds : B unit :=
  recursos ← liftR (recursos_of data);
  for_each recursos (emit_resource base_uri ds).

(** *** The conversion *)

Definition dataset_name (data : list (pystr * pyval)) : pyval :=
  get_default data (u "nome") (get_default data (u "name") (get data "id")).

Definition base_uri_of (data : list (pystr * pyval)) : pystr :=
  match getenv_api_url w with
  | Some url => url
  | None => u "None"
  end ++ u "/" ++ py_str (dataset_name data).

Definition dataset_blocks (data : list (pystr * pyval)) : list (B unit) :=
  let base_uri := base_uri_of data in
  let ds := URIRef base_uri in
  [ add (ds, RDF "type", DCAT "Dataset");
    emit_identifier data ds;
    emit_title data ds;
    emit_description data ds;
    emit_periodicity data ds;
    emit_spatial data ds;
    emit_access_rights data ds;
    emit_issued data ds;
    emit_modified data ds;
    emit_license data ds;
    emit_contact_and_publisher data ds;
    emit_creator data ds;
    emit_version data ds;
    emit_flag "dadosRacaEtnia" data ds;
    emit_flag "dadosGenero" data ds;
    emit_granularity data ds;
    emit_keywords data ds;
    emit_start_date data ds;
    emit_end_date data ds;
    emit_themes data ds;
    emit_distributions base_uri data ds ].

(** [api_to_rdf(data)], up to the serialisation: the graph [g] when the
    function returns, with the state that the vocabulary module is left
    in.  [bn] is the next unused blank node. *)
Definition api_to_rdf (data : list (pystr * pyval)) (bn : nat) (st : vstate)
  : res (list triple) * vstate :=
  match for_each (dataset_blocks data) id (Build [] bn st) with
  | (Ok _, s) => (Ok (graph s), vst s)
  | (Raise e, s) => (Raise e, vst s)
  end.

End WithRuntime.
End ApiToRdf.

(** ** validate_rdf.py *)

(** [bytes.decode('utf-8')], strict or with [errors='ignore']. *)
Module Utf8.

Definition is_cont (b : N) : bool := ((128 <=? b) && (b <=? 191))%N.

(** The bounds of the byte that may follow the lead byte [b], and the
    number of continuation bytes of the sequence. *)
Definition lead (b : N) : option (N * N * nat) :=
  (if (194 <=? b) && (b <=? 223) then Some (128, 191, 1%nat)
   else if b =? 224 then Some (160, 191, 2%nat)
   else if (225 <=? b) && (b <=? 236) || (238 <=? b) && (b <=? 239) then Some (128, 191, 2%nat)
   else if b =? 237 then Some (128, 159, 2%nat)
   else if b =? 240 then Some (144, 191, 3%nat)
   else if (241 <=? b) && (b <=? 243) then Some (128, 191, 3%nat)
   else if b =? 244 then Some (128, 143, 3%nat)
   else None)%N.

Definition payload (b : N) (n : nat) : N :=
  match n with
  | 1%nat => b - 192
  | 2%nat => b - 224
  | _ => b - 240
  end%N.

(** The continuation bytes still expected: the code point read, or the
    place where decoding resumes after a malformed sequence. *)
Fixpoint conts (n : nat) (acc : N) (bs : list N) : option N * list N :=
  match n with
  | O => (Some acc, bs)
  | S n' =>
      match bs with
      | b :: r => if is_cont b then conts n' (acc * 64 + (b - 128))%N r else (None, bs)
      | [] => (None, [])
      end
  end.

Definition decode_error : exn := Exn UnicodeDecodeError (u "invalid utf-8").

Fixpoint decode_fuel (fuel : nat) (ignore : bool) (bs : list N) : res pystr :=
  match fuel with
  | O => Ok []
  | S fuel' =>
      match bs with
      | [] => Ok []
      | b :: r =>
          if (b <? 128)%N then rbind (decode_fuel fuel' ignore r) (fun s => Ok (b :: s))
          else
            let bad rest := if ignore then decode_fuel fuel' ignore rest
                            else Raise decode_error in
            match lead b with
            | None => bad r
            | Some (lo, hi, n) =>
                match r with
                | [] => bad []
                | b1 :: r1 =>
                    if ((lo <=? b1) && (b1 <=? hi))%N then
                      match conts (Nat.pred n) (payload b n * 64 + (b1 - 128))%N r1 with
                      | (Some c, rest) =>
                          rbind (decode_fuel fuel' ignore rest) (fun s => Ok (c :: s))
                      | (None, rest) => bad rest
                      end
                    else bad r
                end
            end
      end
  end.

Definition decode (ignore : bool) (bs : list N) : res pystr :=
  decode_fuel (S (length bs)) ignore bs.

End Utf8.

Module ValidateRdf.

Definition report : Type := bool * list pystr * list pystr.

(** The libraries behind the service: rdflib's parser, and the part of
    [validate_rdf] that follows the parsing, with the shapes and the
    constraint engine. *)
Record Engine := {
  (** an rdflib [Graph] *)
  G : Type;
  (** [Graph()] *)
  empty_graph : G;
  (** [len(g)] *)
  graph_len : G -> nat;
  (** [Graph().parse(data=content, format=fmt)] *)
  rdf_parse : pystr -> pystr -> res G;
  (** from [shacl_path = ...] to the end of the [try] block *)
  shacl_validate : G -> res report;
}.

Section WithRuntime.
Context (rt : PyRuntime) (eng : Engine).

Definition _detect_rdf_format (content : list N) (filename : option pystr) : pystr :=
  let by_name :=
    match filename with
    | Some filename =>
        if negb (truthy (PStr filename)) then None
        else
          let filename_lower := lower rt filename in
          if endswith (u ".ttl") filename_lower then Some (u "turtle")
          else if endswith (u ".rdf") filename_lower || endswith (u ".xml") filename_lower
          then Some (u "xml")
          else if endswith (u ".jsonld") filename_lower
                  || endswith (u ".json") filename_lower
          then Some (u "json-ld")
          else if endswith (u ".nt") filename_lower then Some (u "ntriples")
          else if endswith (u ".n3") filename_lower then Some (u "n3")
          else None
    | None => None
    end in
  match by_name with
  | Some fmt => fmt
  | None =>
      let content_str :=
        take 500 (match Utf8.decode true content with Ok s => s | Raise _ => [] end) in
      if startswith (u "<?xml") (strip content_str) || contains (u "<rdf:RDF") content_str
      then u "xml"
      else if startswith (u "@prefix") (strip content_str)
              || startswith (u "PREFIX") (strip content_str)
      then u "turtle"
      else if contains (u "{") content_str && contains (u "@context") content_str
      then u "json-ld"
      else u "turtle"
  end.

(** [formats_to_try] *)
Definition fallback_formats : list pystr :=
  [ u "turtle"; u "xml"; u "json-ld"; u "ntriples"; u "n3" ].

(** [l.remove(x)]: the first occurrence goes. *)
Fixpoint remove_first (x : pystr) (l : list pystr) : list pystr :=
  match l with
  | [] => []
  | y :: r => if str_eqb y x then r else y :: remove_first x r
  end.

(** The local variables [data_graph], [parse_error], [parsed].  A graph
    whose parsing raised is not read again; [empty_graph] stands for it.
    [attempts] is the trace of the formats handed to the parser. *)
Record parse_state := ParseState {
  data_graph : G eng;
  parse_error : option exn;
  parsed : bool;
  attempts : list pystr;
}.

(** The [for fmt in formats_to_try] loop. *)
Fixpoint try_fallbacks (rdf_content : pystr) (fmts : list pystr) (ps : parse_state)
  : parse_state :=
  match fmts with
  | [] => ps
  | fmt :: rest =>
      let tried := attempts ps ++ [fmt] in
      match rdf_parse eng rdf_content fmt with
      | Ok g =>
          if (0 <? graph_len eng g)%nat
          then ParseState g (parse_error ps) true tried
          else try_fallbacks rdf_content rest (ParseState g (parse_error ps) false tried)
      | Raise parse_ex =>
          try_fallbacks rdf_content rest
                        (ParseState (empty_graph eng) (Some parse_ex) false tried)
      end
  end.

(** [formats_to_try], once the format already tried is removed *)
Definition formats_to_try (rdf_format : pystr) : list pystr :=
  if bool_decide (rdf_format ∈ fallback_formats)
  then remove_first rdf_format fallback_formats
  else fallback_formats.

(** From [data_graph = Graph()] to the end of the outer [except]. *)
Definition parse_with_fallback (rdf_content rdf_format : pystr) : parse_state :=
  match rdf_parse eng rdf_content rdf_format with
  | Ok g => ParseState g None (0 <? graph_len eng g)%nat [rdf_format]
  | Raise e =>
      try_fallbacks rdf_content (formats_to_try rdf_format)
                    (ParseState (empty_graph eng) (Some e) false [rdf_format])
  end.

Definition str_of_error (e : option exn) : pystr :=
  match e with
  | Some e => exn_msg e
  | None => u "None"
  end.

(** The two [except] clauses of the outer [try]. *)
Definition on_exception (e : exn) : report :=
  if bool_decide (exn_class e = UnicodeDecodeError)
  then (false, [ u "Error decoding file. Ensure it is UTF-8 encoded" ], [])
  else (false, [ u "RDF validation error: " ++ exn_msg e ], []).

Definition returned (body : res report) : report :=
  match body with
  | Ok r => r
  | Raise e => on_exception e
  end.

Definition validate_rdf (file_content : list N) (filename : option pystr) : report :=
  returned (
    let rdf_format := _detect_rdf_format file_content filename in
    rbind (Utf8.decode false file_content) (fun rdf_content =>
      let ps := parse_with_fallback rdf_content rdf_format in
      if negb (parsed ps) then
        Ok (false,
            [ u "Error parsing RDF file. Detected format: " ++ rdf_format
                ++ u ". Error: " ++ str_of_error (parse_error ps) ],
            [])
      else if (graph_len eng (data_graph ps) =? 0)%nat then
        Ok (false, [ u "O arquivo RDF está vazio ou não contém dados válidos" ], [])
      else shacl_validate eng (data_graph ps))).

End WithRuntime.
End ValidateRdf.

(** ** A runtime for text in Basic Latin and Latin-1

    The tables below are those of CPython for the code points below
    U+0100, which is where the Portuguese of the catalogue lives; a code
    point above is left as it is. *)

(** [csv.reader] with the default dialect (comma as delimiter, the double
    quote as quote character, doubled inside a quoted field, not strict),
    following the state machine of [Modules/_csv.c]. *)
Module Csv.

Inductive state :=
  START_RECORD | START_FIELD | IN_FIELD | IN_QUOTED_FIELD | QUOTE_IN_QUOTED_FIELD | EAT_CRNL.

Record reader := Reader { st : state; fields : list pystr; field : pystr }.

Definition csv_error : exn := Exn OtherError (u "_csv.Error").
Definition stop_iteration : exn := Exn OtherError (u "StopIteration").

Definition field_limit : N := 131072.

Definition parse_save_field (r : reader) (next : state) : res reader :=
  Ok (Reader next (fields r ++ [field r]) []).

Definition parse_add_char (r : reader) (c : N) (next : state) : res reader :=
  if (field_limit <=? N.of_nat (length (field r)))%N then Raise csv_error
  else Ok (Reader next (fields r) (field r ++ [c])).

Definition goto (r : reader) (next : state) : res reader :=
  Ok (Reader next (fields r) (field r)).

Definition is_nl (c : N) : bool := ((c =? 10) || (c =? 13))%N.

Definition start_field (r : reader) (c : option N) : res reader :=
  match c with
  | None => parse_save_field r START_RECORD
  | Some c =>
      if is_nl c then parse_save_field r EAT_CRNL
      else if (c =? 34)%N then goto r IN_QUOTED_FIELD
      else if (c =? 44)%N then parse_save_field r START_FIELD
      else parse_add_char r c IN_FIELD
  end.

(** [parse_process_char]; [None] is the end of a line. *)
Definition parse_process_char (r : reader) (c : option N) : res reader :=
  match st r with
  | START_RECORD =>
      match c with
      | None => Ok r
      | Some c' => if is_nl c' then goto r EAT_CRNL else start_field r c
      end
  | START_FIELD => start_field r c
  | IN_FIELD =>
      match c with
      | None => parse_save_field r START_RECORD
      | Some c =>
          if is_nl c then parse_save_field r EAT_CRNL
          else if (c =? 44)%N then parse_save_field r START_FIELD
          else parse_add_char r c IN_FIELD
      end
  | IN_QUOTED_FIELD =>
      match c with
      | None => Ok r
      | Some c =>
          if (c =? 34)%N then goto r QUOTE_IN_QUOTED_FIELD
          else parse_add_char r c IN_QUOTED_FIELD
      end
  | QUOTE_IN_QUOTED_FIELD =>
      match c with
      | None => parse_save_field r START_RECORD
      | Some c =>
          if (c =? 34)%N then parse_add_char r c IN_QUOTED_FIELD
          else if (c =? 44)%N then parse_save_field r START_FIELD
          else if is_nl c then parse_save_field r EAT_CRNL
          else parse_add_char r c IN_FIELD
      end
  | EAT_CRNL =>
      match c with
      | None => goto r START_RECORD
      | Some c => if is_nl c then Ok r else Raise csv_error
      end
  end.

Fixpoint feed (cs : pystr) (r : reader) : res reader :=
  match cs with
  | [] => Ok r
  | c :: cs' => rbind (parse_process_char r (Some c)) (feed cs')
  end.

(** The lines that iterating over a [StringIO] yields: each ends with
    its newline, but for the last one. *)
Fixpoint lines_of (s : pystr) : list pystr :=
  match s with
  | [] => []
  | c :: r =>
      if (c =? 10)%N then [c] :: lines_of r
      else match lines_of r with
           | l :: ls => (c :: l) :: ls
           | [] => [[c]]
           end
  end.

(** [Reader_iternext] *)
Fixpoint iternext (lines : list pystr) (r : reader) : res (list pystr) :=
  match lines with
  | [] =>
      match field r, st r with
      | [], IN_QUOTED_FIELD | _ :: _, _ => Ok (fields r ++ [field r])
      | [], _ => Raise stop_iteration
      end
  | l :: rest =>
      rbind (feed l r) (fun r =>
      rbind (parse_process_char r None) (fun r =>
        match st r with
        | START_RECORD => Ok (fields r)
        | _ => iternext rest r
        end))
  end.

(** [next(csv.reader(StringIO(line)))] *)
Definition first_row (line : pystr) : res (list pystr) :=
  iternext (lines_of line) (Reader START_RECORD [] []).

End Csv.

Module Latin1.

Definition between (lo hi c : N) : bool := ((lo <=? c) && (c <=? hi))%N.

Definition lower_char (c : N) : N :=
  if between 65 90 c || between 192 222 c && negb (c =? 215)%N then (c + 32)%N else c.

(** [ß] becomes [SS]; [ÿ] and the micro sign leave Latin-1. *)
Definition upper_char (c : N) : pystr :=
  if between 97 122 c || between 224 254 c && negb (c =? 247)%N then [(c - 32)%N]
  else if (c =? 223)%N then [83; 83]%N
  else if (c =? 255)%N then [376%N]
  else if (c =? 181)%N then [924%N]
  else [c].

(** Canonical decompositions: letter, base letter, combining mark. *)
Definition decompositions : list (N * (N * N)) :=
  [ (192, (65, 768)); (193, (65, 769)); (194, (65, 770)); (195, (65, 771));
    (196, (65, 776)); (197, (65, 778)); (199, (67, 807)); (200, (69, 768));
    (201, (69, 769)); (202, (69, 770)); (203, (69, 776)); (204, (73, 768));
    (205, (73, 769)); (206, (73, 770)); (207, (73, 776)); (209, (78, 771));
    (210, (79, 768)); (211, (79, 769)); (212, (79, 770)); (213, (79, 771));
    (214, (79, 776)); (217, (85, 768)); (218, (85, 769)); (219, (85, 770));
    (220, (85, 776)); (221, (89, 769)) ]%N.

Fixpoint find_decomposition (c : N) (l : list (N * (N * N))) : option (N * N) :=
  match l with
  | [] => None
  | (c', d) :: r => if (c' =? c)%N then Some d else find_decomposition c r
  end.

Definition nfd_char (c : N) : pystr :=
  match find_decomposition c decompositions with
  | Some (base, mark) => [base; mark]
  | None =>
      if (c =? 255)%N then [121; 776]%N
      else if between 224 253 c then
        match find_decomposition (c - 32) decompositions with
        | Some (base, mark) => [(base + 32)%N; mark]
        | None => [c]
        end
      else [c]
  end.

(** The block of combining diacritical marks, all of category Mn. *)
Definition is_Mn (c : N) : bool := between 768 879 c.

Definition digit_val (c : N) : option Z :=
  if between 48 57 c then Some (Z.of_N c - 48) else None.

Fixpoint digits_value (acc : Z) (s : pystr) : option Z :=
  match s with
  | [] => Some acc
  | c :: r =>
      match digit_val c with
      | Some d => digits_value (10 * acc + d) r
      | None => None
      end
  end.

Definition float_error : exn := Exn ValueError (u "could not convert string to float").

(** [float(s)] where [s] is an integer numeral, with a sign or without,
    between blanks; correctly rounded.  Python reads more (fractions,
    exponents, [inf], [nan]): this runtime is for records whose numbers
    are written as integers, and takes any other text as no number. *)
Definition float_of_str (s : pystr) : res spec_float :=
  let body := strip s in
  let '(neg, ds) :=
    match body with
    | 45%N :: r => (true, r)
    | 43%N :: r => (false, r)
    | _ => (false, body)
    end in
  match ds with
  | [] => Raise float_error
  | _ =>
      match digits_value 0 ds with
      | Some v => Ok (binary_normalize 53 1024 (if neg then - v else v) 0 neg)
      | None => Raise float_error
      end
  end.

Definition float_of_int (z : Z) : res spec_float :=
  match binary_normalize 53 1024 z 0 false with
  | S754_infinity _ => raise OverflowError
  | f => Ok f
  end.

(** The regular expressions that [_strptime.py] builds from a format. *)
Inductive re :=
| Eps
| Cls (p : N -> bool)
| Spaces
| Cat (a b : re)
| Alt (a b : re)
| Grp (name : N) (a : re).

Fixpoint spaces0 {X} (s : pystr) (k : pystr -> option X) : option X :=
  match s with
  | c :: s' =>
      if is_space c then
        match spaces0 s' k with
        | Some x => Some x
        | None => k s
        end
      else k s
  | [] => k []
  end.

(** A backtracking matcher: [k] is what remains to be matched. *)
Fixpoint exec {X} (r : re) (s : pystr) (caps : list (N * pystr))
         (k : pystr -> list (N * pystr) -> option X) : option X :=
  match r with
  | Eps => k s caps
  | Cls p =>
      match s with
      | c :: s' => if p c then k s' caps else None
      | [] => None
      end
  | Spaces =>
      match s with
      | c :: s' => if is_space c then spaces0 s' (fun rest => k rest caps) else None
      | [] => None
      end
  | Cat a b => exec a s caps (fun s' caps' => exec b s' caps' k)
  | Alt a b =>
      match exec a s caps k with
      | Some x => Some x
      | None => exec b s caps k
      end
  | Grp name a =>
      exec a s caps (fun s' caps' =>
        k s' ((name, take (length s - length s') s) :: caps'))
  end.

Definition digit : re := Cls (fun c => bool_decide (is_Some (digit_val c))).
Definition rng (lo hi : string) : re :=
  Cls (fun c => match u lo, u hi with
                | [a], [b] => between a b c
                | _, _ => false
                end).
Definition chr (c : N) : re := Cls (fun c' => (lower_char c' =? lower_char c)%N).

(** The directives of the formats in use; [re.IGNORECASE] only bears on
    the literal characters. *)
Definition directive (d : N) : option re :=
  if (d =? 89)%N then Some (Grp d (Cat digit (Cat digit (Cat digit digit))))
  else if (d =? 109)%N then
    Some (Grp d (Alt (Cat (rng "1" "1") (rng "0" "2"))
                (Alt (Cat (rng "0" "0") (rng "1" "9")) (rng "1" "9"))))
  else if (d =? 100)%N then
    Some (Grp d (Alt (Cat (rng "3" "3") (rng "0" "1"))
                (Alt (Cat (rng "1" "2") digit)
                (Alt (Cat (rng "0" "0") (rng "1" "9"))
                (Alt (rng "1" "9") (Cat (rng " " " ") (rng "1" "9")))))))
  else if (d =? 72)%N then
    Some (Grp d (Alt (Cat (rng "2" "2") (rng "0" "3")) (Alt (Cat (rng "0" "1") digit) digit)))
  else if (d =? 77)%N then Some (Grp d (Alt (Cat (rng "0" "5") digit) digit))
  else if (d =? 83)%N then
    Some (Grp d (Alt (Cat (rng "6" "6") (rng "0" "1")) (Alt (Cat (rng "0" "5") digit) digit)))
  else None.

(** A run of blanks in the format stands for [\s+]. *)
Fixpoint compile (after_space : bool) (fmt : pystr) : option re :=
  match fmt with
  | [] => Some Eps
  | c :: r =>
      if (c =? 37)%N then
        match r with
        | d :: r' =>
            match directive d, compile false r' with
            | Some a, Some b => Some (Cat a b)
            | _, _ => None
            end
        | [] => None
        end
      else if is_space c then
        if after_space then compile true r
        else match compile true r with
             | Some b => Some (Cat Spaces b)
             | None => None
             end
      else match compile false r with
           | Some b => Some (Cat (chr c) b)
           | None => None
           end
  end.

Definition group (d : string) (dflt : Z) (caps : list (N * pystr)) : option Z :=
  match u d with
  | [name] =>
      match filter (fun c => (c.1 =? name)%N) caps with
      | (_, g) :: _ => digits_value 0 (strip g)
      | [] => Some dflt
      end
  | _ => None
  end.

Definition strptime_error : exn := Exn ValueError (u "time data does not match format").

(** [datetime.strptime(s, fmt)] for formats made of [%Y %m %d %H %M %S],
    blanks and literal characters. *)
Definition strptime (s fmt : pystr) : res datetime :=
  match compile false fmt with
  | None => Raise strptime_error
  | Some r =>
      match exec r s [] (fun rest caps => Some (rest, caps)) with
      | Some ([], caps) =>
          match group "Y" 1900 caps, group "m" 1 caps, group "d" 1 caps,
                group "S" 0 caps with
          | Some y, Some m, Some d, Some sec =>
              if sec <=? 59 then DateUtils.datetime_new y m d else Raise strptime_error
          | _, _, _, _ => Raise strptime_error
          end
      | _ => Raise strptime_error
      end
  end.

Definition pad (width : nat) (s : pystr) : pystr :=
  repeat 48%N (width - length s) ++ s.

(** [dt.strftime("%Y-%m-%d")].  How a year below 1000 is padded depends
    on the C library; here it is written with four digits. *)
Definition strftime (dt : datetime) (fmt : pystr) : res pystr :=
  if str_eqb fmt (u "%Y-%m-%d") then
    Ok (pad 4 (str_of_int (dt_year dt)) ++ u "-" ++ pad 2 (str_of_int (dt_month dt))
          ++ u "-" ++ pad 2 (str_of_int (dt_day dt)))
  else raise OtherError.

(** [str] of floats, lists and dicts is not reproduced. *)
Definition str_other (v : pyval) : pystr := [].

Definition runtime : PyRuntime :=
  Build_PyRuntime (map lower_char) (flat_map upper_char) (flat_map nfd_char) is_Mn
                  digit_val float_of_str float_of_int str_other strptime strftime
                  Csv.first_row.

End Latin1.

(** ** Records, vocabularies and worlds used as test inputs *)

Module Examples.
Import Vocabularies ApiToRdf.

Definition R : PyRuntime := Latin1.runtime.

Definition api_url : pystr := u "https://dados.gov.br/api".

(** No vocabulary file on disk, and no network. *)
Definition offline : World :=
  {| fs := fun _ => Missing;
     http := fun _ => Raise (Exn OtherError (u "URLError"));
     getenv_api_url := Some api_url |}.

Definition freq_csv : pystr :=
  u "# URI,NOTACAO
https://dcat-br.github.io/dcat-br/docs/vocabularies/VCR-FR/MENSAL,MENSAL
https://dcat-br.github.io/dcat-br/docs/vocabularies/VCR-FR/ANUAL,ANUAL".

Definition sei_csv : pystr :=
  u "https://dcat-br.github.io/dcat-br/docs/vocabularies/SEI/publico,Público".

Definition formatos_csv : pystr :=
  u "https://www.iana.org/assignments/media-types/text/csv,CSV".

Definition tipo_csv : pystr :=
  u "https://dcat-br.github.io/dcat-br/docs/vocabularies/tipo-recurso/dados,DADOS".

Definition themes_csv : pystr :=
  u "https://dcat-br.github.io/dcat-br/docs/vocabularies/themes/educacao,Educação".

Definition licencas_csv : pystr :=
  u "https://creativecommons.org/licenses/by/4.0/,cc-by".

Definition files : list (pystr * pystr) :=
  [ (u "VCR-FR/freq.csv", freq_csv);
    (u "SEI/sei.csv", sei_csv);
    (u "formato/formatos.csv", formatos_csv);
    (u "tipo-recurso/tipo-recurso.csv", tipo_csv);
    (u "themes/themes.csv", themes_csv);
    (u "VCR-LU/licensa-uso.csv", licencas_csv) ].

(** The vocabulary files are on disk. *)
Definition local : World :=
  {| fs := fun path => match assoc path files with
                       | Some content => Readable content
                       | None => Missing
                       end;
     http := fun _ => Raise (Exn OtherError (u "URLError"));
     getenv_api_url := Some api_url |}.

Definition st0 : vstate := VState ∅ [].

(** A frequency table whose rows give one label in two cases, with
    different identifiers. *)
Definition two_cases_csv : pystr :=
  u "https://example.org/freq/lower,mensal
https://example.org/freq/upper,MENSAL".

(** A parser that reads no triple from any text as Turtle, and three
    from any text as RDF/XML; every graph conforms. *)
Definition empty_as_turtle : ValidateRdf.Engine :=
  {| ValidateRdf.G := nat;
     ValidateRdf.empty_graph := 0%nat;
     ValidateRdf.graph_len := fun g => g;
     ValidateRdf.rdf_parse := fun _ fmt =>
       if str_eqb fmt (u "turtle") then Ok 0%nat
       else if str_eqb fmt (u "xml") then Ok 3%nat
       else Raise (Exn OtherError (u "syntax error"));
     ValidateRdf.shacl_validate := fun _ => Ok (true, [], []) |}.

(** A parser that takes no text as Turtle, and reads three triples from
    any text as RDF/XML. *)
Definition turtle_fails : ValidateRdf.Engine :=
  {| ValidateRdf.G := nat;
     ValidateRdf.empty_graph := 0%nat;
     ValidateRdf.graph_len := fun g => g;
     ValidateRdf.rdf_parse := fun _ fmt =>
       if str_eqb fmt (u "xml") then Ok 3%nat
       else Raise (Exn OtherError (u "syntax error"));
     ValidateRdf.shacl_validate := fun _ => Ok (true, [], []) |}.

(** The bytes of a file, from its text. *)
Definition bytes (s : string) : list N := map N_of_ascii (list_ascii_of_string s).

Definition two_cases : World :=
  {| fs := fun path => if str_eqb path (u "VCR-FR/freq.csv")
                       then Readable two_cases_csv else Missing;
     http := fun _ => Raise (Exn OtherError (u "URLError"));
     getenv_api_url := Some api_url |}.

End Examples.

(** ** validate_rdf.py: the report *)

Module ValidateReport.
Section WithRuntime.
Context (rt : PyRuntime).

(** The loop over the lines of the engine's text, from
    [lines = v_text.split('\n')] on: the errors and the warnings. *)
Fixpoint scan_lines (lines : list pystr) (errors warnings : list pystr)
  : list pystr * list pystr :=
  match lines with
  | [] => (errors, warnings)
  | line :: rest =>
      let line_lower := lower rt line in
      if contains (u "violation") line_lower || contains (u "error") line_lower then
        if truthy (PStr (strip line))
        then scan_lines rest (errors ++ [strip line]) warnings
        else scan_lines rest errors warnings
      else if contains (u "warning") line_lower then
        if truthy (PStr (strip line))
        then scan_lines rest errors (warnings ++ [strip line])
        else scan_lines rest errors warnings
      else scan_lines rest errors warnings
  end.

(** [_parse_validation_results(v_graph, v_text)], after the [if v_graph:]
    block: [from_graph] holds the errors and warnings that the block has
    read from the report graph through rdflib. *)
Definition _parse_validation_results (from_graph : list pystr * list pystr)
           (v_text : option pystr) : list pystr * list pystr :=
  let '(errors, warnings) := from_graph in
  match v_text, errors, warnings with
  | Some text, [], [] =>
      if truthy (PStr text) then scan_lines (split_char 10 text) errors warnings
      else (errors, warnings)
  | _, _, _ => (errors, warnings)
  end.

End WithRuntime.
End ValidateReport.

(** ** csv_to_rdf.py *)

Module CsvToRdf.
Import Vocabularies ApiToRdf.

(** [data[k] = v] *)
Fixpoint dict_set (d : list (pystr * pyval)) (k : pystr) (v : pyval)
  : list (pystr * pyval) :=
  match d with
  | [] => [(k, v)]
  | (k', v') :: r => if str_eqb k' k then (k', v) :: r else (k', v') :: dict_set r k v
  end.

(** The columns copied as they are, in the order of the assignments. *)
Definition basic_fields : list string :=
  [ "id"; "titulo"; "nome"; "organizacao"; "descricao"; "licenca"; "responsavel";
    "emailResponsavel"; "periodicidade"; "versao"; "coberturaEspacial";
    "granularidadeEspacial"; "coberturaTemporalInicio"; "coberturaTemporalFim";
    "dataCatalogacao"; "dataUltimaAtualizacaoMetadados"; "observanciaLegal" ]%string.

Definition true_words : list pystr := [ u "true"; u "sim"; u "1"; u "yes" ].

(** What [json.loads] does on a string: it returns a value, raises
    [JSONDecodeError], or raises another exception ([RecursionError] on
    deep nesting, a plain [ValueError] on a number with too many
    digits). *)
Inductive json_outcome :=
| JsonValue (v : pyval)
| JsonDecodeError
| JsonRaises (e : exn).

Section WithRuntime.
(** [json_loads] is [json.loads] on a string. *)
Context (rt : PyRuntime) (json_loads : pystr -> json_outcome).

(** [row.get(k, "")] *)
Definition row_get (row : list (pystr * pyval)) (k : string) : pyval :=
  get_default row (u k) (PStr []).

(** [data[k] = row.get(k, "")] *)
Definition copy_field (row data : list (pystr * pyval)) (k : string)
  : list (pystr * pyval) :=
  dict_set data (u k) (row_get row k).

(** A flag column: set when the cell is not empty. *)
Definition bool_field (row : list (pystr * pyval)) (k : string)
           (data : list (pystr * pyval)) : res (list (pystr * pyval)) :=
  let cell := row_get row k in
  if truthy cell then
    match cell with
    | PStr s => Ok (dict_set data (u k) (PBool (bool_decide (lower rt s ∈ true_words))))
    | _ => raise AttributeError
    end
  else Ok data.

(** A column holding a JSON array: the empty list when the cell is empty
    or is no JSON; [except json.JSONDecodeError] catches nothing else
    that [json.loads] raises. *)
Definition json_field (row : list (pystr * pyval)) (k : string)
           (data : list (pystr * pyval)) : res (list (pystr * pyval)) :=
  let cell := row_get row k in
  if truthy cell then
    match cell with
    | PStr s =>
        match json_loads s with
        | JsonValue v => Ok (dict_set data (u k) v)
        | JsonDecodeError => Ok (dict_set data (u k) (PList []))
        | JsonRaises e => Raise e
        end
    | _ => raise TypeError
    end
  else Ok (dict_set data (u k) (PList [])).

Definition csv_row_to_dict (row : list (pystr * pyval)) : res (list (pystr * pyval)) :=
  let data := fold_left (copy_field row) basic_fields [] in
  rbind (bool_field row "dadosRacaEtnia" data) (fun data =>
  rbind (bool_field row "dadosGenero" data) (fun data =>
  rbind (json_field row "temas" data) (fun data =>
  rbind (json_field row "tags" data) (fun data =>
  json_field row "recursos" data)))).

End WithRuntime.
End CsvToRdf.

(** ** evaluate_csv_datasets.py *)

Module Evaluate.
Import ApiToRdf.



(** [sep.join(l)] *)
Fixpoint join (sep : pystr) (l : list pystr) : pystr :=
  match l with
  | [] => []
  | [x] => x
  | x :: r => x ++ sep ++ join sep r
  end.

(** The cells [errors_str] and [warnings_str] of the summary. *)
Definition summary_cell (messages : list pystr) : pystr :=
  let s := join (u "; ") (take 5 messages) in
  let s :=
    if (5 <? length messages)%nat
    then s ++ u " ... (+" ++ str_of_int (Z.of_nat (length messages) - 5) ++ u " more)"
    else s in
  if (500 <? length s)%nat then take 500 s ++ u "..." else s.


Section WithServices.
(** [convert] is [RdfFormatService.api_to_rdf], [validate] is
    [ValidateRdfService.validate_rdf], [encode] is [str.encode('utf-8')]. *)
Context (rt : PyRuntime)
        (convert : list (pystr * pyval) -> res pystr)
        (encode : pystr -> res (list N))
        (validate : list N -> option pystr -> bool * list pystr * list pystr).





End WithServices.
End Evaluate.

(** ** Auxiliary definitions of the statements *)

Module VocabSpec.
Import Vocabularies.

Section WithRuntime.
Context (rt : PyRuntime) (w : World).

(** What [load_vocab] reads for a cache key when the cache has no entry:
    the local file, or else the published copy. *)
Definition table_in_world (cache_key : pystr) : vocab :=
  let local :=
    match _get_vocab_path rt cache_key with
    | Some local_path =>
        match fs w local_path with
        | Readable content => _parse_csv rt content
        | _ => ∅
        end
    | None => ∅
    end in
  if dict_truthy local then local
  else match assoc cache_key urls with
       | Some url =>
           match http w url with
           | Ok content => _parse_csv rt content
           | Raise _ => ∅
           end
       | None => local
       end.

(** The table that a resolution in state [st] works with. *)
Definition table (st : vstate) (vocab_name : pystr) : vocab :=
  (load_vocab rt w vocab_name false st).1.

End WithRuntime.
End VocabSpec.

Module BuildSpec.
Import Vocabularies VocabSpec ApiToRdf.

(** The triple has one of the predicates [preds]. *)
Definition has_predicate (preds : list pystr) (t : triple) : bool :=
  match predicate_of t with
  | URIRef p => bool_decide (p ∈ preds)
  | _ => false
  end.

Definition iri (t : term) : pystr :=
  match t with
  | URIRef i => i
  | _ => []
  end.

Definition concept_predicates : list pystr := [iri (RDF "type"); iri (SKOS "inScheme")].

(** The predicates of the triples about one distribution. *)
Definition resource_predicates : list pystr :=
  [ iri (DCAT "distribution"); iri (RDF "type"); iri (SKOS "inScheme");
    iri (DCTERMS "title"); iri (DCTERMS "description"); iri (DCTERMS "format");
    iri (DCAT "mediaType"); iri (DCAT "accessURL"); iri (DCAT "downloadURL");
    iri (DCTERMS "issued"); iri (DCTERMS "type"); iri (DCTERMS "modified");
    iri (DCAT "byteSize") ].

(** The predicates of the statements of [resource_blocks], in order. *)
Definition resource_block_predicates : list (list pystr) :=
  [ [iri (DCTERMS "title")];
    [iri (DCTERMS "description")];
    iri (DCTERMS "format") :: iri (DCAT "mediaType") :: concept_predicates;
    [iri (DCAT "accessURL"); iri (DCAT "downloadURL")];
    [iri (DCTERMS "issued")];
    iri (DCTERMS "type") :: concept_predicates;
    [iri (DCTERMS "modified")];
    [iri (DCAT "byteSize")] ].

(** The predicates that only the triples of a distribution have. *)
Definition distribution_only_predicates : list pystr :=
  [ iri (DCAT "distribution"); iri (DCTERMS "format"); iri (DCAT "mediaType");
    iri (DCAT "accessURL"); iri (DCAT "downloadURL"); iri (DCTERMS "type");
    iri (DCAT "byteSize") ].

(** The predicates of the dates. *)
Definition date_predicates : list pystr :=
  [ iri (DCTERMS "issued"); iri (DCTERMS "modified"); iri (DCAT "startDate");
    iri (DCAT "endDate") ].

Section WithRuntime.
Context (rt : PyRuntime) (w : World).

(** The vocabulary tables that resolutions work with are the same in
    both states. *)
Definition same_tables (st st' : vstate) : Prop :=
  forall name, table rt w st' name = table rt w st name.

(** Whatever way the statement [m] ends, it has only added triples to
    the graph, all of them satisfying [P], and it has left the
    vocabulary tables as they were. *)
Definition adds_only {A} (P : triple -> Prop) (m : B A) : Prop :=
  forall s r s',
    m s = (r, s') ->
    (exists new, graph s' = graph s ++ new /\ Forall P new)
    /\ same_tables (vst s) (vst s').

(** The subject of the dataset's own triples. *)
Definition dataset_uri (data : list (pystr * pyval)) : term :=
  URIRef (base_uri_of rt w data).

(** The subject of the triples of one resource of the dataset. *)
Definition distribution_uri (data resource : list (pystr * pyval)) : term :=
  distribution_uri_of rt (base_uri_of rt w data) resource.

(** The predicates of the statements of [dataset_blocks], in order. *)
Definition dataset_predicates : list (list pystr) :=
  [ [iri (RDF "type")];
    [iri (DCTERMS "identifier")];
    [iri (DCTERMS "title")];
    [iri (DCTERMS "description")];
    iri (DCTERMS "accrualPeriodicity") :: concept_predicates;
    [iri (DCTERMS "spatial")];
    iri (DCTERMS "accessRights") :: concept_predicates;
    [iri (DCTERMS "issued")];
    [iri (DCTERMS "modified")];
    [iri (DCTERMS "license")];
    [ iri (DCAT "contactPoint"); iri (RDF "type"); iri (VCARD "hasEmail");
      iri (DCTERMS "publisher"); iri (FOAF "name"); iri (FOAF "mbox") ];
    [iri (DCTERMS "creator"); iri (RDF "type"); iri (FOAF "name")];
    [iri DCAT_VERSION];
    [iri (DCATBR "dadosRacaEtnia")];
    [iri (DCATBR "dadosGenero")];
    [iri (DCAT "spatialResolutionInMeters")];
    [iri (DCAT "keyword")];
    [iri (DCAT "startDate")];
    [iri (DCAT "endDate")];
    iri (DCAT "theme") :: concept_predicates;
    resource_predicates ].

(** The value that the record holds for the date with subject [subj]
    and predicate [pred]: a field of the dataset, or a field of one of
    its resources. *)
Definition date_field (data : list (pystr * pyval)) (subj pred : term) (value : pyval)
  : Prop :=
  (subj = dataset_uri data
   /\ ((pred = DCTERMS "issued"
        /\ value = por (get data "dataCatalogacao") (get data "metadata_created"))
       \/ (pred = DCTERMS "modified"
           /\ value = por (get data "dataUltimaAtualizacaoMetadados")
                          (get data "metadata_modified"))
       \/ (pred = DCAT "startDate"
           /\ get_or_extra data "coberturaTemporalInicio" = Ok value)
       \/ (pred = DCAT "endDate"
           /\ get_or_extra data "coberturaTemporalFim" = Ok value)))
  \/ exists recursos resource,
      recursos_of data = Ok recursos
      /\ In (PDict resource) recursos
      /\ subj = distribution_uri data resource
      /\ ((pred = DCTERMS "issued"
           /\ field resource "created" "dataCatalogacao" "dataCatalogacao" = Ok value)
          \/ (pred = DCTERMS "modified"
              /\ field resource "last_modified" "dataUltimaAtualizacaoArquivo"
                       "dataUltimaAtualizacaoArquivo" = Ok value)).

(** A date triple of the record [data]: its object is a literal typed
    [xsd:date], holding the date that [normalize_date] returns for the
    value that the record holds for its subject and predicate. *)
Definition date_of_the_record (data : list (pystr * pyval)) (t : triple) : Prop :=
  exists value out,
    date_field data (subject_of t) (predicate_of t) value
    /\ DateUtils.normalize_date rt value = Ok (Some out)
    /\ out <> []
    /\ object_of t = typed (PStr out) (XSD "date").

(** The value of a literal without datatype is true in Python's
    sense. *)
Definition holds_a_value (t : triple) : Prop :=
  forall v lang, object_of t = Literal v None lang -> truthy v = true.

(** Two states of a conversion with the same graph, the same supply of
    blank nodes and the same vocabulary tables. *)
Definition build_equiv (s1 s2 : build) : Prop :=
  graph s1 = graph s2 /\ next_bnode s1 = next_bnode s2
  /\ forall name, table rt w (vst s1) name = table rt w (vst s2) name.

(** The statement [m] ends the same way from both, in states that are
    again the same in this sense. *)
Definition respects {A} (m : B A) : Prop :=
  forall s1 s2,
    build_equiv s1 s2 ->
    (m s1).1 = (m s2).1 /\ build_equiv (m s1).2 (m s2).2.

End WithRuntime.
End BuildSpec.

Module EvaluateSpec.
Import ApiToRdf Evaluate.



End EvaluateSpec.

Module Utf8Spec.

(** A byte that no UTF-8 text holds. *)
Definition never_in_utf8 (b : N) : bool := ((b =? 192) || (b =? 193) || (245 <=? b))%N.

End Utf8Spec.

Module CsvSpec.
Import CsvToRdf.

(** The keys that [csv_row_to_dict] sets. *)
Definition known_columns : list string :=
  basic_fields ++ [ "dadosRacaEtnia"; "dadosGenero"; "temas"; "tags"; "recursos" ]%string.

(** A cell as [csv.DictReader] gives it: a text, or [None] for a
    column that the line is too short for. *)
Definition text_cell (v : pyval) : bool :=
  match v with
  | PStr _ | PNone => true
  | _ => false
  end.

(** The keys of a dict are among [keys]. *)
Definition keys_within (keys : list pystr) (d : list (pystr * pyval)) : Prop :=
  forall k, Vocabularies.assoc k d <> None -> In k keys.

End CsvSpec.

(** ** Records of the catalogue *)

Module Records.
Import ApiToRdf.

(** A dataset with one resource. *)
Definition bolsa_familia : list (pystr * pyval) :=
  [ (u "id", PStr (u "d-17"));
    (u "nome", PStr (u "bolsa-familia"));
    (u "titulo", PStr (u "Bolsa Família"));
    (u "dataCatalogacao", PStr (u "31/01/2024"));
    (u "dataUltimaAtualizacaoMetadados", PStr (u "Indisponível"));
    (u "recursos",
     PList [ PDict [ (u "id", PStr (u "r-1"));
                     (u "formato", PStr (u "CSV"));
                     (u "dataCatalogacao", PStr (u "2024-02-01T08:30:00")) ] ]) ].

(** A dataset whose list of resources holds an identifier in the place
    of a resource. *)
Definition resource_by_id : list (pystr * pyval) :=
  [ (u "nome", PStr (u "bolsa-familia"));
    (u "recursos", PList [ PStr (u "r-1") ]) ].

(** A dataset without resources. *)
Definition no_resources : list (pystr * pyval) :=
  [ (u "nome", PStr (u "bolsa-familia"));
    (u "titulo", PStr (u "Bolsa Família"));
    (u "periodicidade", PStr (u "MENSAL")) ].

(** A dataset whose spatial coverage is the dash of the catalogue, with
    two tags, the second without a name. *)
Definition without_coverage : list (pystr * pyval) :=
  [ (u "nome", PStr (u "censo-escolar"));
    (u "coberturaEspacial", PStr (u "-"));
    (u "tags", PList [ PDict [ (u "name", PStr (u "escolas")) ];
                       PDict [ (u "name", PStr []) ] ]) ].

(** A line of a CSV export, as [csv.DictReader] gives it; the last
    column is one that the converter does not know. *)
Definition csv_line : list (pystr * pyval) :=
  [ (u "id", PStr (u "d-17"));
    (u "nome", PStr (u "bolsa-familia"));
    (u "titulo", PStr (u "Bolsa Família"));
    (u "dadosGenero", PStr (u "Sim"));
    (u "temas", PStr (u "[]"));
    (u "recursos", PStr (u "[{id: r-1"));
    (u "fonte", PStr (u "SIAFI")) ].

(** [json.loads] on the cells of [csv_line]: the empty array is read,
    the other texts are not JSON. *)
Definition json_of_cells (s : pystr) : CsvToRdf.json_outcome :=
  if str_eqb s (u "[]") then CsvToRdf.JsonValue (PList []) else CsvToRdf.JsonDecodeError.

End Records.

(** * Properties *)

(** ** The date normalizer *)

Module DateUtilsFacts.
Import DateUtils.

Section WithRuntime.
Context (rt : PyRuntime).

Lemma int_digits_class acc s :
  (exists z, int_digits rt acc s = Ok z) \/ int_digits rt acc s = raise ValueError.
Proof.
  revert acc. induction s as [|c r IH]; intros acc; simpl.
  - left. eauto.
  - destruct (digit_val rt c); [apply IH | now right].
Qed.

Lemma py_int_class s :
  (exists z, py_int rt s = Ok z) \/ py_int rt s = raise ValueError.
Proof.
  destruct s; [now right | apply int_digits_class].
Qed.

Lemma datetime_new_class y m d :
  (exists dt, datetime_new y m d = Ok dt) \/ datetime_new y m d = raise ValueError.
Proof.
  unfold datetime_new. case_match; [left; eauto | now right].
Qed.

(** The [try] block around [datetime(...)] catches all that it can raise. *)
Lemma validated_returns year month day :
  validated rt year month day = Ok (Some (year ++ u "-" ++ month ++ u "-" ++ day))
  \/ validated rt year month day = Ok None.
Proof.
  unfold validated.
  destruct (py_int_class year) as [[y ->] | ->]; [| now right].
  destruct (py_int_class month) as [[m ->] | ->]; [| now right].
  destruct (py_int_class day) as [[d ->] | ->]; [| now right].
  simpl. destruct (datetime_new_class y m d) as [[dt ->] | ->]; [now left | now right].
Qed.

(** The last stage runs under [except Exception]. *)
Lemma guarded_returns (body : res (option pystr)) :
  exists r,
    rbind (try_except_all body (fun _ => Ok None))
          (fun r => match r with Some out => Ok (Some out) | None => Ok None end) = Ok r.
Proof.
  destruct body as [[out|]|e]; simpl; eauto.
Qed.

Lemma normalize_date_returns (v : pyval) : exists r, normalize_date rt v = Ok r.
Proof.
  destruct v; try (eexists; reflexivity).
  unfold normalize_date.
  destruct (negb (truthy (PStr s))); [eauto |].
  destruct (existsb _ _); [eauto |].
  destruct (match_br rt (strip s)) as [[[day month] year]|].
  { destruct (validated_returns year month day) as [-> | ->]; eauto. }
  destruct (match_iso rt (strip s)) as [[[year month] day]|].
  { destruct (validated_returns year month day) as [-> | ->]; eauto. }
  apply guarded_returns.
Qed.

End WithRuntime.

(** C9. The date normalizer maps "31/01/2024" and "2024-01-31T10:00:00"
    to "2024-01-31", gives none for "Indisponível" (a sentinel) and for
    "31/02/2024" (no such day), and on every input, whatever the
    runtime's tables and [strptime] do, returns a date or none: it never
    raises. *)
Theorem normalize_date_examples_and_never_raises :
  normalize_date Examples.R (PStr (u "31/01/2024")) = Ok (Some (u "2024-01-31"))
  /\ normalize_date Examples.R (PStr (u "2024-01-31T10:00:00")) = Ok (Some (u "2024-01-31"))
  /\ normalize_date Examples.R (PStr (u "Indisponível")) = Ok None
  /\ normalize_date Examples.R (PStr (u "31/02/2024")) = Ok None
  /\ (forall (rt : PyRuntime) (v : pyval), exists r, normalize_date rt v = Ok r).
Proof.
  repeat split; try (vm_compute; reflexivity).
  intros rt v. apply normalize_date_returns.
Qed.

End DateUtilsFacts.

(** ** The vocabulary resolver *)

Module VocabFacts.
Import Vocabularies VocabSpec.

Section WithRuntime.
Context (rt : PyRuntime).

Lemma dict_truthy_false (m : gmap pystr pystr) : dict_truthy m = false -> m = ∅.
Proof.
  unfold dict_truthy. intros H. apply negb_false_iff in H.
  now apply bool_decide_eq_true in H.
Qed.

Lemma dict_truthy_empty : dict_truthy ∅ = false.
Proof. unfold dict_truthy. now rewrite bool_decide_eq_true_2. Qed.

(** Case analysis on what the disk and the network answer. *)
Ltac load_cases w op ou :=
  destruct op as [?path|]; [destruct (fs w path) as [|?e|?content] |];
  destruct ou as [?url|]; try destruct (http w url) as [?remote|?e];
  repeat first
    [ rewrite dict_truthy_empty
    | progress cbn [fst snd negb vocab_cache io_log log]
    | match goal with
      | H : dict_truthy ?m = _ |- context [dict_truthy ?m] => rewrite H
      | |- context [dict_truthy (_parse_csv rt ?c)] =>
          destruct (dict_truthy (_parse_csv rt c)) eqn:?
      end ].

(** [load_vocab], as a function of the cache entry and of the world. *)
Lemma load_vocab_table w name st :
  (load_vocab rt w name false st).1 =
  match vocab_cache st !! lower rt name with
  | Some cached => cached
  | None => table_in_world rt w (lower rt name)
  end.
Proof.
  unfold load_vocab, table_in_world, _load_vocab_from_url, try_except_all, rbind.
  generalize (assoc (lower rt name) urls) as ou.
  generalize (_get_vocab_path rt (lower rt name)) as op. intros op ou.
  cbn [negb].
  destruct (vocab_cache st !! lower rt name) as [cached|]; [reflexivity |].
  load_cases w op ou; reflexivity.
Qed.

(** The cache after [load_vocab]: as before, or with the table just
    read, when that table is not empty. *)
Lemma load_vocab_cache w name st :
  vocab_cache (load_vocab rt w name false st).2 =
  match vocab_cache st !! lower rt name with
  | Some _ => vocab_cache st
  | None =>
      if dict_truthy (table_in_world rt w (lower rt name))
      then <[lower rt name := table_in_world rt w (lower rt name)]> (vocab_cache st)
      else vocab_cache st
  end.
Proof.
  unfold load_vocab, table_in_world, _load_vocab_from_url, try_except_all, rbind.
  generalize (assoc (lower rt name) urls) as ou.
  generalize (_get_vocab_path rt (lower rt name)) as op. intros op ou.
  cbn [negb].
  destruct (vocab_cache st !! lower rt name) as [cached|]; [reflexivity |].
  load_cases w op ou; reflexivity.
Qed.




Lemma truthy_str (s : pystr) : s <> [] -> truthy (PStr s) = true.
Proof.
  intros H. unfold truthy, str_eqb. now rewrite bool_decide_eq_false_2.
Qed.

Lemma convert_to_iri_str w st value name :
  value <> [] ->
  (convert_to_iri rt w (PStr value) name st).1
  = Ok (lookup_iri rt (table rt w st name) value name).
Proof.
  intros H. unfold convert_to_iri, table. rewrite (truthy_str _ H). cbn [negb].
  now destruct (load_vocab rt w name false st).
Qed.

Lemma convert_to_iri_state w st value name :
  truthy value = true ->
  (convert_to_iri rt w value name st).2 = (load_vocab rt w name false st).2.
Proof.
  intros H. unfold convert_to_iri. rewrite H. cbn [negb].
  destruct (load_vocab rt w name false st). now destruct value.
Qed.

Lemma lookup_iri_themes (vocab : gmap pystr pystr) value :
  dict_truthy vocab = true ->
  exists iri,
    lookup_iri rt vocab value (u "themes") = Some iri
    /\ (vocab !! upper rt (strip value) = None ->
        vocab !! strip value = None ->
        vocab !! name_normalized rt (strip value) = None ->
        iri = themes_base ++ name_normalized rt (strip value)).
Proof.
  intros Hv. unfold lookup_iri.
  replace (str_eqb (u "themes") (u "vcr-lu")) with false by reflexivity.
  replace (str_eqb (u "themes") (u "themes")) with true by reflexivity.
  rewrite Hv. cbn [andb].
  destruct (vocab !! upper rt (strip value)) as [i1|]; [eexists; split; [reflexivity | discriminate] |].
  destruct (vocab !! strip value) as [i2|]; [eexists; split; [reflexivity | discriminate] |].
  destruct (vocab !! name_normalized rt (strip value)) as [i3|];
    eexists; split; try reflexivity; try discriminate.
Qed.

Lemma lookup_iri_order (vocab : gmap pystr pystr) value name :
  (forall iri, vocab !! upper rt (strip value) = Some iri ->
               lookup_iri rt vocab value name = Some iri)
  /\ (vocab !! upper rt (strip value) = None ->
      forall iri, vocab !! strip value = Some iri ->
                  lookup_iri rt vocab value name = Some iri).
Proof.
  unfold lookup_iri. split.
  - intros iri ->. reflexivity.
  - intros -> iri ->. reflexivity.
Qed.

Lemma lookup_iri_no_table value name :
  name <> u "vcr-lu" -> lookup_iri rt ∅ value name = None.
Proof.
  intros Hl. unfold lookup_iri. rewrite !lookup_empty. unfold str_eqb at 1.
  rewrite bool_decide_eq_false_2 by exact Hl.
  rewrite dict_truthy_empty, andb_false_r. reflexivity.
Qed.

Lemma dict_truthy_true (m : gmap pystr pystr) : m <> ∅ -> dict_truthy m = true.
Proof.
  intros H. unfold dict_truthy. now rewrite bool_decide_eq_false_2.
Qed.

Lemma themes_base_eq :
  themes_base = u "https://dcat-br.github.io/dcat-br/docs/vocabularies/themes/".
Proof. vm_compute. reflexivity. Qed.

End WithRuntime.

Import Examples.

(** C1, as amended.  For a non-empty theme value resolved while the
    theme table is loaded and not empty, resolution never returns none:
    when neither the upper-cased value, nor the value, nor its slug
    (lower-cased, accents removed, blanks and underscores turned into
    hyphens) is a key of the table, the result is the fixed base location
    followed by the slug.  When the theme table is empty, resolution
    returns none, whatever the value.  Resolving "Saúde Pública" against
    a table that does not list it gives the identifier with slug
    "saude-publica". *)
Theorem theme_resolution_with_loaded_table :
  (forall (rt : PyRuntime) (w : World) (st : vstate) (value : pystr),
      value <> [] ->
      let themes := table rt w st (u "themes") in
      let resolved := (convert_to_iri rt w (PStr value) (u "themes") st).1 in
      let slug :=
        replace_char 95 45
          (replace_char 32 45
             (filter (fun c => negb (is_Mn rt c)) (nfd rt (lower rt (strip value))))) in
      (themes <> ∅ ->
       exists iri,
         resolved = Ok (Some iri)
         /\ (themes !! upper rt (strip value) = None ->
             themes !! strip value = None ->
             themes !! slug = None ->
             iri = u "https://dcat-br.github.io/dcat-br/docs/vocabularies/themes/" ++ slug))
      /\ (themes = ∅ -> resolved = Ok None))
  /\ (convert_to_iri R local (PStr (u "Saúde Pública")) (u "themes") st0).1
     = Ok (Some (u "https://dcat-br.github.io/dcat-br/docs/vocabularies/themes/saude-publica")).
Proof.
  split; [| vm_compute; reflexivity].
  intros rt w st value Hne themes resolved slug. subst resolved.
  rewrite (convert_to_iri_str rt w st value _ Hne). fold themes. split.
  - intros Hv. apply (dict_truthy_true) in Hv.
    destruct (lookup_iri_themes rt themes value Hv) as (iri & -> & Hslug).
    exists iri. split; [reflexivity |].
    rewrite themes_base_eq in Hslug. exact Hslug.
  - intros ->. rewrite lookup_iri_no_table; [reflexivity |].
    vm_compute. discriminate.
Qed.

Lemma theme_resolution_witness :
  (exists iri,
      (convert_to_iri R local (PStr (u "Saúde Pública")) (u "themes") st0).1
      = Ok (Some iri))
  /\ (convert_to_iri R offline (PStr (u "Educação")) (u "themes") st0).1 = Ok None.
Proof.
  assert (Hne : u "Saúde Pública" <> []) by (vm_compute; discriminate).
  assert (Hne' : u "Educação" <> []) by (vm_compute; discriminate).
  split.
  - destruct (proj1 (proj1 theme_resolution_with_loaded_table R local st0 _ Hne))
      as (iri & H & _).
    + intros H. apply (f_equal dict_truthy) in H. vm_compute in H. discriminate H.
    + exists iri. exact H.
  - apply (proj2 (proj1 theme_resolution_with_loaded_table R offline st0 _ Hne')).
    vm_compute. reflexivity.
Defined.

(** With no theme table to load, a non-empty theme value resolves to
    none. *)
Lemma theme_resolution_none_without_table :
  (convert_to_iri R offline (PStr (u "Saúde Pública")) (u "themes") st0).1 = Ok None.
Proof. vm_compute. reflexivity. Qed.

(** C7, as amended.  The resolver tries the upper-cased (stripped) value
    first and the stripped value as it is second: when the table has the
    upper-cased form, the identifier registered under it is the
    result. *)
Theorem upper_cased_key_is_tried_first
        (rt : PyRuntime) (w : World) (st : vstate) (value name : pystr) :
  value <> [] ->
  (forall iri,
      table rt w st name !! upper rt (strip value) = Some iri ->
      (convert_to_iri rt w (PStr value) name st).1 = Ok (Some iri))
  /\ (table rt w st name !! upper rt (strip value) = None ->
      forall iri,
        table rt w st name !! strip value = Some iri ->
        (convert_to_iri rt w (PStr value) name st).1 = Ok (Some iri)).
Proof.
  intros Hne. rewrite (convert_to_iri_str rt w st value name Hne).
  destruct (lookup_iri_order rt (table rt w st name) value name) as [H1 H2].
  split.
  - intros iri H. now rewrite (H1 iri H).
  - intros Hn iri H. now rewrite (H2 Hn iri H).
Qed.

Lemma upper_cased_key_is_tried_first_witness :
  u "mensal" <> []
  /\ table R two_cases st0 (u "freq") !! upper R (strip (u "mensal"))
     = Some (u "https://example.org/freq/upper")
  /\ (convert_to_iri R two_cases (PStr (u "mensal")) (u "freq") st0).1
     = Ok (Some (u "https://example.org/freq/upper")).
Proof.
  assert (Hne : u "mensal" <> []) by (vm_compute; discriminate).
  assert (Hu : table R two_cases st0 (u "freq") !! upper R (strip (u "mensal"))
               = Some (u "https://example.org/freq/upper"))
    by (vm_compute; reflexivity).
  split; [exact Hne |]. split; [exact Hu |].
  exact (proj1 (upper_cased_key_is_tried_first R two_cases st0 _ _ Hne) _ Hu).
Defined.

(** A table that registers the value and its upper-cased form under
    different identifiers: the result is the one of the upper-cased
    form, not the one of the value as written. *)
Lemma exact_value_is_not_tried_first :
  table R two_cases st0 (u "freq") !! strip (u "mensal")
  = Some (u "https://example.org/freq/lower")
  /\ table R two_cases st0 (u "freq") !! upper R (strip (u "mensal"))
     = Some (u "https://example.org/freq/upper")
  /\ (convert_to_iri R two_cases (PStr (u "mensal")) (u "freq") st0).1
     <> Ok (Some (u "https://example.org/freq/lower")).
Proof.
  repeat split; try (vm_compute; reflexivity).
  vm_compute. discriminate.
Qed.



End VocabFacts.

(** ** The validation service *)

Module ValidateFacts.
Import ValidateRdf.

Section WithRuntime.
Context (rt : PyRuntime) (eng : Engine).

(** The fallback loop stops at the first format that gives triples. *)
Lemma try_fallbacks_accepts_first rdf_content pre fmt post g ps :
  Forall (fun f => forall g', rdf_parse eng rdf_content f = Ok g' -> graph_len eng g' = 0%nat)
         pre ->
  rdf_parse eng rdf_content fmt = Ok g ->
  (0 < graph_len eng g)%nat ->
  exists err,
    try_fallbacks eng rdf_content (pre ++ fmt :: post) ps
    = ParseState eng g err true (attempts eng ps ++ pre ++ [fmt]).
Proof.
  intros Hpre Hfmt Hlen. revert ps.
  induction Hpre as [|f pre Hf _ IH]; intros ps; simpl.
  - rewrite Hfmt. apply Nat.ltb_lt in Hlen. rewrite Hlen. eauto.
  - destruct (rdf_parse eng rdf_content f) as [g'|e] eqn:E.
    + rewrite (Hf g' eq_refl). simpl.
      destruct (IH (ParseState eng g' (parse_error eng ps) false (attempts eng ps ++ [f])))
        as [err ->].
      simpl. rewrite <- app_assoc. eauto.
    + destruct (IH (ParseState eng (empty_graph eng) (Some e) false (attempts eng ps ++ [f])))
        as [err ->].
      simpl. rewrite <- app_assoc. eauto.
Qed.

(** When none does, every format has been tried and nothing is parsed. *)
Lemma try_fallbacks_exhausted rdf_content fmts ps :
  Forall (fun f => forall g', rdf_parse eng rdf_content f = Ok g' -> graph_len eng g' = 0%nat)
         fmts ->
  parsed eng ps = false ->
  parsed eng (try_fallbacks eng rdf_content fmts ps) = false
  /\ attempts eng (try_fallbacks eng rdf_content fmts ps) = attempts eng ps ++ fmts.
Proof.
  intros Hall. revert ps.
  induction Hall as [|f fmts Hf _ IH]; intros ps Hp; simpl.
  - now rewrite app_nil_r.
  - destruct (rdf_parse eng rdf_content f) as [g'|e] eqn:E.
    + rewrite (Hf g' eq_refl). simpl.
      destruct (IH (ParseState eng g' (parse_error eng ps) false (attempts eng ps ++ [f]))
                   eq_refl) as [-> ->].
      simpl. now rewrite <- app_assoc.
    + destruct (IH (ParseState eng (empty_graph eng) (Some e) false (attempts eng ps ++ [f]))
                   eq_refl) as [-> ->].
      simpl. now rewrite <- app_assoc.
Qed.

Lemma try_fallbacks_parsed_nonempty rdf_content fmts ps :
  (parsed eng ps = true -> (0 < graph_len eng (data_graph eng ps))%nat) ->
  parsed eng (try_fallbacks eng rdf_content fmts ps) = true ->
  (0 < graph_len eng (data_graph eng (try_fallbacks eng rdf_content fmts ps)))%nat.
Proof.
  revert ps. induction fmts as [|f fmts IH]; intros ps Hps; simpl; [exact Hps |].
  destruct (rdf_parse eng rdf_content f) as [g'|e].
  - destruct (0 <? graph_len eng g')%nat eqn:E.
    + intros _. simpl. now apply Nat.ltb_lt.
    + apply IH. simpl. discriminate.
  - apply IH. simpl. discriminate.
Qed.

Lemma parsed_nonempty rdf_content rdf_format :
  parsed eng (parse_with_fallback eng rdf_content rdf_format) = true ->
  (0 < graph_len eng (data_graph eng (parse_with_fallback eng rdf_content rdf_format)))%nat.
Proof.
  unfold parse_with_fallback.
  destruct (rdf_parse eng rdf_content rdf_format) as [g|e].
  - simpl. intros H. now apply Nat.ltb_lt.
  - apply try_fallbacks_parsed_nonempty. simpl. discriminate.
Qed.

(** C8, as amended.  For a validation call on text that decodes: when
    the first parse attempt, in the guessed format, raises, the service
    goes through the fixed sequence of the other formats and accepts the
    first one that gives a non-empty graph; when the first attempt
    returns without raising, no other format is tried, also when the
    graph it gave is empty.  Whenever no attempt made has given a
    non-empty graph, the result is conforms=false with exactly one error
    message and no warning; a graph that is accepted goes on to the
    constraint engine. *)
Theorem parse_retries_after_an_exception_only
        (file_content : list N) (filename : option pystr) (rdf_content : pystr) :
  Utf8.decode false file_content = Ok rdf_content ->
  let rdf_format := _detect_rdf_format rt file_content filename in
  let ps := parse_with_fallback eng rdf_content rdf_format in
  let gives_nothing f :=
    forall g, rdf_parse eng rdf_content f = Ok g -> graph_len eng g = 0%nat in
  (* the first attempt raises *)
  (forall e, rdf_parse eng rdf_content rdf_format = Raise e ->
     (forall pre fmt post g,
         formats_to_try rdf_format = pre ++ fmt :: post ->
         Forall gives_nothing pre ->
         rdf_parse eng rdf_content fmt = Ok g ->
         (0 < graph_len eng g)%nat ->
         parsed eng ps = true /\ data_graph eng ps = g
         /\ attempts eng ps = rdf_format :: pre ++ [fmt])
     /\ (Forall gives_nothing (formats_to_try rdf_format) ->
         parsed eng ps = false
         /\ attempts eng ps = rdf_format :: formats_to_try rdf_format))
  (* the first attempt returns *)
  /\ (forall g, rdf_parse eng rdf_content rdf_format = Ok g ->
        attempts eng ps = [rdf_format]
        /\ parsed eng ps = (0 <? graph_len eng g)%nat)
  (* the outcome *)
  /\ (parsed eng ps = false ->
      exists msg, validate_rdf rt eng file_content filename = (false, [msg], []))
  /\ (parsed eng ps = true ->
      validate_rdf rt eng file_content filename
      = returned (shacl_validate eng (data_graph eng ps))).
Proof.
  intros Hdec rdf_format ps gives_nothing.
  split; [| split; [| split]].
  - intros e He. subst ps. unfold parse_with_fallback. rewrite He. split.
    + intros pre fmt post g Hsplit Hpre Hfmt Hlen. rewrite Hsplit.
      destruct (try_fallbacks_accepts_first rdf_content pre fmt post g
                  (ParseState eng (empty_graph eng) (Some e) false [rdf_format])
                  Hpre Hfmt Hlen) as [err ->].
      simpl. auto.
    + intros Hall.
      destruct (try_fallbacks_exhausted rdf_content (formats_to_try rdf_format)
                  (ParseState eng (empty_graph eng) (Some e) false [rdf_format])
                  Hall eq_refl) as [-> ->].
      simpl. auto.
  - intros g Hg. subst ps. unfold parse_with_fallback. rewrite Hg. simpl. auto.
  - intros Hp. unfold validate_rdf. rewrite Hdec. cbn [rbind].
    fold rdf_format. fold ps. rewrite Hp. cbn [negb returned]. eauto.
  - intros Hp. unfold validate_rdf. rewrite Hdec. cbn [rbind].
    fold rdf_format. fold ps. rewrite Hp. cbn [negb].
    pose proof (parsed_nonempty rdf_content rdf_format Hp) as Hlen.
    fold ps in Hlen.
    destruct (graph_len eng (data_graph eng ps) =? 0)%nat eqn:E; [| reflexivity].
    apply Nat.eqb_eq in E. lia.
Qed.

End WithRuntime.

Import Examples.

Lemma parse_retries_after_an_exception_only_witness :
  Utf8.decode false (bytes "<rdf:RDF/>") = Ok (u "<rdf:RDF/>")
  /\ validate_rdf R turtle_fails (bytes "<rdf:RDF/>") (Some (u "d1.ttl")) = (true, [], []).
Proof.
  assert (Hdec : Utf8.decode false (bytes "<rdf:RDF/>") = Ok (u "<rdf:RDF/>"))
    by (vm_compute; reflexivity).
  split; [exact Hdec |].
  destruct (parse_retries_after_an_exception_only R turtle_fails
              (bytes "<rdf:RDF/>") (Some (u "d1.ttl")) _ Hdec) as (_ & _ & _ & H).
  rewrite H; vm_compute; reflexivity.
Defined.

(** A first attempt that returns an empty graph is not followed by any
    other: Turtle is the only format tried, and the call fails, although
    the next format of the sequence would have given a graph. *)
Lemma empty_first_parse_is_not_retried :
  let ps := parse_with_fallback empty_as_turtle (u "# nothing") (u "turtle") in
  _detect_rdf_format R (bytes "# nothing") (Some (u "d1.ttl")) = u "turtle"
  /\ rdf_parse empty_as_turtle (u "# nothing") (u "turtle") = Ok 0%nat
  /\ rdf_parse empty_as_turtle (u "# nothing") (u "xml") = Ok 3%nat
  /\ attempts empty_as_turtle ps = [u "turtle"]
  /\ validate_rdf R empty_as_turtle (bytes "# nothing") (Some (u "d1.ttl"))
     = (false, [u "Error parsing RDF file. Detected format: turtle. Error: None"], []).
Proof. vm_compute. repeat split. Qed.

End ValidateFacts.

(** ** More on the vocabulary module *)

Module VocabMore.
Import Vocabularies VocabSpec.

Section WithRuntime.
Context (rt : PyRuntime).

(** What a data line leaves in the table, from the fields that the CSV
    reader, or the split at the first comma when the reader fails, finds
    in it. *)
Lemma parse_line_fields (m : gmap pystr pystr) line uri label more :
  strip line <> [] ->
  startswith (u "#") (strip line) = false ->
  try_except_all (csv_first_row rt (strip line))
                 (fun _ => Ok (split_once 44 (strip line)))
  = Ok (uri :: label :: more) ->
  parse_line rt m line !! strip label = Some (strip uri)
  /\ parse_line rt m line !! upper rt (strip label) = Some (strip uri).
Proof.
  intros Hne Hc Hrow. unfold parse_line.
  rewrite (VocabFacts.truthy_str _ Hne), Hc, Hrow. cbn [negb orb].
  destruct (negb _); rewrite ?lookup_insert; repeat case_decide; auto; congruence.
Qed.

(** X1. A label of the last data line of a vocabulary file resolves,
    whatever its case and in every category, to the identifier of that
    line: when the table that the resolver loads for the category is the
    one read from the file, [convert_to_iri] gives the (stripped)
    identifier of the line for any non-empty value that agrees with the
    label once both are stripped and upper-cased.  The fields of the
    line are those that the CSV reader finds, or the two sides of the
    first comma when the reader fails. *)
Theorem label_of_last_line_resolves_in_any_case
        (w : World) (st : vstate) (content : pystr) (lines : list pystr)
        (line uri label value name : pystr) (more : list pystr) :
  table rt w st name = _parse_csv rt content ->
  split_char 10 (strip content) = lines ++ [line] ->
  strip line <> [] ->
  startswith (u "#") (strip line) = false ->
  try_except_all (csv_first_row rt (strip line))
                 (fun _ => Ok (split_once 44 (strip line)))
  = Ok (uri :: label :: more) ->
  value <> [] ->
  upper rt (strip value) = upper rt (strip label) ->
  (convert_to_iri rt w (PStr value) name st).1 = Ok (Some (strip uri)).
Proof.
  intros Htable Hsplit Hne Hc Hrow Hvalue Hup.
  rewrite (VocabFacts.convert_to_iri_str rt w st value name Hvalue), Htable.
  unfold _parse_csv. rewrite Hsplit, fold_left_app. cbn [fold_left].
  destruct (parse_line_fields (fold_left (parse_line rt) lines ∅) line uri label more
              Hne Hc Hrow) as [_ H].
  unfold lookup_iri. now rewrite Hup, H.
Qed.

(** X2. Outside the license and theme categories, a value whose
    upper-cased and plain forms are both missing from the table resolves
    to none. *)
Theorem other_categories_give_none_on_exhaustion
        (w : World) (st : vstate) (value name : pystr) :
  value <> [] ->
  name <> u "vcr-lu" ->
  name <> u "themes" ->
  table rt w st name !! upper rt (strip value) = None ->
  table rt w st name !! strip value = None ->
  (convert_to_iri rt w (PStr value) name st).1 = Ok None.
Proof.
  intros Hv Hl Ht Hu He.
  rewrite (VocabFacts.convert_to_iri_str rt w st value name Hv).
  unfold lookup_iri. rewrite Hu, He. unfold str_eqb.
  rewrite !bool_decide_eq_false_2 by assumption. reflexivity.
Qed.

(** X3. In the license category a value that is missing in its
    upper-cased and plain forms is looked up lower-cased with hyphens for
    underscores and blanks, and then with underscores for hyphens and
    blanks; the first form that the table has gives the result. *)
Theorem license_values_are_normalized
        (w : World) (st : vstate) (value : pystr) :
  value <> [] ->
  table rt w st (u "vcr-lu") !! upper rt (strip value) = None ->
  table rt w st (u "vcr-lu") !! strip value = None ->
  let hyphens := replace_char 32 45 (replace_char 95 45 (lower rt (strip value))) in
  let underscores := replace_char 32 95 (replace_char 45 95 (lower rt (strip value))) in
  (convert_to_iri rt w (PStr value) (u "vcr-lu") st).1
  = Ok (match table rt w st (u "vcr-lu") !! hyphens with
        | Some iri => Some iri
        | None => table rt w st (u "vcr-lu") !! underscores
        end).
Proof.
  intros Hv Hu He hyphens underscores.
  rewrite (VocabFacts.convert_to_iri_str rt w st value _ Hv).
  unfold lookup_iri. rewrite Hu, He.
  replace (str_eqb (u "vcr-lu") (u "vcr-lu")) with true by reflexivity.
  replace (str_eqb (u "vcr-lu") (u "themes")) with false by reflexivity.
  fold hyphens. fold underscores.
  destruct (table rt w st (u "vcr-lu") !! hyphens); [reflexivity |].
  now destruct (table rt w st (u "vcr-lu") !! underscores).
Qed.

(** X4. The local file wins: when it is readable and gives a table that is
    not empty, an uncached load returns that table, caches it, and has
    looked at the disk only; the network is not touched. *)
Theorem local_table_is_loaded_without_network
        (w : World) (name path content : pystr) (st : vstate) :
  vocab_cache st !! lower rt name = None ->
  _get_vocab_path rt (lower rt name) = Some path ->
  fs w path = Readable content ->
  dict_truthy (_parse_csv rt content) = true ->
  load_vocab rt w name false st
  = (_parse_csv rt content,
     VState (<[lower rt name := _parse_csv rt content]> (vocab_cache st))
            (io_log st ++ [EvExists path; EvOpen path])).
Proof.
  intros Hc Hp Hf Ht. unfold load_vocab. cbn [negb].
  rewrite Hc, Hp, Hf. cbn [fst snd]. rewrite Ht. cbn [negb]. rewrite Ht.
  unfold log. cbn [vocab_cache io_log]. now rewrite <- app_assoc.
Qed.

(** X5. When there is no local file, an uncached load fetches the
    published copy, once: what it parses to is the result, cached when
    it is not empty; when the fetch fails the result is the empty table
    and the cache stays as it was. *)
Theorem missing_local_table_is_fetched
        (w : World) (name path url : pystr) (st : vstate) :
  vocab_cache st !! lower rt name = None ->
  _get_vocab_path rt (lower rt name) = Some path ->
  assoc (lower rt name) urls = Some url ->
  fs w path = Missing ->
  let fetched := match http w url with
                 | Ok content => _parse_csv rt content
                 | Raise _ => ∅
                 end in
  load_vocab rt w name false st
  = (fetched,
     VState (if dict_truthy fetched
             then <[lower rt name := fetched]> (vocab_cache st)
             else vocab_cache st)
            (io_log st ++ [EvExists path; EvFetch url])).
Proof.
  intros Hc Hp Hu Hf fetched. unfold load_vocab. cbn [negb].
  rewrite Hc, Hp, Hf, Hu. cbn [fst snd]. rewrite VocabFacts.dict_truthy_empty.
  cbn [negb]. unfold _load_vocab_from_url, try_except_all, rbind, log.
  cbn [vocab_cache io_log]. subst fetched.
  destruct (http w url) as [content|e]; cbn [fst snd];
    rewrite ?VocabFacts.dict_truthy_empty; rewrite <- app_assoc;
    try reflexivity.
  now destruct (dict_truthy (_parse_csv rt content)).
Qed.




End WithRuntime.

Import Examples.

Lemma local_table_is_loaded_without_network_witness :
  io_log (load_vocab R local (u "FREQ") false st0).2
  = [EvExists (u "VCR-FR/freq.csv"); EvOpen (u "VCR-FR/freq.csv")].
Proof.
  rewrite (local_table_is_loaded_without_network R local (u "FREQ")
             (u "VCR-FR/freq.csv") freq_csv st0
             ltac:(vm_compute; reflexivity) ltac:(vm_compute; reflexivity)
             ltac:(vm_compute; reflexivity) ltac:(vm_compute; reflexivity)).
  reflexivity.
Defined.

Lemma missing_local_table_is_fetched_witness :
  load_vocab R offline (u "sei") false st0
  = (∅, VState ∅ [EvExists (u "SEI/sei.csv");
                  EvFetch (u "https://dcat-br.github.io/dcat-br/docs/vocabularies/SEI/sei.csv")]).
Proof.
  rewrite (missing_local_table_is_fetched R offline (u "sei") (u "SEI/sei.csv")
             (u "https://dcat-br.github.io/dcat-br/docs/vocabularies/SEI/sei.csv") st0
             ltac:(vm_compute; reflexivity) ltac:(vm_compute; reflexivity)
             ltac:(vm_compute; reflexivity) ltac:(vm_compute; reflexivity)).
  vm_compute. reflexivity.
Defined.


Lemma label_of_last_line_resolves_in_any_case_witness :
  (convert_to_iri R local (PStr (u " anual ")) (u "freq") st0).1
  = Ok (Some (u "https://dcat-br.github.io/dcat-br/docs/vocabularies/VCR-FR/ANUAL")).
Proof.
  exact (label_of_last_line_resolves_in_any_case R local st0 freq_csv
           [u "# URI,NOTACAO";
            u "https://dcat-br.github.io/dcat-br/docs/vocabularies/VCR-FR/MENSAL,MENSAL"]
           (u "https://dcat-br.github.io/dcat-br/docs/vocabularies/VCR-FR/ANUAL,ANUAL")
           (u "https://dcat-br.github.io/dcat-br/docs/vocabularies/VCR-FR/ANUAL")
           (u "ANUAL") (u " anual ") (u "freq") []
           ltac:(vm_compute; reflexivity)
           ltac:(vm_compute; reflexivity) ltac:(vm_compute; discriminate)
           ltac:(vm_compute; reflexivity) ltac:(vm_compute; reflexivity)
           ltac:(vm_compute; discriminate) ltac:(vm_compute; reflexivity)).
Defined.

Lemma other_categories_give_none_on_exhaustion_witness :
  (convert_to_iri R local (PStr (u "quinzenal")) (u "freq") st0).1 = Ok None.
Proof.
  exact (other_categories_give_none_on_exhaustion R local st0 (u "quinzenal") (u "freq")
           ltac:(vm_compute; discriminate) ltac:(vm_compute; discriminate)
           ltac:(vm_compute; discriminate) ltac:(vm_compute; reflexivity)
           ltac:(vm_compute; reflexivity)).
Defined.

Lemma license_values_are_normalized_witness :
  (convert_to_iri R local (PStr (u "CC_BY")) (u "vcr-lu") st0).1
  = Ok (Some (u "https://creativecommons.org/licenses/by/4.0/")).
Proof.
  rewrite (license_values_are_normalized R local st0 (u "CC_BY")
             ltac:(vm_compute; discriminate) ltac:(vm_compute; reflexivity)
             ltac:(vm_compute; reflexivity)).
  vm_compute. reflexivity.
Defined.

End VocabMore.

(** ** More on the date normalizer *)

Module DateMore.
Import DateUtils.

Section WithRuntime.
Context (rt : PyRuntime).

Lemma take_digits_spec n s g rest :
  take_digits rt n s = Some (g, rest) -> length g = n /\ s = g ++ rest.
Proof.
  revert s g rest. induction n as [|n IH]; intros s g rest; simpl.
  - intros [= <- <-]. auto.
  - destruct s as [|c r]; [discriminate |].
    destruct (is_digit rt c); [| discriminate].
    destruct (take_digits rt n r) as [[g' rest']|] eqn:E; [| discriminate].
    intros [= <- <-]. destruct (IH _ _ _ E) as [Hl ->]. simpl. auto.
Qed.

Lemma take_char_spec c s rest : take_char c s = Some rest -> s = c :: rest.
Proof.
  destruct s as [|c' r]; simpl; [discriminate |].
  destruct (c' =? c)%N eqn:E; [| discriminate].
  apply N.eqb_eq in E. now intros [= <-]; subst.
Qed.

Lemma match_br_spec s day month year :
  match_br rt s = Some (day, month, year) ->
  length day = 2%nat /\ length month = 2%nat /\ length year = 4%nat
  /\ exists tail, s = day ++ u "/" ++ month ++ u "/" ++ year ++ tail.
Proof.
  unfold match_br.
  destruct (take_digits rt 2 s) as [[d s1]|] eqn:E1; [| discriminate].
  destruct (take_char 47 s1) as [s2|] eqn:E2; [| discriminate].
  destruct (take_digits rt 2 s2) as [[m s3]|] eqn:E3; [| discriminate].
  destruct (take_char 47 s3) as [s4|] eqn:E4; [| discriminate].
  destruct (take_digits rt 4 s4) as [[y s5]|] eqn:E5; [| discriminate].
  destruct (at_end s5 || spaces_time_then_end rt s5); [| discriminate].
  intros [= <- <- <-].
  apply take_digits_spec in E1 as [L1 ->]. apply take_char_spec in E2 as ->.
  apply take_digits_spec in E3 as [L3 ->]. apply take_char_spec in E4 as ->.
  apply take_digits_spec in E5 as [L5 ->].
  repeat split; auto. exists s5. reflexivity.
Qed.

Lemma match_iso_spec s year month day :
  match_iso rt s = Some (year, month, day) ->
  length day = 2%nat /\ length month = 2%nat /\ length year = 4%nat
  /\ exists tail, s = year ++ u "-" ++ month ++ u "-" ++ day ++ tail.
Proof.
  unfold match_iso.
  destruct (take_digits rt 4 s) as [[y s1]|] eqn:E1; [| discriminate].
  destruct (take_char 45 s1) as [s2|] eqn:E2; [| discriminate].
  destruct (take_digits rt 2 s2) as [[m s3]|] eqn:E3; [| discriminate].
  destruct (take_char 45 s3) as [s4|] eqn:E4; [| discriminate].
  destruct (take_digits rt 2 s4) as [[d s5]|] eqn:E5; [| discriminate].
  intros [= <- <- <-].
  apply take_digits_spec in E1 as [L1 ->]. apply take_char_spec in E2 as ->.
  apply take_digits_spec in E3 as [L3 ->]. apply take_char_spec in E4 as ->.
  apply take_digits_spec in E5 as [L5 ->].
  repeat split; auto. exists s5. reflexivity.
Qed.

Lemma datetime_new_ok y m d dt :
  datetime_new y m d = Ok dt ->
  1 <= y <= 9999 /\ 1 <= m <= 12 /\ 1 <= d <= days_in_month y m.
Proof.
  unfold datetime_new. destruct (_ && _) eqn:E; [| discriminate]. intros _.
  repeat (apply andb_true_iff in E as [E ?]). lia.
Qed.

Lemma validated_some year month day out :
  validated rt year month day = Ok (Some out) ->
  out = year ++ u "-" ++ month ++ u "-" ++ day
  /\ exists y m d,
      py_int rt year = Ok y /\ py_int rt month = Ok m /\ py_int rt day = Ok d
      /\ 1 <= y <= 9999 /\ 1 <= m <= 12 /\ 1 <= d <= days_in_month y m.
Proof.
  unfold validated.
  destruct (DateUtilsFacts.py_int_class rt year) as [[y Hy] | Hy]; rewrite Hy;
    [| discriminate].
  destruct (DateUtilsFacts.py_int_class rt month) as [[m Hm] | Hm]; rewrite Hm;
    [| discriminate].
  destruct (DateUtilsFacts.py_int_class rt day) as [[d Hd] | Hd]; rewrite Hd;
    [| discriminate].
  cbn [rbind]. destruct (datetime_new y m d) as [dt|e] eqn:E.
  - cbn. intros [= <-]. split; [reflexivity |].
    exists y, m, d. repeat split; auto; apply (datetime_new_ok _ _ _ _ E).
  - destruct (DateUtilsFacts.datetime_new_class y m d) as [[dt H] | H];
      rewrite H in E; [discriminate |].
    injection E as <-. cbn. discriminate.
Qed.

(** X7. A date that [normalize_date] accepts through one of its two
    regular expressions is a real calendar date, written with the
    digits of the input: the text starts with day/month/year, or with
    year-month-day, in two, two and four digits; the result is
    year-month-day with these digits; and as numbers they are a year
    from 1 to 9999, a month from 1 to 12 and a day that this month
    has. *)
Theorem accepted_dates_are_calendar_dates (s out : pystr) :
  normalize_date rt (PStr s) = Ok (Some out) ->
  match_br rt (strip s) <> None \/ match_iso rt (strip s) <> None ->
  exists year month day tail y m d,
    (strip s = day ++ u "/" ++ month ++ u "/" ++ year ++ tail
     \/ strip s = year ++ u "-" ++ month ++ u "-" ++ day ++ tail)
    /\ out = year ++ u "-" ++ month ++ u "-" ++ day
    /\ length year = 4%nat /\ length month = 2%nat /\ length day = 2%nat
    /\ py_int rt year = Ok y /\ py_int rt month = Ok m /\ py_int rt day = Ok d
    /\ 1 <= y <= 9999 /\ 1 <= m <= 12 /\ 1 <= d <= days_in_month y m.
Proof.
  unfold normalize_date.
  destruct (negb (truthy (PStr s))); [discriminate |].
  destruct (existsb _ _); [discriminate |].
  destruct (match_br rt (strip s)) as [[[day month] year]|] eqn:Ebr.
  - intros Hv _. apply match_br_spec in Ebr as (Ld & Lm & Ly & tail & Hs).
    apply validated_some in Hv as (-> & y & m & d & Hy & Hm & Hd & By & Bm & Bd).
    exists year, month, day, tail, y, m, d. repeat split; auto; lia.
  - destruct (match_iso rt (strip s)) as [[[year month] day]|] eqn:Eiso.
    + intros Hv _. apply match_iso_spec in Eiso as (Ld & Lm & Ly & tail & Hs).
      apply validated_some in Hv as (-> & y & m & d & Hy & Hm & Hd & By & Bm & Bd).
      exists year, month, day, tail, y, m, d. repeat split; auto; lia.
    + intros _ [H | H]; now destruct H.
Qed.

End WithRuntime.

Lemma accepted_dates_are_calendar_dates_witness :
  exists year month day tail y m d,
    (strip (u " 29/02/2024 08:30:00") = day ++ u "/" ++ month ++ u "/" ++ year ++ tail
     \/ strip (u " 29/02/2024 08:30:00") = year ++ u "-" ++ month ++ u "-" ++ day ++ tail)
    /\ u "2024-02-29" = year ++ u "-" ++ month ++ u "-" ++ day
    /\ length year = 4%nat /\ length month = 2%nat /\ length day = 2%nat
    /\ py_int Examples.R year = Ok y /\ py_int Examples.R month = Ok m
    /\ py_int Examples.R day = Ok d
    /\ 1 <= y <= 9999 /\ 1 <= m <= 12 /\ 1 <= d <= days_in_month y m.
Proof.
  apply (accepted_dates_are_calendar_dates Examples.R (u " 29/02/2024 08:30:00")).
  - vm_compute. reflexivity.
  - left. vm_compute. discriminate.
Defined.

End DateMore.

(** ** More on the validation service *)

Module ValidateMore.
Import ValidateRdf ValidateReport.

Section WithRuntime.
Context (rt : PyRuntime).

Lemma detected_format_is_known (content : list N) (filename : option pystr) :
  In (_detect_rdf_format rt content filename) fallback_formats.
Proof.
  unfold _detect_rdf_format, fallback_formats.
  repeat match goal with
         | |- context [match ?x with _ => _ end] =>
             lazymatch x with
             | context [match _ with _ => _ end] => fail
             | _ => destruct x
             end
         end; simpl; tauto.
Qed.

Section WithEngine.
Context (eng : Engine).

(** The loop hands to the parser a prefix of the formats it is given. *)
Lemma try_fallbacks_attempts rdf_content fmts ps :
  exists k,
    attempts eng (try_fallbacks eng rdf_content fmts ps)
    = attempts eng ps ++ take k fmts.
Proof.
  revert ps. induction fmts as [|f fmts IH]; intros ps; simpl.
  - exists 0%nat. now rewrite app_nil_r.
  - destruct (rdf_parse eng rdf_content f) as [g|e].
    + destruct (0 <? graph_len eng g)%nat.
      * exists 1%nat. reflexivity.
      * destruct (IH (ParseState eng g (parse_error eng ps) false
                                 (attempts eng ps ++ [f]))) as [k ->].
        exists (S k). simpl. now rewrite <- app_assoc.
    + destruct (IH (ParseState eng (empty_graph eng) (Some e) false
                               (attempts eng ps ++ [f]))) as [k ->].
      exists (S k). simpl. now rewrite <- app_assoc.
Qed.

(** X8. The format that is guessed is one of the five that the service
    knows, and the parser is never handed the same format twice in one
    call: the attempts are the guessed format, perhaps followed by the
    first few of the other four, in their fixed order. *)
Theorem no_format_is_parsed_twice
        (content : list N) (filename : option pystr) (rdf_content : pystr) :
  let rdf_format := _detect_rdf_format rt content filename in
  let tried := attempts eng (parse_with_fallback eng rdf_content rdf_format) in
  In rdf_format fallback_formats
  /\ NoDup tried
  /\ (length tried <= 5)%nat
  /\ exists k, tried = rdf_format :: take k (remove_first rdf_format fallback_formats).
Proof.
  intros rdf_format tried.
  pose proof (detected_format_is_known content filename) as Hin.
  fold rdf_format in Hin. split; [exact Hin |].
  assert (Hk : exists k, tried = rdf_format :: take k (remove_first rdf_format
                                                         fallback_formats)).
  { subst tried. unfold parse_with_fallback.
    destruct (rdf_parse eng rdf_content rdf_format) as [g|e].
    - exists 0%nat. reflexivity.
    - destruct (try_fallbacks_attempts rdf_content (formats_to_try rdf_format)
                  (ParseState eng (empty_graph eng) (Some e) false [rdf_format]))
        as [k ->].
      exists k. simpl. unfold formats_to_try.
      apply list_elem_of_In in Hin. now rewrite (bool_decide_eq_true_2 _ Hin). }
  destruct Hk as [k Hk]. rewrite Hk.
  assert (Hnd : NoDup (rdf_format :: remove_first rdf_format fallback_formats)).
  { clear Hk tried. unfold fallback_formats in *. simpl in Hin.
    decompose [or] Hin; try contradiction; subst rdf_format;
      match goal with
      | H : _ = _ |- _ => rewrite <- H
      end; refine (bool_decide_unpack _ _); vm_compute; exact I. }
  assert (Hlen : length (remove_first rdf_format fallback_formats) = 4%nat).
  { clear Hk tried Hnd. unfold fallback_formats in *. simpl in Hin.
    decompose [or] Hin; try contradiction;
      match goal with
      | H : _ = _ |- _ => rewrite <- H
      end; reflexivity. }
  repeat split.
  - apply NoDup_cons in Hnd as [Hni Hnd]. apply NoDup_cons. split.
    + intros H. apply Hni. eapply elem_of_sublist; [exact H | apply sublist_take].
    + eapply sublist_NoDup; [exact Hnd | apply sublist_take].
  - cbn [length]. rewrite length_take, Hlen. lia.
  - eauto.
Qed.

End WithEngine.

(** The scan as a selection: what it adds to the lists it starts with. *)
Lemma scan_lines_selects lines errors warnings :
  scan_lines rt lines errors warnings
  = (errors ++ omap (fun line =>
                       if (contains (u "violation") (lower rt line)
                           || contains (u "error") (lower rt line))
                          && truthy (PStr (strip line))
                       then Some (strip line) else None) lines,
     warnings ++ omap (fun line =>
                         if negb (contains (u "violation") (lower rt line)
                                  || contains (u "error") (lower rt line))
                            && contains (u "warning") (lower rt line)
                            && truthy (PStr (strip line))
                         then Some (strip line) else None) lines).
Proof.
  revert errors warnings.
  induction lines as [|line lines IH]; intros errors warnings.
  - cbn. now rewrite !app_nil_r.
  - cbn [scan_lines omap list_omap].
    destruct (contains (u "violation") (lower rt line)
              || contains (u "error") (lower rt line));
      [| destruct (contains (u "warning") (lower rt line))];
      try destruct (truthy (PStr (strip line)));
      rewrite IH; cbn [andb negb]; rewrite <- ?app_assoc; reflexivity.
Qed.

Lemma omap_selects {A C} (p : A -> bool) (f : A -> C) (l : list A) :
  omap (fun x => if p x then Some (f x) else None) l = map f (List.filter p l).
Proof.
  induction l as [|x l IH]; [reflexivity |]. cbn [omap list_omap List.filter].
  destruct (p x); cbn [map]; now rewrite <- IH.
Qed.

(** X9. When the report graph gave neither error nor warning, the
    lists come from the lines of the engine's text, in their order and
    one entry for each line that counts: the errors are the lines that
    mention "violation" or "error" (in any case) and are not blank,
    stripped; the warnings are the lines that mention "warning" and
    neither of the two, and are not blank, stripped.  A line is never
    reported on both lists, and a blank line on none. *)
Theorem text_lines_are_errors_or_else_warnings (text : pystr) :
  let lines := split_char 10 text in
  let is_error line :=
    contains (u "violation") (lower rt line) || contains (u "error") (lower rt line) in
  let is_warning line := contains (u "warning") (lower rt line) in
  let blank line := str_eqb (strip line) [] in
  _parse_validation_results rt ([], []) (Some text)
  = (map strip (List.filter (fun line => is_error line && negb (blank line)) lines),
     map strip (List.filter (fun line => negb (is_error line) && is_warning line
                                         && negb (blank line)) lines)).
Proof.
  intros lines is_error is_warning blank. unfold _parse_validation_results.
  destruct (truthy (PStr text)) eqn:Et.
  - rewrite scan_lines_selects. cbn [app].
    rewrite <- !omap_selects. reflexivity.
  - assert (text = []) as ->.
    { unfold truthy, str_eqb in Et. apply negb_false_iff in Et.
      now apply bool_decide_eq_true in Et. }
    subst lines. cbn [split_char List.filter map].
    assert (Hb : blank [] = true) by reflexivity.
    rewrite Hb. cbn [negb]. rewrite !andb_false_r. reflexivity.
Qed.

End WithRuntime.
End ValidateMore.

(** ** The graph builder *)

Module BuildFacts.
Import Vocabularies VocabSpec ApiToRdf BuildSpec.

Section WithRuntime.
Context (rt : PyRuntime) (w : World).

Lemma same_tables_refl st : same_tables rt w st st.
Proof. now intros name. Qed.

Lemma same_tables_trans st1 st2 st3 :
  same_tables rt w st1 st2 -> same_tables rt w st2 st3 -> same_tables rt w st1 st3.
Proof. intros H1 H2 name. now rewrite H2, H1. Qed.

(** Loading a vocabulary changes no table: what enters the cache is
    what a later call would have read. *)
Lemma same_tables_load name st :
  same_tables rt w st (load_vocab rt w name false st).2.
Proof.
  intros name'. unfold table.
  rewrite !VocabFacts.load_vocab_table, VocabFacts.load_vocab_cache.
  destruct (vocab_cache st !! lower rt name) as [cached|] eqn:E; [reflexivity |].
  destruct (dict_truthy (table_in_world rt w (lower rt name))); [| reflexivity].
  destruct (decide (lower rt name = lower rt name')) as [Heq|Hne].
  - rewrite <- Heq, lookup_insert_eq, E. reflexivity.
  - now rewrite lookup_insert_ne.
Qed.

Lemma same_tables_convert value name st :
  same_tables rt w st (convert_to_iri rt w value name st).2.
Proof.
  unfold convert_to_iri.
  destruct (truthy value); cbn [negb]; [| apply same_tables_refl].
  pose proof (same_tables_load name st) as H.
  destruct (load_vocab rt w name false st) as [vocab st'].
  now destruct value.
Qed.

(** *** Rules for [adds_only] *)

Lemma adds_only_ret {A} P (a : A) : adds_only rt w P (mret a).
Proof.
  intros s r s' H. injection H as <- <-. split; [| apply same_tables_refl].
  exists []. now rewrite app_nil_r.
Qed.

Lemma adds_only_bind {A C} P (m : B A) (k : A -> B C) :
  adds_only rt w P m -> (forall a, adds_only rt w P (k a)) ->
  adds_only rt w P (m ≫= k).
Proof.
  intros Hm Hk s r s' H. unfold mbind, B_bind in H.
  destruct (m s) as [[a|e] s1] eqn:E.
  - destruct (Hm _ _ _ E) as [(new1 & G1 & F1) T1].
    destruct (Hk a _ _ _ H) as [(new2 & G2 & F2) T2].
    split; [| eapply same_tables_trans; eassumption].
    exists (new1 ++ new2). rewrite G2, G1, app_assoc. split; [reflexivity |].
    now apply Forall_app.
  - injection H as <- <-. now apply (Hm _ _ _ E).
Qed.

Lemma adds_only_add (P : triple -> Prop) t : P t -> adds_only rt w P (add t).
Proof.
  intros Ht s r s' H. injection H as <- <-. split; [| apply same_tables_refl].
  exists [t]. split; [reflexivity | now constructor].
Qed.

Lemma adds_only_fresh_bnode P : adds_only rt w P fresh_bnode.
Proof.
  intros s r s' H. injection H as <- <-. split; [| apply same_tables_refl].
  exists []. now rewrite app_nil_r.
Qed.

Lemma adds_only_liftR {A} P (r : res A) : adds_only rt w P (liftR r).
Proof.
  intros s r' s' H. injection H as <- <-. split; [| apply same_tables_refl].
  exists []. now rewrite app_nil_r.
Qed.

Lemma adds_only_convert P value name :
  adds_only rt w P (liftV (convert_to_iri rt w value name)).
Proof.
  intros s r s' H. unfold liftV in H.
  pose proof (same_tables_convert value name (vst s)) as T.
  destruct (convert_to_iri rt w value name (vst s)) as [r0 v].
  injection H as <- <-. split; [| exact T].
  exists []. now rewrite app_nil_r.
Qed.

Lemma adds_only_when P (c : bool) m :
  (c = true -> adds_only rt w P m) -> adds_only rt w P (when c m).
Proof.
  intros H. destruct c; [now apply H | apply adds_only_ret].
Qed.

Lemma adds_only_for_each {A} P (l : list A) (body : A -> B unit) :
  (forall x, In x l -> adds_only rt w P (body x)) ->
  adds_only rt w P (for_each l body).
Proof.
  induction l as [|x l IH]; intros H; simpl; [apply adds_only_ret |].
  apply adds_only_bind; [apply H; now left |].
  intros _. apply IH. intros y Hy. apply H. now right.
Qed.

Lemma adds_only_try {A} P (body : B A) classes handler :
  adds_only rt w P body -> (forall e, adds_only rt w P (handler e)) ->
  adds_only rt w P (try_except_B body classes handler).
Proof.
  intros Hb Hh s r s' H. unfold try_except_B in H.
  destruct (body s) as [[a|e] s1] eqn:E.
  - injection H as <- <-. now apply (Hb _ _ _ E).
  - destruct (bool_decide (exn_class e ∈ classes)).
    + destruct (Hb _ _ _ E) as [(new1 & G1 & F1) T1].
      destruct (Hh e _ _ _ H) as [(new2 & G2 & F2) T2].
      split; [| eapply same_tables_trans; eassumption].
      exists (new1 ++ new2). rewrite G2, G1, app_assoc. split; [reflexivity |].
      now apply Forall_app.
    + injection H as <- <-. now apply (Hb _ _ _ E).
Qed.

Lemma adds_only_weaken {A} (P Q : triple -> Prop) (m : B A) :
  adds_only rt w P m -> (forall t, P t -> Q t) -> adds_only rt w Q m.
Proof.
  intros Hm HPQ s r s' H. destruct (Hm _ _ _ H) as [(new & G & F) T].
  split; [| exact T]. exists new. split; [exact G |].
  eapply Forall_impl; eassumption.
Qed.

Lemma has_predicate_here preds s p o :
  p ∈ preds -> has_predicate preds (s, URIRef p, o) = true.
Proof.
  intros H. unfold has_predicate. cbn. now apply bool_decide_eq_true_2.
Qed.

(** *** The predicates of each statement *)

Ltac adds_step :=
  first
    [ apply adds_only_ret
    | apply adds_only_liftR
    | apply adds_only_fresh_bnode
    | apply adds_only_convert
    | apply adds_only_add; vm_compute; reflexivity
    | apply adds_only_when; intros ?
    | apply adds_only_bind; [| intros ?]
    | apply adds_only_for_each; intros ? ?
    | apply adds_only_try; [| intros ?]
    | match goal with
      | |- adds_only _ _ _ (if ?c then _ else _) => destruct c
      | |- adds_only _ _ _ (match ?c with _ => _ end) => destruct c
      end ].

Ltac solve_adds :=
  cbv zeta;
  unfold emit_theme, add_date, add_concept, freq_to_iri, sei_to_iri, formato_to_iri,
    tipo_recurso_to_iri, theme_to_iri, licenca_to_iri;
  repeat adds_step.

Abbreviation emits preds m := (adds_only rt w (fun t => has_predicate preds t = true) m).

Lemma adds_only_blocks P (blocks : list (B unit)) :
  Forall (adds_only rt w P) blocks -> adds_only rt w P (for_each blocks id).
Proof.
  intros H. apply adds_only_for_each. intros b Hb.
  rewrite Forall_forall in H. apply H. now apply list_elem_of_In.
Qed.

Lemma has_predicate_incl (preds preds' : list pystr) :
  forallb (fun p => bool_decide (p ∈ preds')) preds = true ->
  forall t, has_predicate preds t = true -> has_predicate preds' t = true.
Proof.
  intros H t. unfold has_predicate. destruct (predicate_of t) as [p| |]; try discriminate.
  intros Hp. apply bool_decide_eq_true in Hp. apply bool_decide_eq_true.
  rewrite forallb_forall in H. apply list_elem_of_In in Hp.
  specialize (H p Hp). now apply bool_decide_eq_true in H.
Qed.

Lemma emits_incl {A} (preds preds' : list pystr) (m : B A) :
  forallb (fun p => bool_decide (p ∈ preds')) preds = true ->
  emits preds m -> emits preds' m.
Proof.
  intros H Hm. eapply adds_only_weaken; [exact Hm |]. now apply has_predicate_incl.
Qed.

Lemma emit_identifier_predicates data ds :
  emits [iri (DCTERMS "identifier")] (emit_identifier data ds).
Proof. unfold emit_identifier. solve_adds. Qed.

Lemma emit_title_predicates data ds :
  emits [iri (DCTERMS "title")] (emit_title data ds).
Proof. unfold emit_title. solve_adds. Qed.

Lemma emit_description_predicates data ds :
  emits [iri (DCTERMS "description")] (emit_description data ds).
Proof. unfold emit_description. solve_adds. Qed.

Lemma emit_periodicity_predicates data ds :
  emits (iri (DCTERMS "accrualPeriodicity") :: concept_predicates)
        (emit_periodicity rt w data ds).
Proof. unfold emit_periodicity. solve_adds. Qed.

Lemma emit_spatial_predicates data ds :
  emits [iri (DCTERMS "spatial")] (emit_spatial data ds).
Proof. unfold emit_spatial. solve_adds. Qed.

Lemma emit_access_rights_predicates data ds :
  emits (iri (DCTERMS "accessRights") :: concept_predicates)
        (emit_access_rights rt w data ds).
Proof. unfold emit_access_rights. solve_adds. Qed.

Lemma emit_issued_predicates data ds :
  emits [iri (DCTERMS "issued")] (emit_issued rt data ds).
Proof. unfold emit_issued. solve_adds. Qed.

Lemma emit_modified_predicates data ds :
  emits [iri (DCTERMS "modified")] (emit_modified rt data ds).
Proof. unfold emit_modified. solve_adds. Qed.

Lemma emit_license_predicates data ds :
  emits [iri (DCTERMS "license")] (emit_license rt w data ds).
Proof. unfold emit_license. solve_adds. Qed.

Lemma emit_contact_and_publisher_predicates data ds :
  emits [ iri (DCAT "contactPoint"); iri (RDF "type"); iri (VCARD "hasEmail");
          iri (DCTERMS "publisher"); iri (FOAF "name"); iri (FOAF "mbox") ]
        (emit_contact_and_publisher rt data ds).
Proof. unfold emit_contact_and_publisher. solve_adds. Qed.

Lemma emit_creator_predicates data ds :
  emits [iri (DCTERMS "creator"); iri (RDF "type"); iri (FOAF "name")]
        (emit_creator data ds).
Proof. unfold emit_creator. solve_adds. Qed.

Lemma emit_version_predicates data ds :
  emits [iri DCAT_VERSION] (emit_version data ds).
Proof. unfold emit_version. solve_adds. Qed.

Lemma emit_flag_predicates key data ds :
  emits [iri (DCATBR key)] (emit_flag rt key data ds).
Proof.
  unfold emit_flag. cbv zeta.
  apply adds_only_bind.
  - destruct (is_none _); [apply adds_only_liftR | apply adds_only_ret].
  - intros flag. apply adds_only_when. intros _. apply adds_only_add.
    unfold DCATBR, iri. apply has_predicate_here. apply list_elem_of_here.
Qed.

Lemma emit_granularity_predicates data ds :
  emits [iri (DCAT "spatialResolutionInMeters")] (emit_granularity data ds).
Proof. unfold emit_granularity. solve_adds. Qed.

Lemma emit_keywords_predicates data ds :
  emits [iri (DCAT "keyword")] (emit_keywords data ds).
Proof. unfold emit_keywords. solve_adds. Qed.

Lemma emit_start_date_predicates data ds :
  emits [iri (DCAT "startDate")] (emit_start_date rt data ds).
Proof. unfold emit_start_date. solve_adds. Qed.

Lemma emit_end_date_predicates data ds :
  emits [iri (DCAT "endDate")] (emit_end_date rt data ds).
Proof. unfold emit_end_date. solve_adds. Qed.

Lemma emit_themes_predicates data ds :
  emits (iri (DCAT "theme") :: concept_predicates) (emit_themes rt w data ds).
Proof. unfold emit_themes. solve_adds. Qed.

Lemma emit_resource_title_predicates resource dist :
  emits [iri (DCTERMS "title")] (emit_resource_title resource dist).
Proof. unfold emit_resource_title. solve_adds. Qed.

Lemma emit_resource_description_predicates resource dist :
  emits [iri (DCTERMS "description")] (emit_resource_description resource dist).
Proof. unfold emit_resource_description. solve_adds. Qed.

Lemma emit_resource_format_predicates resource dist :
  emits (iri (DCTERMS "format") :: iri (DCAT "mediaType") :: concept_predicates)
        (emit_resource_format rt w resource dist).
Proof. unfold emit_resource_format. solve_adds. Qed.

Lemma emit_resource_url_predicates resource dist :
  emits [iri (DCAT "accessURL"); iri (DCAT "downloadURL")]
        (emit_resource_url rt resource dist).
Proof. unfold emit_resource_url. solve_adds. Qed.

Lemma emit_resource_issued_predicates resource dist :
  emits [iri (DCTERMS "issued")] (emit_resource_issued rt resource dist).
Proof. unfold emit_resource_issued. solve_adds. Qed.

Lemma emit_resource_type_predicates resource dist :
  emits (iri (DCTERMS "type") :: concept_predicates)
        (emit_resource_type rt w resource dist).
Proof. unfold emit_resource_type. solve_adds. Qed.

Lemma emit_resource_modified_predicates resource dist :
  emits [iri (DCTERMS "modified")] (emit_resource_modified rt resource dist).
Proof. unfold emit_resource_modified. solve_adds. Qed.

Lemma emit_resource_size_predicates resource dist :
  emits [iri (DCAT "byteSize")] (emit_resource_size rt resource dist).
Proof. unfold emit_resource_size. solve_adds. Qed.

Lemma emit_theme_predicates ds tema :
  emits (iri (DCAT "theme") :: concept_predicates) (emit_theme rt w ds tema).
Proof. unfold emit_theme. solve_adds. Qed.

Lemma resource_blocks_predicates resource dist :
  Forall (fun b => emits resource_predicates b) (resource_blocks rt w resource dist).
Proof.
  unfold resource_blocks.
  constructor; [eapply emits_incl; [| apply emit_resource_title_predicates];
                vm_compute; reflexivity |].
  constructor; [eapply emits_incl; [| apply emit_resource_description_predicates];
                vm_compute; reflexivity |].
  constructor; [eapply emits_incl; [| apply emit_resource_format_predicates];
                vm_compute; reflexivity |].
  constructor; [eapply emits_incl; [| apply emit_resource_url_predicates];
                vm_compute; reflexivity |].
  constructor; [eapply emits_incl; [| apply emit_resource_issued_predicates];
                vm_compute; reflexivity |].
  constructor; [eapply emits_incl; [| apply emit_resource_type_predicates];
                vm_compute; reflexivity |].
  constructor; [eapply emits_incl; [| apply emit_resource_modified_predicates];
                vm_compute; reflexivity |].
  constructor; [eapply emits_incl; [| apply emit_resource_size_predicates];
                vm_compute; reflexivity |].
  constructor.
Qed.

Lemma emit_resource_predicates base_uri ds resource :
  emits resource_predicates (emit_resource rt w base_uri ds resource).
Proof.
  unfold emit_resource. destruct resource; try apply adds_only_liftR.
  cbv zeta. apply adds_only_bind; [apply adds_only_add; vm_compute; reflexivity |].
  intros _. apply adds_only_bind; [apply adds_only_add; vm_compute; reflexivity |].
  intros _. apply adds_only_blocks, resource_blocks_predicates.
Qed.

Lemma emit_distributions_predicates base_uri data ds :
  emits resource_predicates (emit_distributions rt w base_uri data ds).
Proof.
  unfold emit_distributions. apply adds_only_bind; [apply adds_only_liftR |].
  intros recursos. apply adds_only_for_each. intros resource _.
  apply emit_resource_predicates.
Qed.

Lemma dataset_blocks_predicates data :
  Forall2 (fun b preds => emits preds b) (dataset_blocks rt w data) dataset_predicates.
Proof.
  unfold dataset_blocks, dataset_predicates. cbv zeta.
  constructor; [apply adds_only_add; vm_compute; reflexivity |].
  constructor; [apply emit_identifier_predicates |].
  constructor; [apply emit_title_predicates |].
  constructor; [apply emit_description_predicates |].
  constructor; [apply emit_periodicity_predicates |].
  constructor; [apply emit_spatial_predicates |].
  constructor; [apply emit_access_rights_predicates |].
  constructor; [apply emit_issued_predicates |].
  constructor; [apply emit_modified_predicates |].
  constructor; [apply emit_license_predicates |].
  constructor; [apply emit_contact_and_publisher_predicates |].
  constructor; [apply emit_creator_predicates |].
  constructor; [apply emit_version_predicates |].
  constructor; [apply emit_flag_predicates |].
  constructor; [apply emit_flag_predicates |].
  constructor; [apply emit_granularity_predicates |].
  constructor; [apply emit_keywords_predicates |].
  constructor; [apply emit_start_date_predicates |].
  constructor; [apply emit_end_date_predicates |].
  constructor; [apply emit_themes_predicates |].
  constructor; [apply emit_distributions_predicates |].
  constructor.
Qed.

(** Every statement only adds to the graph. *)
Lemma emits_monotone {A} preds (m : B A) :
  emits preds m -> adds_only rt w (fun _ => True) m.
Proof. intros H. eapply adds_only_weaken; [exact H | auto]. Qed.

Lemma dataset_blocks_monotone data :
  Forall (adds_only rt w (fun _ => True)) (dataset_blocks rt w data).
Proof.
  pose proof (dataset_blocks_predicates data) as H.
  induction H; constructor; eauto using emits_monotone.
Qed.

Lemma resource_blocks_monotone resource dist :
  Forall (adds_only rt w (fun _ => True)) (resource_blocks rt w resource dist).
Proof.
  eapply Forall_impl; [apply resource_blocks_predicates |].
  intros b Hb. exact (emits_monotone _ _ Hb).
Qed.

(** *** Statements that ran *)

Lemma bind_run {A C} (m : B A) (k : A -> B C) s c s' :
  (m ≫= k) s = (Ok c, s') ->
  exists a s1, m s = (Ok a, s1) /\ k a s1 = (Ok c, s').
Proof.
  unfold mbind, B_bind. destruct (m s) as [[a|e] s1]; [eauto | discriminate].
Qed.

(** A loop that ended without raising ran the body on each item, in a
    state with the tables of the start, and what the body added is in
    the graph at the end. *)
Lemma for_each_run {A} (l : list A) (body : A -> B unit) x s s' :
  (forall y, adds_only rt w (fun _ => True) (body y)) ->
  for_each l body s = (Ok tt, s') ->
  In x l ->
  exists s1 s2,
    body x s1 = (Ok tt, s2)
    /\ same_tables rt w (vst s) (vst s1)
    /\ (forall t, In t (graph s2) -> In t (graph s')).
Proof.
  intros Hmono. revert s. induction l as [|y l IH]; intros s Hrun Hin; [destruct Hin |].
  simpl in Hrun. apply bind_run in Hrun as (a & s1 & Hy & Hrest). destruct a.
  destruct Hin as [<- | Hin].
  - exists s, s1. repeat split; auto using same_tables_refl.
    intros t Ht. destruct (adds_only_for_each (fun _ => True) l body
                             (fun z _ => Hmono z) _ _ _ Hrest) as [(new & G & _) _].
    rewrite G. apply in_or_app. now left.
  - destruct (IH s1 Hrest Hin) as (s2 & s3 & Hx & T & G).
    exists s2, s3. repeat split; auto.
    destruct (Hmono y _ _ _ Hy) as [_ T1]. eapply same_tables_trans; eassumption.
Qed.

(** The conversion returned the graph [g]: its statements ran, from the
    empty graph. *)
Lemma api_to_rdf_run data bn st g st' :
  api_to_rdf rt w data bn st = (Ok g, st') ->
  exists s, for_each (dataset_blocks rt w data) id (Build [] bn st) = (Ok tt, s)
            /\ graph s = g /\ vst s = st'.
Proof.
  unfold api_to_rdf.
  destruct (for_each (dataset_blocks rt w data) id (Build [] bn st)) as [[[]|e] s];
    intros [= <- <-]; eauto.
Qed.

Lemma blocks_run (blocks : list (B unit)) b s s' :
  Forall (adds_only rt w (fun _ => True)) blocks ->
  for_each blocks id s = (Ok tt, s') ->
  In b blocks ->
  exists s1 s2,
    b s1 = (Ok tt, s2)
    /\ same_tables rt w (vst s) (vst s1)
    /\ (forall t, In t (graph s2) -> In t (graph s')).
Proof.
  intros Hmono Hrun Hin.
  assert (Hrun' : for_each blocks id s = (Ok tt, s')) by exact Hrun.
  clear Hrun. revert s Hrun'.
  induction Hmono as [|b0 blocks Hb0 Hmono IH]; intros s Hrun; [destruct Hin |].
  simpl in Hrun. apply bind_run in Hrun as (a & s1 & Hy & Hrest). destruct a.
  destruct Hin as [<- | Hin].
  - exists s, s1. repeat split; auto using same_tables_refl.
    intros t Ht.
    destruct (adds_only_blocks (fun _ => True) blocks Hmono _ _ _ Hrest)
      as [(new & G & _) _].
    rewrite G. apply in_or_app. now left.
  - destruct (IH Hin s1 Hrest) as (s2 & s3 & Hx & T & G).
    exists s2, s3. repeat split; auto.
    destruct (Hb0 _ _ _ Hy) as [_ T1]. eapply same_tables_trans; eassumption.
Qed.

(** The run of the statement about the distributions, and of the body
    of its loop on each resource. *)
Lemma distributions_run data bn st g st' recursos resource :
  api_to_rdf rt w data bn st = (Ok g, st') ->
  recursos_of data = Ok recursos ->
  In resource recursos ->
  exists s1 s2,
    emit_resource rt w (base_uri_of rt w data) (dataset_uri rt w data) resource s1
    = (Ok tt, s2)
    /\ same_tables rt w st (vst s1)
    /\ (forall t, In t (graph s2) -> In t g).
Proof.
  intros Hrun Hrec Hin.
  apply api_to_rdf_run in Hrun as (s & Hrun & <- & _).
  destruct (blocks_run _ (emit_distributions rt w (base_uri_of rt w data) data
                                             (dataset_uri rt w data))
                       _ _ (dataset_blocks_monotone data) Hrun)
    as (s1 & s2 & Hb & T1 & G1).
  { unfold dataset_blocks. cbv zeta. unfold dataset_uri. simpl. tauto. }
  unfold emit_distributions in Hb. apply bind_run in Hb as (rs & s1' & Hl & Hloop).
  unfold liftR in Hl. rewrite Hrec in Hl. injection Hl as <- <-.
  destruct (for_each_run recursos _ resource _ _
              (fun y => emits_monotone _ _ (emit_resource_predicates _ _ y)) Hloop Hin)
    as (s3 & s4 & Hr & T2 & G2).
  exists s3, s4. repeat split; auto.
  eapply same_tables_trans; eassumption.
Qed.

(** X10. A resource that is not an object makes the conversion fail:
    whatever the rest of the record, [api_to_rdf] does not return a
    graph. *)
Theorem resource_that_is_no_object_fails
        (data : list (pystr * pyval)) (bn : nat) (st : vstate)
        (recursos : list pyval) (resource : pyval) :
  recursos_of data = Ok recursos ->
  In resource recursos ->
  (forall fields, resource <> PDict fields) ->
  forall g, (api_to_rdf rt w data bn st).1 <> Ok g.
Proof.
  intros Hrec Hin Hno g Hok.
  destruct (api_to_rdf rt w data bn st) as [r st'] eqn:E. simpl in Hok. subst r.
  destruct (distributions_run _ _ _ _ _ _ _ E Hrec Hin) as (s1 & s2 & Hr & _).
  unfold emit_resource in Hr. destruct resource; try discriminate.
  now apply (Hno d).
Qed.

(** X11. Each resource of the record that is an object has its
    distribution in the graph that the conversion returns: the dataset
    points to it, and it is typed as a distribution.  Its address is the
    dataset's, followed by [/resource/] and the resource's [id], or
    [unknown] when it has none; the dataset's address is the configured
    base, a slash, and the record's [nome], else [name], else [id]. *)
Theorem each_resource_has_its_distribution
        (data : list (pystr * pyval)) (bn : nat) (st st' : vstate)
        (g : list triple) (recursos : list pyval) (resource : list (pystr * pyval)) :
  api_to_rdf rt w data bn st = (Ok g, st') ->
  recursos_of data = Ok recursos ->
  In (PDict resource) recursos ->
  let base_uri :=
    match getenv_api_url w with Some url => url | None => u "None" end
      ++ u "/"
      ++ py_str rt (get_default data (u "nome")
                                (get_default data (u "name") (get data "id"))) in
  let dist :=
    URIRef (base_uri ++ u "/resource/"
              ++ py_str rt (get_default resource (u "id") (PStr (u "unknown")))) in
  In (URIRef base_uri, RDF "type", DCAT "Dataset") g
  /\ In (URIRef base_uri, DCAT "distribution", dist) g
  /\ In (dist, RDF "type", DCAT "Distribution") g.
Proof.
  intros Hrun Hrec Hin base_uri dist. split.
  - apply api_to_rdf_run in Hrun as (s & Hrun & <- & _).
    destruct (blocks_run _ (add (URIRef base_uri, RDF "type", DCAT "Dataset"))
                         _ _ (dataset_blocks_monotone data) Hrun)
      as (s1 & s2 & Hadd & _ & G).
    { left. reflexivity. }
    apply G. injection Hadd as <-. cbn [graph]. apply in_or_app. right. now left.
  - destruct (distributions_run _ _ _ _ _ _ _ Hrun Hrec Hin) as (s1 & s2 & Hr & _ & G).
    unfold emit_resource in Hr. cbv zeta in Hr.
    apply bind_run in Hr as ([] & s3 & Ha1 & Hr).
    apply bind_run in Hr as ([] & s4 & Ha2 & Hr).
    injection Ha1 as <-. injection Ha2 as <-.
    destruct (adds_only_blocks _ _ (resource_blocks_monotone _ _) _ _ _ Hr)
      as [(new & G' & _) _].
    split; apply G; rewrite G'; cbn [graph]; apply in_or_app; left;
      apply in_or_app; [left; apply in_or_app; right | right]; now left.
Qed.

(** *** What a graph cannot hold *)

Lemma has_predicate_disjoint (preds avoid : list pystr) :
  forallb (fun p => negb (bool_decide (p ∈ avoid))) preds = true ->
  forall t, has_predicate preds t = true -> has_predicate avoid t = false.
Proof.
  intros H t. unfold has_predicate. destruct (predicate_of t) as [p| |]; try discriminate.
  intros Hp. apply bool_decide_eq_true in Hp. apply list_elem_of_In in Hp.
  rewrite forallb_forall in H. specialize (H p Hp).
  now apply negb_true_iff in H.
Qed.

(** Statements with other predicates satisfy any condition put on the
    triples with the predicates [owned]. *)
Lemma emits_others {A} (preds owned : list pystr) (Q : triple -> Prop) (m : B A) :
  forallb (fun p => negb (bool_decide (p ∈ owned))) preds = true ->
  emits preds m ->
  adds_only rt w (fun t => has_predicate owned t = true -> Q t) m.
Proof.
  intros H Hm. eapply adds_only_weaken; [exact Hm |].
  intros t Ht Ho. rewrite (has_predicate_disjoint _ _ H t Ht) in Ho. discriminate.
Qed.

Lemma adds_only_owned {A} (owned : list pystr) (Q : triple -> Prop) (m : B A) :
  adds_only rt w Q m ->
  adds_only rt w (fun t => has_predicate owned t = true -> Q t) m.
Proof. intros Hm. eapply adds_only_weaken; [exact Hm | auto]. Qed.

Lemma adds_nothing_weaken {A} (Q : triple -> Prop) (m : B A) :
  adds_only rt w (fun _ => False) m -> adds_only rt w Q m.
Proof. intros Hm. eapply adds_only_weaken; [exact Hm | contradiction]. Qed.

(** The graph of a conversion, from what its statements add. *)
Lemma api_to_rdf_graph (P : triple -> Prop) data bn st g st' :
  Forall (adds_only rt w P) (dataset_blocks rt w data) ->
  api_to_rdf rt w data bn st = (Ok g, st') ->
  Forall P g /\ same_tables rt w st st'.
Proof.
  intros Hb Hrun. apply api_to_rdf_run in Hrun as (s & Hrun & <- & <-).
  destruct (adds_only_blocks P _ Hb _ _ _ Hrun) as [(new & G & F) T].
  split; [| exact T]. now rewrite G.
Qed.

(** The statements of the dataset, each one either with predicates
    other than [owned] or shown to satisfy [Q]. *)
Lemma dataset_blocks_owned (owned : list pystr) (Q : triple -> Prop) data :
  Forall2 (fun b preds =>
             forallb (fun p => negb (bool_decide (p ∈ owned))) preds = true
             \/ adds_only rt w (fun t => has_predicate owned t = true -> Q t) b)
          (dataset_blocks rt w data) dataset_predicates ->
  Forall (adds_only rt w (fun t => has_predicate owned t = true -> Q t))
         (dataset_blocks rt w data).
Proof.
  intros H. pose proof (dataset_blocks_predicates data) as Hp.
  revert H. induction Hp as [|b preds bs predss Hb Hp IH]; intros H; [constructor |].
  inversion H as [|? ? ? ? H1 H2]; subst. constructor; [| now apply IH].
  destruct H1 as [H1 | H1]; [| exact H1]. now apply (emits_others preds).
Qed.

Lemma resource_blocks_owned (owned : list pystr) (Q : triple -> Prop) resource dist :
  Forall2 (fun b preds =>
             forallb (fun p => negb (bool_decide (p ∈ owned))) preds = true
             \/ adds_only rt w (fun t => has_predicate owned t = true -> Q t) b)
          (resource_blocks rt w resource dist) resource_block_predicates ->
  Forall (adds_only rt w (fun t => has_predicate owned t = true -> Q t))
         (resource_blocks rt w resource dist).
Proof.
  intros H.
  assert (Hp : Forall2 (fun b preds => emits preds b)
                       (resource_blocks rt w resource dist) resource_block_predicates).
  { unfold resource_blocks, resource_block_predicates.
    constructor; [apply emit_resource_title_predicates |].
    constructor; [apply emit_resource_description_predicates |].
    constructor; [apply emit_resource_format_predicates |].
    constructor; [apply emit_resource_url_predicates |].
    constructor; [apply emit_resource_issued_predicates |].
    constructor; [apply emit_resource_type_predicates |].
    constructor; [apply emit_resource_modified_predicates |].
    constructor; [apply emit_resource_size_predicates |].
    constructor. }
  revert H. induction Hp as [|b preds bs predss Hb Hp IH]; intros H; [constructor |].
  inversion H as [|? ? ? ? H1 H2]; subst. constructor; [| now apply IH].
  destruct H1 as [H1 | H1]; [| exact H1]. now apply (emits_others preds).
Qed.

Lemma adds_only_bind_liftR {A C} P (r : res A) (k : A -> B C) :
  (forall a, r = Ok a -> adds_only rt w P (k a)) ->
  adds_only rt w P (liftR r ≫= k).
Proof.
  intros Hk s r' s' H. unfold mbind, B_bind, liftR in H.
  destruct r as [a|e].
  - now apply (Hk a eq_refl _ _ _ H).
  - injection H as <- <-. split; [| apply same_tables_refl].
    exists []. now rewrite app_nil_r.
Qed.

Ltac owned_blocks tac :=
  repeat (constructor; [first [left; vm_compute; reflexivity | right; solve [tac]] |]);
  constructor.

Lemma graph_without_distributions data bn st st' g :
  api_to_rdf rt w data bn st = (Ok g, st') ->
  recursos_of data = Ok [] ->
  forall t, In t g -> has_predicate distribution_only_predicates t = false.
Proof.
  intros Hrun Hrec.
  assert (Hb : Forall (adds_only rt w (fun t =>
                         has_predicate distribution_only_predicates t = true -> False))
                      (dataset_blocks rt w data)).
  { apply dataset_blocks_owned. unfold dataset_blocks, dataset_predicates. cbv zeta.
    owned_blocks ltac:(unfold emit_distributions; apply adds_only_bind_liftR;
                       intros rs Hrs; rewrite Hrec in Hrs; injection Hrs as <-;
                       apply adds_only_ret). }
  destruct (api_to_rdf_graph _ _ _ _ _ _ Hb Hrun) as [F _].
  intros t Ht. rewrite Forall_forall in F.
  destruct (has_predicate distribution_only_predicates t) eqn:E; [| reflexivity].
  exfalso. apply (F t); [now apply list_elem_of_In | exact E].
Qed.

(** X12. A record without resources gives a graph without anything of
    a distribution: no triple has a predicate that only distributions
    have. *)
Theorem no_resources_no_distribution_triples
        (data : list (pystr * pyval)) (bn : nat) (st st' : vstate) (g : list triple) :
  api_to_rdf rt w data bn st = (Ok g, st') ->
  recursos_of data = Ok [] ->
  forall t, In t g -> has_predicate distribution_only_predicates t = false.
Proof. apply graph_without_distributions. Qed.

Lemma opt_truthy_some o : opt_truthy o = true -> exists s, o = Some s /\ s <> [].
Proof.
  destruct o as [s|]; [| discriminate]. cbn. intros H. exists s. split; [reflexivity |].
  apply negb_true_iff in H. now apply bool_decide_eq_false in H.
Qed.

Lemma add_date_normalized subj pred value :
  adds_only rt w
    (fun t => exists out,
         t = (subj, pred, typed (PStr out) (XSD "date"))
         /\ DateUtils.normalize_date rt value = Ok (Some out)
         /\ out <> [])
    (add_date rt subj pred value).
Proof.
  unfold add_date. apply adds_only_when. intros _.
  apply adds_only_bind_liftR. intros normalized Hn.
  apply adds_only_when. intros Ht.
  apply opt_truthy_some in Ht as (out & -> & Hne).
  apply adds_only_add. exists out. auto.
Qed.

(** The date statement of a field of the record. *)
Lemma add_date_of_field data subj pred value :
  date_field rt w data subj pred value ->
  adds_only rt w (fun t => has_predicate date_predicates t = true ->
                           date_of_the_record rt w data t)
            (add_date rt subj pred value).
Proof.
  intros Hf. eapply adds_only_weaken; [apply add_date_normalized |].
  intros t (out & -> & Hn & Hne) _. exists value, out. auto.
Qed.

Ltac dataset_date_field :=
  left; split; [unfold dataset_uri; reflexivity |].

Ltac resource_date_field :=
  right;
  match goal with
  | Hrec : recursos_of _ = Ok ?recursos, Hin : In (PDict ?resource) ?recursos |- _ =>
      exists recursos, resource;
      split; [exact Hrec |]; split; [exact Hin |];
      split; [unfold distribution_uri; reflexivity |]
  end.

(** X13. Every date in the graph is the normalized date of a field of
    the record.  A triple with predicate issued, modified, startDate or
    endDate has the dataset or one of its distributions for subject, and
    for object a literal typed [xsd:date] that holds the date, not
    empty, that [normalize_date] returns for the value of the field
    behind it: for the dataset, [dataCatalogacao] or else
    [metadata_created] (issued), [dataUltimaAtualizacaoMetadados] or
    else [metadata_modified] (modified), [coberturaTemporalInicio]
    (startDate) and [coberturaTemporalFim] (endDate), at the top level
    or else among the extras; for a resource, [created] or else
    [dataCatalogacao] (issued) and [last_modified] or else
    [dataUltimaAtualizacaoArquivo] (modified), of the resource or else
    of its nested forms.  So a field whose value [normalize_date]
    rejects gives no date triple. *)
Theorem dates_in_the_graph_are_normalized
        (data : list (pystr * pyval)) (bn : nat) (st st' : vstate) (g : list triple) :
  api_to_rdf rt w data bn st = (Ok g, st') ->
  forall t,
    In t g ->
    has_predicate date_predicates t = true ->
    date_of_the_record rt w data t.
Proof.
  intros Hrun.
  assert (Hb : Forall (adds_only rt w (fun t =>
                         has_predicate date_predicates t = true ->
                         date_of_the_record rt w data t))
                      (dataset_blocks rt w data)).
  { apply dataset_blocks_owned. unfold dataset_blocks, dataset_predicates. cbv zeta.
    owned_blocks
      ltac:(first
              [ unfold emit_issued; apply add_date_of_field; dataset_date_field;
                left; split; reflexivity
              | unfold emit_modified; apply add_date_of_field; dataset_date_field;
                right; left; split; reflexivity
              | unfold emit_start_date; apply adds_only_bind_liftR; intros v Hv;
                apply add_date_of_field; dataset_date_field;
                right; right; left; split; [reflexivity | exact Hv]
              | unfold emit_end_date; apply adds_only_bind_liftR; intros v Hv;
                apply add_date_of_field; dataset_date_field;
                right; right; right; split; [reflexivity | exact Hv]
              | unfold emit_distributions; apply adds_only_bind_liftR;
                intros recursos Hrec; apply adds_only_for_each; intros resource Hin;
                unfold emit_resource; destruct resource; try apply adds_only_liftR;
                cbv zeta;
                apply adds_only_bind;
                [apply (emits_others [iri (DCAT "distribution")]);
                 [vm_compute; reflexivity | apply adds_only_add; vm_compute; reflexivity] |];
                intros _; apply adds_only_bind;
                [apply (emits_others [iri (RDF "type")]);
                 [vm_compute; reflexivity | apply adds_only_add; vm_compute; reflexivity] |];
                intros _; apply adds_only_blocks, resource_blocks_owned;
                unfold resource_blocks, resource_block_predicates;
                owned_blocks
                  ltac:(first
                          [ unfold emit_resource_issued; apply adds_only_bind_liftR;
                            intros v Hv; apply add_date_of_field; resource_date_field;
                            left; split; [reflexivity | exact Hv]
                          | unfold emit_resource_modified; apply adds_only_bind_liftR;
                            intros v Hv; apply adds_only_when; intros _;
                            apply adds_only_bind; [apply adds_only_liftR |];
                            intros ?; apply adds_only_when; intros _;
                            apply add_date_of_field; resource_date_field;
                            right; split; [reflexivity | exact Hv] ]) ]). }
  destruct (api_to_rdf_graph _ _ _ _ _ _ Hb Hrun) as [F _].
  intros t Ht. rewrite Forall_forall in F. apply F. now apply list_elem_of_In.
Qed.

(** *** Literals *)

Lemma adds_only_bind_fresh {C} P (k : term -> B C) :
  (forall n, adds_only rt w P (k (BNode n))) ->
  adds_only rt w P (fresh_bnode ≫= k).
Proof.
  intros Hk s r s' H. unfold mbind, B_bind, fresh_bnode in H.
  destruct (Hk _ _ _ _ H) as [(new & G & F) T]. split; [| exact T].
  exists new. split; [exact G | exact F].
Qed.

Lemma uriref_of_is_uri v t : uriref_of rt v = Ok t -> exists i, t = URIRef i.
Proof. destruct v; intros [= <-]; eauto. Qed.

Ltac value_of_literal :=
  intros ? ? Hobj;
  unfold object_of, plain, pt_BR, typed, mailto, RDF, DCAT, DCTERMS, FOAF, SKOS,
    DCATBR, VCARD, DCAT_VERSION, MediaTypeOrExtent in Hobj;
  cbn [fst snd] in Hobj;
  first
    [ discriminate Hobj
    | injection Hobj as <- _;
      repeat match goal with
             | H : (_ && _)%bool = true |- _ => apply andb_true_iff in H as [? ?]
             end;
      assumption ].

Ltac literal_step :=
  first
    [ apply adds_only_ret
    | apply adds_only_convert
    | apply adds_only_add; value_of_literal
    | apply adds_only_when; intros ?
    | apply adds_only_bind_fresh; intros ?
    | match goal with
      | |- adds_only _ _ _ (liftR (uriref_of _ _) ≫= _) =>
          apply adds_only_bind_liftR;
          let t := fresh "t" in
          let H := fresh "H" in
          intros t H; apply uriref_of_is_uri in H as [? ->]
      end
    | apply adds_only_liftR
    | apply adds_only_bind; [| intros ?]
    | apply adds_only_for_each; intros ? ?
    | apply adds_only_try; [| intros ?]
    | match goal with
      | |- adds_only _ _ _ (if ?c then _ else _) => destruct c
      | |- adds_only _ _ _ (match ?c with _ => _ end) => destruct c
      end ].

Ltac solve_literals :=
  cbv zeta;
  unfold emit_theme, add_date, add_concept, freq_to_iri, sei_to_iri, formato_to_iri,
    tipo_recurso_to_iri, theme_to_iri, licenca_to_iri;
  repeat literal_step.

Lemma resource_blocks_literals resource dist :
  Forall (adds_only rt w holds_a_value) (resource_blocks rt w resource dist).
Proof.
  unfold resource_blocks.
  constructor; [unfold emit_resource_title; solve_literals |].
  constructor; [unfold emit_resource_description; solve_literals |].
  constructor; [unfold emit_resource_format; solve_literals |].
  constructor; [unfold emit_resource_url; solve_literals |].
  constructor; [unfold emit_resource_issued; solve_literals |].
  constructor; [unfold emit_resource_type; solve_literals |].
  constructor; [unfold emit_resource_modified; solve_literals |].
  constructor; [unfold emit_resource_size; solve_literals |].
  constructor.
Qed.

Lemma emit_resource_literals base_uri ds resource :
  adds_only rt w holds_a_value (emit_resource rt w base_uri ds resource).
Proof.
  unfold emit_resource. destruct resource; try apply adds_only_liftR. cbv zeta.
  unfold distribution_uri_of, resource_uri.
  apply adds_only_bind; [apply adds_only_add; value_of_literal |]. intros _.
  apply adds_only_bind; [apply adds_only_add; value_of_literal |]. intros _.
  apply adds_only_blocks, resource_blocks_literals.
Qed.

Lemma dataset_blocks_literals data :
  Forall (adds_only rt w holds_a_value) (dataset_blocks rt w data).
Proof.
  unfold dataset_blocks. cbv zeta.
  constructor; [apply adds_only_add; value_of_literal |].
  constructor; [unfold emit_identifier; solve_literals |].
  constructor; [unfold emit_title; solve_literals |].
  constructor; [unfold emit_description; solve_literals |].
  constructor; [unfold emit_periodicity; solve_literals |].
  constructor; [unfold emit_spatial; solve_literals |].
  constructor; [unfold emit_access_rights; solve_literals |].
  constructor; [unfold emit_issued; solve_literals |].
  constructor; [unfold emit_modified; solve_literals |].
  constructor; [unfold emit_license; solve_literals |].
  constructor; [unfold emit_contact_and_publisher; solve_literals |].
  constructor; [unfold emit_creator; solve_literals |].
  constructor; [unfold emit_version; solve_literals |].
  constructor; [unfold emit_flag; solve_literals |].
  constructor; [unfold emit_flag; solve_literals |].
  constructor; [unfold emit_granularity; solve_literals |].
  constructor; [unfold emit_keywords; solve_literals |].
  constructor; [unfold emit_start_date; solve_literals |].
  constructor; [unfold emit_end_date; solve_literals |].
  constructor; [unfold emit_themes; solve_literals |].
  constructor;
    [unfold emit_distributions; apply adds_only_bind; [apply adds_only_liftR |];
     intros recursos; apply adds_only_for_each; intros resource _;
     apply emit_resource_literals |].
  constructor.
Qed.

(** X14. An empty field is left out, never written as an empty literal:
    in the graph that the conversion returns, the value of every
    literal without datatype, language-tagged or not, is true in
    Python's sense; it is not the empty text, [None], zero or an empty
    list. *)
Theorem literals_are_never_empty
        (data : list (pystr * pyval)) (bn : nat) (st st' : vstate) (g : list triple)
        (s p : term) (v : pyval) (lang : option pystr) :
  api_to_rdf rt w data bn st = (Ok g, st') ->
  In (s, p, Literal v None lang) g ->
  truthy v = true.
Proof.
  intros Hrun Hin.
  destruct (api_to_rdf_graph _ _ _ _ _ _ (dataset_blocks_literals data) Hrun) as [F _].
  rewrite Forall_forall in F. apply list_elem_of_In in Hin.
  exact (F _ Hin v lang eq_refl).
Qed.

(** X15. The spatial coverage of the graph is never the dash that the
    catalogue writes for a dataset without one. *)
Theorem spatial_coverage_is_never_a_dash
        (data : list (pystr * pyval)) (bn : nat) (st st' : vstate) (g : list triple)
        (s o : term) :
  api_to_rdf rt w data bn st = (Ok g, st') ->
  In (s, DCTERMS "spatial", o) g ->
  o <> plain (PStr (u "-")).
Proof.
  intros Hrun Hin.
  assert (Hb : Forall (adds_only rt w (fun t =>
                         has_predicate [iri (DCTERMS "spatial")] t = true ->
                         object_of t <> plain (PStr (u "-"))))
                      (dataset_blocks rt w data)).
  { apply dataset_blocks_owned. unfold dataset_blocks, dataset_predicates. cbv zeta.
    owned_blocks ltac:(apply adds_only_owned; unfold emit_spatial;
                       apply adds_only_bind; [apply adds_only_liftR |];
                       intros c; apply adds_only_when; intros Hc;
                       apply adds_only_add; unfold object_of; cbn [snd];
                       intros [= ->]; vm_compute in Hc; discriminate Hc). }
  destruct (api_to_rdf_graph _ _ _ _ _ _ Hb Hrun) as [F _].
  rewrite Forall_forall in F. apply list_elem_of_In in Hin.
  apply (F _ Hin). vm_compute. reflexivity.
Qed.

(** X16. Each tag of the record that has a name is a keyword of the
    dataset in the graph that the conversion returns. *)
Theorem each_named_tag_is_a_keyword
        (data : list (pystr * pyval)) (bn : nat) (st st' : vstate) (g : list triple)
        (tags : list pyval) (tag : list (pystr * pyval)) :
  api_to_rdf rt w data bn st = (Ok g, st') ->
  py_iter (get_default data (u "tags") (PList [])) = Ok tags ->
  In (PDict tag) tags ->
  truthy (get tag "name") = true ->
  In (dataset_uri rt w data, DCAT "keyword", plain (get tag "name")) g.
Proof.
  intros Hrun Htags Hin Hname.
  apply api_to_rdf_run in Hrun as (s & Hrun & <- & _).
  destruct (blocks_run _ (emit_keywords data (dataset_uri rt w data))
                       _ _ (dataset_blocks_monotone data) Hrun)
    as (s1 & s2 & Hb & _ & G1).
  { unfold dataset_blocks. cbv zeta. unfold dataset_uri. simpl. tauto. }
  unfold emit_keywords in Hb. apply bind_run in Hb as (ts & s1' & Hl & Hloop).
  unfold liftR in Hl. rewrite Htags in Hl. injection Hl as <- <-.
  assert (Hmono : forall y,
             adds_only rt w (fun _ => True)
               (name ← liftR (py_get y (u "name"));
                when (truthy name)
                     (add (dataset_uri rt w data, DCAT "keyword", plain name)))).
  { intros y. apply adds_only_bind; [apply adds_only_liftR |]. intros name.
    apply adds_only_when. intros _. now apply adds_only_add. }
  destruct (for_each_run tags _ (PDict tag) _ _ Hmono Hloop Hin)
    as (s3 & s4 & Hr & _ & G2).
  apply G1, G2. cbn [py_get] in Hr.
  apply bind_run in Hr as (name & s5 & Hn & Hr).
  unfold liftR in Hn. injection Hn as <- <-.
  fold (get tag "name") in Hr. rewrite Hname in Hr.
  cbn [when] in Hr. injection Hr as <-. cbn [graph].
  apply in_or_app. right. now left.
Qed.

(** *** Conversions from states with the same tables *)

Lemma build_equiv_refl s : build_equiv rt w s s.
Proof. repeat split. Qed.

Lemma convert_to_iri_result value name st :
  (convert_to_iri rt w value name st).1
  = if negb (truthy value) then Ok None
    else match value with
         | PStr s => Ok (lookup_iri rt (table rt w st name) s name)
         | _ => raise AttributeError
         end.
Proof.
  unfold convert_to_iri, table. destruct (truthy value); cbn [negb]; [| reflexivity].
  destruct (load_vocab rt w name false st). now destruct value.
Qed.

Lemma respects_ret {A} (a : A) : respects rt w (mret a).
Proof. intros s1 s2 H. split; [reflexivity | exact H]. Qed.

Lemma respects_bind {A C} (m : B A) (k : A -> B C) :
  respects rt w m -> (forall a, respects rt w (k a)) -> respects rt w (m ≫= k).
Proof.
  intros Hm Hk s1 s2 H. unfold mbind, B_bind.
  destruct (Hm s1 s2 H) as [Hr He].
  destruct (m s1) as [r1 s1'], (m s2) as [r2 s2']. cbn [fst snd] in Hr, He. subst r2.
  destruct r1 as [a|e]; [now apply Hk | now split].
Qed.

Lemma respects_add t : respects rt w (add t).
Proof.
  intros s1 s2 (Hg & Hn & Ht). unfold add. cbn [fst snd]. split; [reflexivity |].
  repeat split; cbn [graph next_bnode vst]; auto. now rewrite Hg.
Qed.

Lemma respects_fresh_bnode : respects rt w fresh_bnode.
Proof.
  intros s1 s2 (Hg & Hn & Ht). unfold fresh_bnode. cbn [fst snd]. rewrite Hn.
  split; [reflexivity |]. repeat split; cbn [graph next_bnode vst]; auto.
Qed.

Lemma respects_liftR {A} (r : res A) : respects rt w (liftR r).
Proof. intros s1 s2 H. split; [reflexivity | exact H]. Qed.

Lemma respects_convert value name :
  respects rt w (liftV (convert_to_iri rt w value name)).
Proof.
  intros s1 s2 (Hg & Hn & Ht). unfold liftV.
  pose proof (convert_to_iri_result value name (vst s1)) as R1.
  pose proof (convert_to_iri_result value name (vst s2)) as R2.
  pose proof (same_tables_convert value name (vst s1)) as T1.
  pose proof (same_tables_convert value name (vst s2)) as T2.
  destruct (convert_to_iri rt w value name (vst s1)) as [r1 v1].
  destruct (convert_to_iri rt w value name (vst s2)) as [r2 v2].
  cbn [fst snd] in *. split.
  - rewrite R1, R2, Ht. reflexivity.
  - repeat split; cbn [graph next_bnode vst]; auto.
    intros n. rewrite T1, T2. apply Ht.
Qed.

Lemma respects_when (c : bool) m : respects rt w m -> respects rt w (when c m).
Proof. intros H. destruct c; [exact H | apply respects_ret]. Qed.

Lemma respects_for_each {A} (l : list A) (body : A -> B unit) :
  (forall x, respects rt w (body x)) -> respects rt w (for_each l body).
Proof.
  intros H. induction l as [|x l IH]; simpl; [apply respects_ret |].
  apply respects_bind; [apply H | intros _; exact IH].
Qed.

Lemma respects_blocks (blocks : list (B unit)) :
  Forall (respects rt w) blocks -> respects rt w (for_each blocks id).
Proof.
  induction 1 as [|b blocks Hb _ IH]; simpl; [apply respects_ret |].
  apply respects_bind; [exact Hb | intros _; exact IH].
Qed.

Lemma respects_try {A} (body : B A) classes handler :
  respects rt w body -> (forall e, respects rt w (handler e)) ->
  respects rt w (try_except_B body classes handler).
Proof.
  intros Hb Hh s1 s2 H. unfold try_except_B.
  destruct (Hb s1 s2 H) as [Hr He].
  destruct (body s1) as [r1 s1'], (body s2) as [r2 s2']. cbn [fst snd] in Hr, He.
  subst r2. destruct r1 as [a|e]; [now split |].
  destruct (bool_decide (exn_class e ∈ classes)); [now apply Hh | now split].
Qed.

Ltac respects_step :=
  first
    [ apply respects_ret
    | apply respects_liftR
    | apply respects_fresh_bnode
    | apply respects_convert
    | apply respects_add
    | apply respects_when
    | apply respects_bind; [| intros ?]
    | apply respects_for_each; intros ?
    | apply respects_try; [| intros ?]
    | match goal with
      | |- respects _ _ (if ?c then _ else _) => destruct c
      | |- respects _ _ (match ?c with _ => _ end) => destruct c
      end ].

Ltac solve_respects :=
  cbv zeta;
  unfold emit_theme, add_date, add_concept, freq_to_iri, sei_to_iri, formato_to_iri,
    tipo_recurso_to_iri, theme_to_iri, licenca_to_iri;
  repeat respects_step.

Lemma resource_blocks_respect resource dist :
  Forall (respects rt w) (resource_blocks rt w resource dist).
Proof.
  unfold resource_blocks.
  constructor; [unfold emit_resource_title; solve_respects |].
  constructor; [unfold emit_resource_description; solve_respects |].
  constructor; [unfold emit_resource_format; solve_respects |].
  constructor; [unfold emit_resource_url; solve_respects |].
  constructor; [unfold emit_resource_issued; solve_respects |].
  constructor; [unfold emit_resource_type; solve_respects |].
  constructor; [unfold emit_resource_modified; solve_respects |].
  constructor; [unfold emit_resource_size; solve_respects |].
  constructor.
Qed.

Lemma emit_resource_respects base_uri ds resource :
  respects rt w (emit_resource rt w base_uri ds resource).
Proof.
  unfold emit_resource. destruct resource; try apply respects_liftR. cbv zeta.
  apply respects_bind; [apply respects_add |]. intros _.
  apply respects_bind; [apply respects_add |]. intros _.
  apply respects_blocks, resource_blocks_respect.
Qed.

Lemma dataset_blocks_respect data :
  Forall (respects rt w) (dataset_blocks rt w data).
Proof.
  unfold dataset_blocks. cbv zeta.
  constructor; [apply respects_add |].
  constructor; [unfold emit_identifier; solve_respects |].
  constructor; [unfold emit_title; solve_respects |].
  constructor; [unfold emit_description; solve_respects |].
  constructor; [unfold emit_periodicity; solve_respects |].
  constructor; [unfold emit_spatial; solve_respects |].
  constructor; [unfold emit_access_rights; solve_respects |].
  constructor; [unfold emit_issued; solve_respects |].
  constructor; [unfold emit_modified; solve_respects |].
  constructor; [unfold emit_license; solve_respects |].
  constructor; [unfold emit_contact_and_publisher; solve_respects |].
  constructor; [unfold emit_creator; solve_respects |].
  constructor; [unfold emit_version; solve_respects |].
  constructor; [unfold emit_flag; solve_respects |].
  constructor; [unfold emit_flag; solve_respects |].
  constructor; [unfold emit_granularity; solve_respects |].
  constructor; [unfold emit_keywords; solve_respects |].
  constructor; [unfold emit_start_date; solve_respects |].
  constructor; [unfold emit_end_date; solve_respects |].
  constructor; [unfold emit_themes; solve_respects |].
  constructor;
    [unfold emit_distributions; apply respects_bind; [apply respects_liftR |];
     intros recursos; apply respects_for_each; intros resource;
     apply emit_resource_respects |].
  constructor.
Qed.

(** The conversion is a function of the record and of the tables. *)
Lemma api_to_rdf_same_tables data bn st1 st2 :
  (forall name, table rt w st1 name = table rt w st2 name) ->
  (api_to_rdf rt w data bn st1).1 = (api_to_rdf rt w data bn st2).1.
Proof.
  intros Ht. unfold api_to_rdf.
  destruct (respects_blocks _ (dataset_blocks_respect data)
                            (Build [] bn st1) (Build [] bn st2))
    as [Hr (Hg & _)].
  { repeat split. exact Ht. }
  destruct (for_each (dataset_blocks rt w data) id (Build [] bn st1)) as [r1 s1].
  destruct (for_each (dataset_blocks rt w data) id (Build [] bn st2)) as [r2 s2].
  cbn [fst snd] in *. subst r2. destruct r1 as [[]|e]; cbn [fst]; congruence.
Qed.

Lemma api_to_rdf_keeps_tables data bn st :
  same_tables rt w st (api_to_rdf rt w data bn st).2.
Proof.
  unfold api_to_rdf.
  destruct (for_each (dataset_blocks rt w data) id (Build [] bn st)) as [r s] eqn:E.
  destruct (adds_only_blocks _ _ (dataset_blocks_monotone data) _ _ _ E) as [_ T].
  now destruct r.
Qed.

(** X17. In a world that does not change (the vocabulary files and
    the published copies answer the second time as they did the first),
    converting a record again gives the same outcome: the second
    conversion starts from the vocabulary caches that the first one has
    filled, and still returns the same graph, or raises the same
    exception. *)
Theorem conversion_is_repeatable
        (data : list (pystr * pyval)) (bn : nat) (st : vstate) :
  (api_to_rdf rt w data bn (api_to_rdf rt w data bn st).2).1
  = (api_to_rdf rt w data bn st).1.
Proof.
  apply api_to_rdf_same_tables. intros name.
  apply (api_to_rdf_keeps_tables data bn st).
Qed.

(** X18. In a world that does not change (the vocabulary files and
    the published copies answer every time the same), what a value
    resolves to does not depend on the resolutions made before:
    whatever was resolved first, and whatever this has put in the cache,
    the result is the one that the first state gives. *)
Theorem resolution_does_not_depend_on_earlier_ones
        (st : vstate) (value earlier : pyval) (name earlier_name : pystr) :
  (convert_to_iri rt w value name
                  (convert_to_iri rt w earlier earlier_name st).2).1
  = (convert_to_iri rt w value name st).1.
Proof.
  rewrite !convert_to_iri_result.
  now rewrite (same_tables_convert earlier earlier_name st name).
Qed.

End WithRuntime.

Import Examples Records.

(** The conversion of [data] returns a graph. *)
Ltac returned_graph data g st' E :=
  destruct (api_to_rdf R local data 0 st0) as [[g|?] st'] eqn:E;
  [| exfalso;
     assert (Hok : match (api_to_rdf R local data 0 st0).1 with
                   | Ok _ => true
                   | Raise _ => false
                   end = true) by (vm_compute; reflexivity);
     rewrite E in Hok; discriminate Hok ].

Lemma resource_that_is_no_object_fails_witness :
  exists e, (api_to_rdf R local resource_by_id 0 st0).1 = Raise e.
Proof.
  destruct (api_to_rdf R local resource_by_id 0 st0) as [[g|e] st'] eqn:E;
    [| exists e; reflexivity].
  exfalso.
  apply (resource_that_is_no_object_fails R local resource_by_id 0%nat st0
           [PStr (u "r-1")] (PStr (u "r-1"))
           ltac:(vm_compute; reflexivity) ltac:(left; reflexivity)
           ltac:(intros fields; discriminate) g).
  now rewrite E.
Defined.

Lemma each_resource_has_its_distribution_witness :
  exists g,
    (api_to_rdf R local bolsa_familia 0 st0).1 = Ok g
    /\ In (URIRef (u "https://dados.gov.br/api/bolsa-familia"), DCAT "distribution",
           URIRef (u "https://dados.gov.br/api/bolsa-familia/resource/r-1")) g
    /\ In (URIRef (u "https://dados.gov.br/api/bolsa-familia/resource/r-1"),
           RDF "type", DCAT "Distribution") g.
Proof.
  returned_graph bolsa_familia g st' E.
  exists g. split; [reflexivity |].
  destruct (each_resource_has_its_distribution R local bolsa_familia 0%nat st0 st' g
              [ PDict [ (u "id", PStr (u "r-1"));
                        (u "formato", PStr (u "CSV"));
                        (u "dataCatalogacao", PStr (u "2024-02-01T08:30:00")) ] ]
              [ (u "id", PStr (u "r-1"));
                (u "formato", PStr (u "CSV"));
                (u "dataCatalogacao", PStr (u "2024-02-01T08:30:00")) ]
              E ltac:(vm_compute; reflexivity) ltac:(left; reflexivity))
    as (_ & H1 & H2).
  split; [exact H1 | exact H2].
Defined.

Lemma no_resources_no_distribution_triples_witness :
  exists g,
    (api_to_rdf R local no_resources 0 st0).1 = Ok g
    /\ forall t, In t g -> has_predicate distribution_only_predicates t = false.
Proof.
  returned_graph no_resources g st' E.
  exists g. split; [reflexivity |].
  exact (no_resources_no_distribution_triples R local no_resources 0%nat st0 st' g
           E ltac:(vm_compute; reflexivity)).
Defined.

Lemma literals_are_never_empty_witness :
  exists g,
    (api_to_rdf R local bolsa_familia 0 st0).1 = Ok g
    /\ forall s p v lang, In (s, p, Literal v None lang) g -> truthy v = true.
Proof.
  returned_graph bolsa_familia g st' E.
  exists g. split; [reflexivity |].
  intros s p v lang.
  exact (literals_are_never_empty R local bolsa_familia 0%nat st0 st' g s p v lang E).
Defined.

Lemma spatial_coverage_is_never_a_dash_witness :
  exists g,
    (api_to_rdf R local without_coverage 0 st0).1 = Ok g
    /\ forall s o, In (s, DCTERMS "spatial", o) g -> o <> plain (PStr (u "-")).
Proof.
  returned_graph without_coverage g st' E.
  exists g. split; [reflexivity |].
  intros s o.
  exact (spatial_coverage_is_never_a_dash R local without_coverage 0%nat st0 st' g s o E).
Defined.

Lemma each_named_tag_is_a_keyword_witness :
  exists g,
    (api_to_rdf R local without_coverage 0 st0).1 = Ok g
    /\ In (URIRef (u "https://dados.gov.br/api/censo-escolar"), DCAT "keyword",
           plain (PStr (u "escolas"))) g.
Proof.
  returned_graph without_coverage g st' E.
  exists g. split; [reflexivity |].
  exact (each_named_tag_is_a_keyword R local without_coverage 0%nat st0 st' g
           [ PDict [ (u "name", PStr (u "escolas")) ]; PDict [ (u "name", PStr []) ] ]
           [ (u "name", PStr (u "escolas")) ]
           E ltac:(vm_compute; reflexivity) ltac:(left; reflexivity)
           ltac:(vm_compute; reflexivity)).
Defined.

Lemma dates_in_the_graph_are_normalized_witness :
  exists g,
    (api_to_rdf R local bolsa_familia 0 st0).1 = Ok g
    /\ forall t,
        In t g -> has_predicate date_predicates t = true ->
        date_of_the_record R local bolsa_familia t.
Proof.
  returned_graph bolsa_familia g st' E.
  exists g. split; [reflexivity |].
  exact (dates_in_the_graph_are_normalized R local bolsa_familia 0%nat st0 st' g E).
Defined.

End BuildFacts.

(** ** From a line of the CSV to the graph *)

Module CsvFacts.
Import Vocabularies ApiToRdf CsvToRdf CsvSpec BuildSpec BuildFacts.

Section WithRuntime.
Context (rt : PyRuntime) (w : World) (json_loads : pystr -> json_outcome).

Lemma rbind_ok {A C} (m : res A) (k : A -> res C) c :
  rbind m k = Ok c -> exists a, m = Ok a /\ k a = Ok c.
Proof. destruct m as [a|e]; [eauto | discriminate]. Qed.

(** Reading a key after an assignment. *)
Lemma assoc_dict_set (d : list (pystr * pyval)) k v k' :
  assoc k' (dict_set d k v) = if str_eqb k k' then Some v else assoc k' d.
Proof.
  unfold str_eqb. induction d as [|[k0 v0] d IH]; cbn [dict_set assoc].
  - unfold str_eqb. reflexivity.
  - unfold str_eqb in *. destruct (bool_decide_reflect (k0 = k)) as [-> | Hne];
      cbn [assoc]; unfold str_eqb.
    + destruct (bool_decide (k = k')); reflexivity.
    + rewrite IH. destruct (bool_decide_reflect (k0 = k')) as [-> | Hne'].
      * rewrite bool_decide_eq_false_2; [reflexivity | congruence].
      * reflexivity.
Qed.

Lemma bool_field_cases row k d d' :
  bool_field rt row k d = Ok d' ->
  (truthy (row_get row k) = false /\ d' = d)
  \/ exists s, row_get row k = PStr s /\ s <> []
               /\ d' = dict_set d (u k) (PBool (bool_decide (lower rt s ∈ true_words))).
Proof.
  unfold bool_field. destruct (truthy (row_get row k)) eqn:Ht.
  - destruct (row_get row k) as [| | | |s| |] eqn:Hc; try discriminate.
    intros [= <-]. right. exists s. repeat split.
    intros ->. discriminate Ht.
  - intros [= <-]. now left.
Qed.

Lemma json_field_cases row k d d' :
  json_field json_loads row k d = Ok d' ->
  exists v,
    d' = dict_set d (u k) v
    /\ ((truthy (row_get row k) = false /\ v = PList [])
        \/ exists s, row_get row k = PStr s /\ s <> []
                     /\ (json_loads s = JsonValue v
                         \/ json_loads s = JsonDecodeError /\ v = PList [])).
Proof.
  unfold json_field. destruct (truthy (row_get row k)) eqn:Ht.
  - destruct (row_get row k) as [| | | |s| |] eqn:Hc; try discriminate.
    assert (Hne : s <> []) by (intros ->; discriminate Ht).
    destruct (json_loads s) as [v| |e] eqn:Ej; try discriminate; intros [= <-];
      eexists; (split; [reflexivity |]); right; exists s; auto.
  - intros [= <-]. eexists. split; [reflexivity |]. now left.
Qed.

(** The dict, from the stages of [csv_row_to_dict]. *)
Lemma csv_row_stages row data :
  csv_row_to_dict rt json_loads row = Ok data ->
  exists d1 d2 d3 d4,
    bool_field rt row "dadosRacaEtnia" (fold_left (copy_field row) basic_fields []) = Ok d1
    /\ bool_field rt row "dadosGenero" d1 = Ok d2
    /\ json_field json_loads row "temas" d2 = Ok d3
    /\ json_field json_loads row "tags" d3 = Ok d4
    /\ json_field json_loads row "recursos" d4 = Ok data.
Proof.
  unfold csv_row_to_dict. cbv zeta. intros H.
  apply rbind_ok in H as (d1 & H1 & H).
  apply rbind_ok in H as (d2 & H2 & H).
  apply rbind_ok in H as (d3 & H3 & H).
  apply rbind_ok in H as (d4 & H4 & H).
  exists d1, d2, d3, d4. auto.
Qed.

Lemma keys_within_set keys d k v :
  In k keys -> keys_within keys d -> keys_within keys (dict_set d k v).
Proof.
  intros Hk Hd k'. rewrite assoc_dict_set. unfold str_eqb.
  destruct (bool_decide_reflect (k = k')) as [<- | _]; auto.
Qed.

Lemma keys_within_copied row fields keys d :
  (forall k, In k fields -> In (u k) keys) ->
  keys_within keys d -> keys_within keys (fold_left (copy_field row) fields d).
Proof.
  revert d. induction fields as [|f fields IH]; intros d Hf Hd; [exact Hd |].
  cbn [fold_left]. apply IH; [intros k Hk; apply Hf; now right |].
  apply keys_within_set; [apply Hf; now left | exact Hd].
Qed.

Lemma csv_row_keys row data :
  csv_row_to_dict rt json_loads row = Ok data ->
  keys_within (map u known_columns) data.
Proof.
  intros H. apply csv_row_stages in H as (d1 & d2 & d3 & d4 & H1 & H2 & H3 & H4 & H5).
  assert (K0 : keys_within (map u known_columns)
                           (fold_left (copy_field row) basic_fields [])).
  { apply keys_within_copied; [| intros k Hk; now elim Hk].
    intros k Hk. apply in_map. unfold known_columns. apply in_or_app. now left. }
  assert (Kin : forall k, In k ["dadosRacaEtnia"; "dadosGenero"; "temas"; "tags";
                                "recursos"]%string ->
                          In (u k) (map u known_columns)).
  { intros k Hk. apply in_map. unfold known_columns. apply in_or_app. now right. }
  assert (K1 : keys_within (map u known_columns) d1).
  { apply bool_field_cases in H1 as [[_ ->] | (s & _ & _ & ->)]; [exact K0 |].
    apply keys_within_set; [apply Kin; simpl; tauto | exact K0]. }
  assert (K2 : keys_within (map u known_columns) d2).
  { apply bool_field_cases in H2 as [[_ ->] | (s & _ & _ & ->)]; [exact K1 |].
    apply keys_within_set; [apply Kin; simpl; tauto | exact K1]. }
  apply json_field_cases in H3 as (v3 & -> & _).
  apply json_field_cases in H4 as (v4 & -> & _).
  apply json_field_cases in H5 as (v5 & -> & _).
  repeat (apply keys_within_set; [apply Kin; simpl; tauto |]). exact K2.
Qed.

Lemma copied_fields row k :
  In k basic_fields ->
  assoc (u k) (fold_left (copy_field row) basic_fields []) = Some (row_get row k).
Proof.
  unfold copy_field. generalize (row_get row) as cell. intros cell Hk.
  unfold basic_fields in Hk. cbn [In] in Hk.
  repeat (destruct Hk as [<- | Hk]; [vm_compute; reflexivity |]). contradiction.
Qed.

Lemma other_keys k k' :
  In k basic_fields ->
  In k' ["dadosRacaEtnia"; "dadosGenero"; "temas"; "tags"; "recursos"]%string ->
  str_eqb (u k') (u k) = false.
Proof.
  intros Hk Hk'. unfold basic_fields in Hk. cbn [In] in Hk, Hk'.
  repeat (destruct Hk' as [<- | Hk']; [| try contradiction]);
    repeat (destruct Hk as [<- | Hk]; [vm_compute; reflexivity |]); contradiction.
Qed.

Lemma bool_field_text row k d :
  text_cell (row_get row k) = true -> exists d', bool_field rt row k d = Ok d'.
Proof.
  unfold bool_field. destruct (row_get row k); try discriminate; intros _.
  - cbn. eauto.
  - destruct (truthy (PStr s)); eauto.
Qed.

Lemma json_field_text row k d :
  text_cell (row_get row k) = true ->
  (forall s e, row_get row k = PStr s -> json_loads s <> JsonRaises e) ->
  exists d', json_field json_loads row k d = Ok d'.
Proof.
  unfold json_field. destruct (row_get row k); try discriminate; intros _ Hj.
  - cbn. eauto.
  - destruct (truthy (PStr s)); [| eauto].
    destruct (json_loads s) as [v| |e] eqn:Ej; eauto.
    now elim (Hj s e eq_refl).
Qed.

Lemma line_of_text_converts (row : list (pystr * pyval)) :
  (forall k, In k known_columns -> text_cell (row_get row k) = true) ->
  (forall k s e,
      In k ["temas"; "tags"; "recursos"]%string ->
      row_get row k = PStr s ->
      json_loads s <> JsonRaises e) ->
  exists data,
    csv_row_to_dict rt json_loads row = Ok data
    /\ (forall k, In k basic_fields -> get data k = row_get row k)
    /\ (forall k, In k ["temas"; "tags"; "recursos"]%string -> assoc (u k) data <> None)
    /\ (forall k, assoc k data <> None -> In k (map u known_columns)).
Proof.
  intros Htext Hjson.
  assert (Hin : forall k,
             In k ["dadosRacaEtnia"; "dadosGenero"; "temas"; "tags"; "recursos"]%string ->
             text_cell (row_get row k) = true).
  { intros k Hk. apply Htext. unfold known_columns. apply in_or_app. now right. }
  destruct (bool_field_text row "dadosRacaEtnia"
              (fold_left (copy_field row) basic_fields [])) as [d1 H1];
    [apply Hin; simpl; tauto |].
  destruct (bool_field_text row "dadosGenero" d1) as [d2 H2]; [apply Hin; simpl; tauto |].
  destruct (json_field_text row "temas" d2) as [d3 H3];
    [apply Hin; simpl; tauto | intros s e; apply Hjson; simpl; tauto |].
  destruct (json_field_text row "tags" d3) as [d4 H4];
    [apply Hin; simpl; tauto | intros s e; apply Hjson; simpl; tauto |].
  destruct (json_field_text row "recursos" d4) as [data H5];
    [apply Hin; simpl; tauto | intros s e; apply Hjson; simpl; tauto |].
  assert (Hrun : csv_row_to_dict rt json_loads row = Ok data).
  { unfold csv_row_to_dict. cbv zeta. rewrite H1. cbn [rbind]. rewrite H2. cbn [rbind].
    rewrite H3. cbn [rbind]. rewrite H4. cbn [rbind]. exact H5. }
  exists data. split; [exact Hrun |]. split; [| split].
  - intros k Hk. unfold get, get_default.
    apply json_field_cases in H5 as (v5 & -> & _).
    apply json_field_cases in H4 as (v4 & -> & _).
    apply json_field_cases in H3 as (v3 & -> & _).
    rewrite !assoc_dict_set.
    rewrite !(other_keys k) by (simpl; tauto).
    assert (E1 : assoc (u k) d1 = Some (row_get row k)).
    { apply bool_field_cases in H1 as [[_ ->] | (s & _ & _ & ->)].
      - now apply copied_fields.
      - rewrite assoc_dict_set, (other_keys k) by (simpl; tauto).
        now apply copied_fields. }
    apply bool_field_cases in H2 as [[_ ->] | (s & _ & _ & ->)].
    + now rewrite E1.
    + rewrite assoc_dict_set, (other_keys k) by (simpl; tauto). now rewrite E1.
  - intros k Hk.
    apply json_field_cases in H5 as (v5 & -> & _).
    apply json_field_cases in H4 as (v4 & -> & _).
    apply json_field_cases in H3 as (v3 & -> & _).
    rewrite !assoc_dict_set. cbn [In] in Hk.
    destruct Hk as [<- | [<- | [<- | []]]]; vm_compute; discriminate.
  - now apply (csv_row_keys row).
Qed.

Lemma json_field_raises row k d e :
  text_cell (row_get row k) = true ->
  json_field json_loads row k d = Raise e ->
  exists s, row_get row k = PStr s /\ json_loads s = JsonRaises e.
Proof.
  unfold json_field. destruct (row_get row k) as [| | | |s| |]; try discriminate; intros _.
  destruct (truthy (PStr s)); [| discriminate].
  destruct (json_loads s) as [v| |e'] eqn:Ej; try discriminate.
  intros [= <-]. eauto.
Qed.

Lemma line_of_text_raises (row : list (pystr * pyval)) e :
  (forall k, In k known_columns -> text_cell (row_get row k) = true) ->
  csv_row_to_dict rt json_loads row = Raise e ->
  exists k s,
    In k ["temas"; "tags"; "recursos"]%string
    /\ row_get row k = PStr s
    /\ json_loads s = JsonRaises e.
Proof.
  intros Htext Hraise.
  assert (Hin : forall k,
             In k ["dadosRacaEtnia"; "dadosGenero"; "temas"; "tags"; "recursos"]%string ->
             text_cell (row_get row k) = true).
  { intros k Hk. apply Htext. unfold known_columns. apply in_or_app. now right. }
  destruct (bool_field_text row "dadosRacaEtnia"
              (fold_left (copy_field row) basic_fields [])) as [d1 H1];
    [apply Hin; simpl; tauto |].
  destruct (bool_field_text row "dadosGenero" d1) as [d2 H2]; [apply Hin; simpl; tauto |].
  unfold csv_row_to_dict in Hraise. cbv zeta in Hraise.
  rewrite H1 in Hraise. cbn [rbind] in Hraise. rewrite H2 in Hraise. cbn [rbind] in Hraise.
  destruct (json_field json_loads row "temas" d2) as [d3|e3] eqn:E3; cbn [rbind] in Hraise.
  - destruct (json_field json_loads row "tags" d3) as [d4|e4] eqn:E4; cbn [rbind] in Hraise.
    + apply json_field_raises in Hraise as (s & Hs & Hj); [| apply Hin; simpl; tauto].
      exists "recursos"%string, s. repeat split; auto. simpl. tauto.
    + injection Hraise as ->.
      apply json_field_raises in E4 as (s & Hs & Hj); [| apply Hin; simpl; tauto].
      exists "tags"%string, s. repeat split; auto. simpl. tauto.
  - injection Hraise as ->.
    apply json_field_raises in E3 as (s & Hs & Hj); [| apply Hin; simpl; tauto].
    exists "temas"%string, s. repeat split; auto. simpl. tauto.
Qed.

(** X19. A line whose cells are texts, as the CSV reader gives them,
    is converted without error, unless [json.loads] raises something
    else than [JSONDecodeError] on the cell of one of the three list
    columns (it raises [RecursionError] or a plain [ValueError] on some
    texts, and the converter does not catch these): an exception of the
    conversion is one that [json.loads] raised on such a cell.  When the
    line is converted, each of the seventeen plain columns is copied as
    it is, with the empty text for a column that the line does not
    have; the three list columns are always set; and the dict has no
    key but the known ones: any other column of the file is dropped. *)
Theorem line_of_text_gives_the_known_keys (row : list (pystr * pyval)) :
  (forall k, In k known_columns -> text_cell (row_get row k) = true) ->
  ((forall k s e,
       In k ["temas"; "tags"; "recursos"]%string ->
       row_get row k = PStr s ->
       json_loads s <> JsonRaises e) ->
   exists data,
     csv_row_to_dict rt json_loads row = Ok data
     /\ (forall k, In k basic_fields -> get data k = row_get row k)
     /\ (forall k, In k ["temas"; "tags"; "recursos"]%string -> assoc (u k) data <> None)
     /\ (forall k, assoc k data <> None -> In k (map u known_columns)))
  /\ (forall e,
         csv_row_to_dict rt json_loads row = Raise e ->
         exists k s,
           In k ["temas"; "tags"; "recursos"]%string
           /\ row_get row k = PStr s
           /\ json_loads s = JsonRaises e).
Proof.
  intros Htext. split.
  - now apply line_of_text_converts.
  - intros e. now apply line_of_text_raises.
Qed.

Lemma get_dict_set_other (d : list (pystr * pyval)) k v k' dflt :
  str_eqb k k' = false ->
  get_default (dict_set d k v) k' dflt = get_default d k' dflt.
Proof. intros H. unfold get_default. now rewrite assoc_dict_set, H. Qed.

Lemma get_dict_set_same (d : list (pystr * pyval)) k v dflt :
  get_default (dict_set d k v) k dflt = v.
Proof.
  unfold get_default. rewrite assoc_dict_set. unfold str_eqb.
  now rewrite bool_decide_eq_true_2.
Qed.

(** The triple of a flag that the record holds as a boolean. *)
Lemma flag_in_graph data bn st g st' (b : bool) :
  api_to_rdf rt w data bn st = (Ok g, st') ->
  get data "dadosGenero" = PBool b ->
  In (dataset_uri rt w data, DCATBR "dadosGenero", typed (PBool b) (XSD "boolean")) g.
Proof.
  intros Hrun Hget.
  apply api_to_rdf_run in Hrun as (s & Hrun & <- & _).
  destruct (blocks_run rt w _ (emit_flag rt "dadosGenero" data (dataset_uri rt w data))
                       _ _ (dataset_blocks_monotone rt w data) Hrun)
    as (s1 & s2 & Hb & _ & G1).
  { unfold dataset_blocks. cbv zeta. unfold dataset_uri. simpl. tauto. }
  apply G1. unfold emit_flag in Hb. cbv zeta in Hb. rewrite Hget in Hb.
  cbn [is_none] in Hb. apply bind_run in Hb as (flag & s3 & Hf & Hb).
  unfold mret, B_ret in Hf. injection Hf as <- <-.
  cbn [is_none negb when flag_is_true] in Hb. unfold add in Hb.
  injection Hb as <-. cbn [graph]. apply in_or_app. right. now left.
Qed.

(** X20. The words of a flag column: a cell of the column
    [dadosGenero] that is not empty gives the dataset a boolean in the
    graph, true when the cell is [true], [sim], [1] or [yes] in any
    case, false for any other text. *)
Theorem flag_words_of_the_csv
        (row data : list (pystr * pyval)) (cell : pystr)
        (bn : nat) (st st' : vstate) (g : list triple) :
  csv_row_to_dict rt json_loads row = Ok data ->
  row_get row "dadosGenero" = PStr cell ->
  cell <> [] ->
  api_to_rdf rt w data bn st = (Ok g, st') ->
  In (dataset_uri rt w data, DCATBR "dadosGenero",
      typed (PBool (bool_decide (lower rt cell ∈ true_words))) (XSD "boolean")) g.
Proof.
  intros Hcsv Hcell Hne Hrun. apply (flag_in_graph _ _ _ _ _ _ Hrun).
  apply csv_row_stages in Hcsv as (d1 & d2 & d3 & d4 & H1 & H2 & H3 & H4 & H5).
  apply json_field_cases in H5 as (v5 & -> & _).
  apply json_field_cases in H4 as (v4 & -> & _).
  apply json_field_cases in H3 as (v3 & -> & _).
  unfold get.
  rewrite !get_dict_set_other by (vm_compute; reflexivity).
  apply bool_field_cases in H2 as [[Hf _] | (s & Hs & _ & ->)].
  - rewrite Hcell in Hf. cbn [truthy] in Hf. apply negb_false_iff in Hf.
    unfold str_eqb in Hf. apply bool_decide_eq_true in Hf. contradiction.
  - rewrite Hcell in Hs. injection Hs as <-. apply get_dict_set_same.
Qed.


End WithRuntime.

Import Examples Records.

Lemma line_of_text_gives_the_known_keys_witness :
  exists data,
    csv_row_to_dict R json_of_cells csv_line = Ok data
    /\ get data "titulo" = PStr (u "Bolsa Família")
    /\ get data "versao" = PStr []
    /\ assoc (u "fonte") data = None.
Proof.
  destruct (proj1 (line_of_text_gives_the_known_keys R json_of_cells csv_line
                     ltac:(intros k Hk; unfold known_columns, basic_fields in Hk;
                           cbn [app In] in Hk;
                           repeat (destruct Hk as [<- | Hk]; [vm_compute; reflexivity |]);
                           contradiction)))
    as (data & Hrun & Hcopy & _ & Hkeys).
  { intros k s e _ _. unfold json_of_cells. destruct (str_eqb s (u "[]")); discriminate. }
  exists data. split; [exact Hrun |]. split; [| split].
  - rewrite (Hcopy "titulo"%string) by (simpl; tauto). vm_compute. reflexivity.
  - rewrite (Hcopy "versao"%string) by (simpl; tauto). vm_compute. reflexivity.
  - destruct (assoc (u "fonte") data) eqn:E; [| reflexivity].
    exfalso. assert (Hin : In (u "fonte") (map u known_columns)).
    { apply Hkeys. rewrite E. discriminate. }
    revert Hin. vm_compute. intuition discriminate.
Defined.

Lemma flag_words_of_the_csv_witness :
  exists data g,
    csv_row_to_dict R json_of_cells csv_line = Ok data
    /\ (api_to_rdf R local data 0 st0).1 = Ok g
    /\ In (URIRef (u "https://dados.gov.br/api/bolsa-familia"), DCATBR "dadosGenero",
           typed (PBool true) (XSD "boolean")) g.
Proof.
  set (data := match csv_row_to_dict R json_of_cells csv_line with
               | Ok d => d
               | Raise _ => []
               end).
  assert (Hcsv : csv_row_to_dict R json_of_cells csv_line = Ok data)
    by (vm_compute; reflexivity).
  returned_graph data g st' E.
  exists data, g. split; [exact Hcsv |]. split; [now rewrite E |].
  exact (flag_words_of_the_csv R local json_of_cells csv_line data (u "Sim")
           0%nat st0 st' g Hcsv ltac:(vm_compute; reflexivity)
           ltac:(vm_compute; discriminate) E).
Defined.


End CsvFacts.

(** ** The batch of evaluate_csv_datasets.py *)

Module EvaluateFacts.
Import ApiToRdf Evaluate EvaluateSpec.

Section WithServices.
Context (rt : PyRuntime)
        (convert : list (pystr * pyval) -> res pystr)
        (encode : pystr -> res (list N))
        (validate : list N -> option pystr -> bool * list pystr * list pystr).





Lemma join_nil sep : join sep [] = [].
Proof. reflexivity. Qed.

(** X23. A cell of the summary is bounded: whatever the messages, it
    has at most 503 characters; and it is the messages themselves,
    joined, when there are at most five of them and the joined text has
    at most 500 characters. *)
Theorem summary_cell_is_bounded (messages : list pystr) :
  (length (summary_cell messages) <= 503)%nat
  /\ ((length messages <= 5)%nat ->
      (length (join (u "; ") messages) <= 500)%nat ->
      summary_cell messages = join (u "; ") messages).
Proof.
  unfold summary_cell. cbv zeta. split.
  - match goal with
    | |- context [if (500 <? length ?s)%nat then _ else _] =>
        generalize s as cell; intros cell
    end.
    destruct (Nat.ltb_spec 500 (length cell)).
    + rewrite length_app, length_take.
      change (length (u "...")) with 3%nat. lia.
    + lia.
  - intros H5 H500. rewrite take_ge by lia.
    destruct (Nat.ltb_spec 5 (length messages)); [lia |].
    destruct (Nat.ltb_spec 500 (length (join (u "; ") messages))); [lia | reflexivity].
Qed.

End WithServices.

Lemma summary_cell_is_bounded_witness :
  summary_cell [u "sh:minCount"; u "sh:datatype"]
  = join (u "; ") [u "sh:minCount"; u "sh:datatype"].
Proof.
  apply (proj2 (summary_cell_is_bounded [u "sh:minCount"; u "sh:datatype"])).
  - cbn [length]. lia.
  - vm_compute. lia.
Defined.

End EvaluateFacts.

(** ** Files that are not UTF-8 *)

Module DecodingFacts.
Import Utf8 Utf8Spec ValidateRdf.

Lemma never_in_utf8_spec b :
  never_in_utf8 b = true ->
  (b <? 128)%N = false /\ lead b = None /\ is_cont b = false.
Proof.
  unfold never_in_utf8. intros H.
  assert (Hb : (b = 192 \/ b = 193 \/ 245 <= b)%N).
  { apply orb_true_iff in H as [H | H]; [apply orb_true_iff in H as [H | H] |].
    - apply N.eqb_eq in H. lia.
    - apply N.eqb_eq in H. lia.
    - apply N.leb_le in H. lia. }
  destruct Hb as [-> | [-> | Hb]]; [repeat split | repeat split |].
  split; [apply N.ltb_ge; lia |].
  unfold lead, is_cont.
  repeat match goal with
         | |- context [(b <=? ?y)%N] => rewrite (proj2 (N.leb_gt b y)) by lia
         | |- context [(b =? ?y)%N] => rewrite (proj2 (N.eqb_neq b y)) by lia
         end.
  rewrite !andb_false_r. split; reflexivity.
Qed.

(** The continuation bytes that were read are left behind; the rest is
    a suffix. *)
Lemma conts_rest n : forall acc bs r rest,
  conts n acc bs = (r, rest) ->
  exists read, bs = read ++ rest /\ Forall (fun b => is_cont b = true) read.
Proof.
  induction n as [|n IH]; intros acc bs r rest; cbn [conts].
  - intros [= <- <-]. exists []. split; [reflexivity | constructor].
  - destruct bs as [|b bs].
    + intros [= <- <-]. exists []. split; [reflexivity | constructor].
    + destruct (is_cont b) eqn:Hb.
      * intros H. apply IH in H as (read & -> & F). exists (b :: read).
        split; [reflexivity | now constructor].
      * intros [= <- <-]. exists []. split; [reflexivity | constructor].
Qed.

Lemma decode_strict_raises b : never_in_utf8 b = true ->
  forall fuel bs,
    (length bs < fuel)%nat -> In b bs -> decode_fuel fuel false bs = Raise decode_error.
Proof.
  intros Hb. destruct (never_in_utf8_spec b Hb) as (Hascii & Hlead & Hcont).
  induction fuel as [|fuel IH]; intros bs Hlen Hin; [lia |].
  destruct bs as [|b0 r]; [destruct Hin |]. cbn [decode_fuel]. cbn [length] in Hlen.
  destruct (b0 <? 128)%N eqn:H0.
  - destruct Hin as [-> | Hin]; [congruence |].
    rewrite (IH r) by (lia || assumption). reflexivity.
  - destruct (lead b0) as [[[lo hi] n]|] eqn:Hl; [| reflexivity].
    destruct Hin as [-> | Hin]; [congruence |].
    destruct r as [|b1 r1]; [reflexivity |].
    destruct ((lo <=? b1) && (b1 <=? hi))%N eqn:Hrange; [| reflexivity].
    assert (Hc1 : is_cont b1 = true).
    { unfold is_cont. apply andb_true_iff in Hrange as [H1 H2].
      apply N.leb_le in H1, H2. unfold lead in Hl.
      repeat match type of Hl with
             | (if ?c then _ else _) = _ => destruct c
             end; try discriminate; injection Hl as <- <- <-;
        apply andb_true_iff; split; apply N.leb_le; lia. }
    destruct Hin as [-> | Hin]; [congruence |].
    destruct (conts (Nat.pred n) (payload b0 n * 64 + (b1 - 128))%N r1)
      as [[c|] rest] eqn:Hk; [| reflexivity].
    apply conts_rest in Hk as (read & -> & F).
    rewrite (IH rest); [reflexivity | |].
    + cbn [length] in Hlen. rewrite length_app in Hlen. lia.
    + apply in_app_or in Hin as [Hin | Hin]; [| exact Hin].
      rewrite Forall_forall in F. apply list_elem_of_In in Hin.
      specialize (F b Hin). cbn in F. congruence.
Qed.

Section WithRuntime.
Context (rt : PyRuntime) (eng : Engine).

(** X24. A file that holds a byte that no UTF-8 text has (0xC0, 0xC1,
    or 0xF5 and above) is reported as a decoding error, whatever its
    name and whatever the rest of it: the guess of the format skips
    the byte, the decoding that follows does not, and the parser is
    not reached. *)
Theorem file_that_is_no_utf8_is_a_decoding_error
        (file_content : list N) (filename : option pystr) (b : N) :
  In b file_content ->
  never_in_utf8 b = true ->
  validate_rdf rt eng file_content filename
  = (false, [ u "Error decoding file. Ensure it is UTF-8 encoded" ], []).
Proof.
  intros Hin Hb. unfold validate_rdf. cbv zeta. unfold decode.
  rewrite (decode_strict_raises b Hb) by (lia || assumption).
  reflexivity.
Qed.

End WithRuntime.

Import Examples.

Lemma file_that_is_no_utf8_is_a_decoding_error_witness :
  validate_rdf R turtle_fails (bytes "@prefix dcat: <http://www.w3.org/ns/dcat#> ." ++ [255%N])
               (Some (u "dados.ttl"))
  = (false, [ u "Error decoding file. Ensure it is UTF-8 encoded" ], []).
Proof.
  apply (file_that_is_no_utf8_is_a_decoding_error R turtle_fails _ _ 255%N).
  - apply in_or_app. right. now left.
  - reflexivity.
Defined.

End DecodingFacts.
